(** * EcoFinds marketplace backend: route handlers over a relational store

    A shallow embedding of the Express route handlers (purchases, cart,
    products, chat, admin, users) and of the domain models (Product, User)
    they call.  A handler [async (req, res, next) => ...] becomes a function
    from the store and the request to the new store and the handler's
    outcome: either the JSON reply it sent or the error it passed to [next].
    The store is threaded explicitly; every [await db.execute(...)] is one
    store transformation, in source order (the handlers open no
    transaction). *)

From Stdlib Require Import ZArith List Ascii String Bool Lia.
Import ListNotations.

Open Scope string_scope.
Open Scope list_scope.
Open Scope Z_scope.

(** ** JavaScript values that reach the handlers *)

(** The result of [parseInt(...)]: a number or [NaN]. *)
Inductive JsNum :=
| NaN
| Num (z : Z).

Definition isNaN (n : JsNum) : bool :=
  match n with NaN => true | Num _ => false end.

(** [a === b] on two numbers: [NaN] equals nothing, itself included. *)
Definition num_strict_eq (a b : JsNum) : bool :=
  match a, b with
  | Num x, Num y => x =? y
  | _, _ => false
  end.

(** [(a - 1) * b] as in [(parseInt(page) - 1) * parseInt(limit)]. *)
Definition page_offset (page limit : JsNum) : JsNum :=
  match page, limit with
  | Num p, Num l => Num ((p - 1) * l)
  | _, _ => NaN
  end.

(** JSON-like values held in object properties. *)
Inductive JsVal :=
| JUndefined
| JNull
| JBool (b : bool)
| JNumber (z : Z)
| JString (s : string).

(** A number as a parsed JSON body holds it: a double.  A finite double is
    given by its exact value, the fraction [num / den]. *)
Inductive JsDouble :=
| DNaN
| DInfinity (negative : bool)
| DFinite (num : Z) (den : positive).

(** A property of a parsed JSON body as a handler without validator reads
    it: any JSON value, or [undefined] when the property is absent.  An array
    or an object is given by the string [ToPrimitive] makes of it. *)
Inductive BodyValue :=
| BUndefined
| BNull
| BBool (b : bool)
| BNumber (d : JsDouble)
| BString (s : string)
| BObject (primitive : string).

(** [ToBoolean]; [!v] is its negation. *)
Definition ToBoolean (v : BodyValue) : bool :=
  match v with
  | BUndefined | BNull => false
  | BBool b => b
  | BNumber DNaN => false
  | BNumber (DInfinity _) => true
  | BNumber (DFinite num _) => negb (num =? 0)
  | BString s => negb (String.eqb s "")
  | BObject _ => true
  end.

(** What the language and the store do with values that are not integers:
    [StringToNumber] is the number a string converts to in a comparison, and
    [bind_int v] the integer an INT column takes from the bound value [v],
    [None] when the store refuses the statement. *)
Record Coercions := mkCoercions {
  StringToNumber : string -> JsDouble;
  bind_int : BodyValue -> option Z
}.

(** [ToNumber], as the relational operators apply it to an operand. *)
Definition ToNumber (co : Coercions) (v : BodyValue) : JsDouble :=
  match v with
  | BUndefined => DNaN
  | BNull => DFinite 0 1
  | BBool b => DFinite (if b then 1 else 0) 1
  | BNumber d => d
  | BString s => StringToNumber co s
  | BObject primitive => StringToNumber co primitive
  end.

(** [a < z] and [a > z] for an integer literal [z]; both are false when [a]
    is [NaN]. *)
Definition less_than (a : JsDouble) (z : Z) : bool :=
  match a with
  | DNaN => false
  | DInfinity negative => negative
  | DFinite num den => num <? z * Z.pos den
  end.

Definition greater_than (a : JsDouble) (z : Z) : bool :=
  match a with
  | DNaN => false
  | DInfinity negative => negb negative
  | DFinite num den => z * Z.pos den <? num
  end.

(** The integer a double is, if it is one. *)
Definition as_integer (d : JsDouble) : option Z :=
  match d with
  | DFinite num den =>
      if num mod Z.pos den =? 0 then Some (num / Z.pos den) else None
  | _ => None
  end.

(** The integer an INT column takes from a bound value: an integral number
    as it is, any other value as the store converts it. *)
Definition column_int (co : Coercions) (v : BodyValue) : option Z :=
  match v with
  | BNumber d =>
      match as_integer d with
      | Some z => Some z
      | None => bind_int co v
      end
  | _ => bind_int co v
  end.

(** An object as its own enumerable properties, in insertion order. *)
Definition JsObject := list (string * JsVal).

Fixpoint get_prop (k : string) (o : JsObject) : option JsVal :=
  match o with
  | [] => None
  | (k', v) :: o' => if String.eqb k k' then Some v else get_prop k o'
  end.

(** [obj[key]] on an object literal of strings. *)
Fixpoint get_message (k : string) (o : list (string * string)) : option string :=
  match o with
  | [] => None
  | (k', v) :: o' => if String.eqb k k' then Some v else get_message k o'
  end.

Definition of_option_string (o : option string) : JsVal :=
  match o with Some s => JString s | None => JNull end.

(** Truthiness of an optional string body field ([if (transaction_id)]). *)
Definition truthy_string (o : option string) : bool :=
  match o with
  | Some s => negb (String.eqb s "")
  | None => false
  end.

(** [list.includes(x)] on string literals. *)
Definition includes (l : list string) (x : string) : bool :=
  existsb (String.eqb x) l.

(** ** Rows of the schema (schema.sql)

    Only the columns the handlers below read or write are kept; a column
    left out is carried unchanged by every statement modelled here.
    [DECIMAL(10,2)] prices are integers counting hundredths. *)

Record UserRow := mkUser {
  u_id : Z;
  u_name : string;
  u_email : string;
  u_phone : option string;
  u_password : string;
  u_avatar : option string;
  u_is_verified : bool;
  u_is_active : bool;
  u_is_admin : bool;
  u_followers_count : Z;
  u_following_count : Z;
  u_listings_count : Z;
  u_sales_count : Z;
  u_created_at : Z;
  u_updated_at : Z
}.

Record ProductRow := mkProduct {
  p_id : Z;
  p_title : string;
  p_price : Z;
  p_category_id : Z;
  p_seller_id : Z;
  p_status : string;
  p_created_at : Z
}.

Record ImageRow := mkImage {
  i_id : Z;
  i_product_id : Z;
  i_image_url : string;
  i_is_primary : bool
}.

Record CartRow := mkCart {
  c_user_id : Z;
  c_product_id : Z;
  c_quantity : Z
}.

Record FavoriteRow := mkFavorite {
  f_user_id : Z;
  f_product_id : Z
}.

Record PurchaseRow := mkPurchase {
  pu_id : Z;
  pu_buyer_id : Z;
  pu_seller_id : Z;
  pu_product_id : Z;
  pu_price : Z;
  pu_quantity : Z;
  pu_status : string;
  pu_payment_method : string;
  pu_transaction_id : option string;
  pu_purchase_date : Z;
  pu_completed_at : option Z
}.

Record RoomRow := mkRoom {
  r_id : Z;
  r_buyer_id : Z;
  r_seller_id : Z;
  r_product_id : Z;
  r_last_message_at : Z
}.

Record MessageRow := mkMessage {
  m_id : Z;
  m_room_id : Z;
  m_sender_id : Z;
  m_message : string;
  m_message_type : string;
  m_attachment_url : option string;
  m_is_read : bool;
  m_created_at : Z
}.

Record ReportRow := mkReport {
  rp_id : Z;
  rp_reporter_id : Z;
  rp_reported_user_id : option Z;
  rp_report_type : string;
  rp_reason : string;
  rp_description : option string;
  rp_status : string;
  rp_admin_notes : option string;
  rp_resolved_at : option Z
}.

Record NotificationRow := mkNotification {
  n_user_id : Z;
  n_type : string;
  n_title : string;
  n_message : string;
  n_data : JsObject
}.

(** The store: one list of rows per table, in insertion order. *)
Record Db := mkDb {
  users : list UserRow;
  products : list ProductRow;
  product_images : list ImageRow;
  cart : list CartRow;
  favorites : list FavoriteRow;
  purchases : list PurchaseRow;
  chat_rooms : list RoomRow;
  messages : list MessageRow;
  reports : list ReportRow;
  notifications : list NotificationRow
}.

Definition empty_db : Db := mkDb [] [] [] [] [] [] [] [] [] [].

Definition set_users (db : Db) (x : list UserRow) : Db :=
  mkDb x (products db) (product_images db) (cart db) (favorites db)
       (purchases db) (chat_rooms db) (messages db) (reports db) (notifications db).

Definition set_products (db : Db) (x : list ProductRow) : Db :=
  mkDb (users db) x (product_images db) (cart db) (favorites db)
       (purchases db) (chat_rooms db) (messages db) (reports db) (notifications db).

Definition set_product_images (db : Db) (x : list ImageRow) : Db :=
  mkDb (users db) (products db) x (cart db) (favorites db)
       (purchases db) (chat_rooms db) (messages db) (reports db) (notifications db).

Definition set_cart (db : Db) (x : list CartRow) : Db :=
  mkDb (users db) (products db) (product_images db) x (favorites db)
       (purchases db) (chat_rooms db) (messages db) (reports db) (notifications db).

Definition set_favorites (db : Db) (x : list FavoriteRow) : Db :=
  mkDb (users db) (products db) (product_images db) (cart db) x
       (purchases db) (chat_rooms db) (messages db) (reports db) (notifications db).

Definition set_purchases (db : Db) (x : list PurchaseRow) : Db :=
  mkDb (users db) (products db) (product_images db) (cart db) (favorites db)
       x (chat_rooms db) (messages db) (reports db) (notifications db).

Definition set_chat_rooms (db : Db) (x : list RoomRow) : Db :=
  mkDb (users db) (products db) (product_images db) (cart db) (favorites db)
       (purchases db) x (messages db) (reports db) (notifications db).

Definition set_messages (db : Db) (x : list MessageRow) : Db :=
  mkDb (users db) (products db) (product_images db) (cart db) (favorites db)
       (purchases db) (chat_rooms db) x (reports db) (notifications db).

Definition set_reports (db : Db) (x : list ReportRow) : Db :=
  mkDb (users db) (products db) (product_images db) (cart db) (favorites db)
       (purchases db) (chat_rooms db) (messages db) x (notifications db).

Definition set_notifications (db : Db) (x : list NotificationRow) : Db :=
  mkDb (users db) (products db) (product_images db) (cart db) (favorites db)
       (purchases db) (chat_rooms db) (messages db) (reports db) x.

(** ** The persistence layer *)

(** Modelled from the spec: [../config/database] is not among the sources;
    the spec describes it as a relational store reached through
    parameterized statements.  Each statement is given its SQL reading on
    the row lists, and a [?] placeholder takes the value at its position in
    the parameter array, counted from the left; a parameter array that does
    not hold exactly one value per placeholder makes the store refuse the
    statement. *)
Module Sql.

Definition select_where {A : Type} (cond : A -> bool) (t : list A) : list A :=
  filter cond t.

Definition update_where {A : Type} (cond : A -> bool) (set : A -> A)
    (t : list A) : list A :=
  map (fun r => if cond r then set r else r) t.

Definition delete_where {A : Type} (cond : A -> bool) (t : list A) : list A :=
  filter (fun r => negb (cond r)) t.

Definition insert {A : Type} (r : A) (t : list A) : list A := t ++ [r].

(** [AUTO_INCREMENT]: an id above every id in the table.  The model takes
    one more than the largest id present, which is the store's counter as
    long as the row with the largest id has not been deleted. *)
Definition next_id (ids : list Z) : Z := 1 + fold_right Z.max 0 ids.

(** [rows[0]] of a result set. *)
Definition first_row {A : Type} (rows : list A) : option A := hd_error rows.

(** A value bound to a placeholder. *)
Inductive Value :=
| VString (s : string)
| VNumber (z : Z)
| VNull.

(** The value bound for an optional string. *)
Definition of_string (o : option string) : Value :=
  match o with Some s => VString s | None => VNull end.

(** Text spliced between single quotes into a statement leaves the
    statement as written only when it holds no quote and no backslash (it is
    then the content of the string literal) and no question mark (which a
    store that fills the placeholders into the text would take for one). *)
Definition plain (text : string) : bool :=
  forallb
    (fun c => negb (Ascii.eqb c "'"%char || Ascii.eqb c "\"%char || Ascii.eqb c "?"%char))
    (list_ascii_of_string text).

(** [arr.splice(1, 0, x)]: insert [x] at index 1. *)
Definition splice_1 {A : Type} (arr : list A) (x : A) : list A :=
  firstn 1 arr ++ x :: skipn 1 arr.

(** [arr.push(x)]. *)
Definition push {A : Type} (arr : list A) (x : A) : list A := arr ++ [x].

(** [LIMIT ? OFFSET ?]: both must be non-negative numbers, otherwise the
    statement is refused. *)
Definition limit_offset {A : Type} (limit offset : JsNum) (rows : list A)
    : option (list A) :=
  match limit, offset with
  | Num l, Num o =>
      if (0 <=? l) && (0 <=? o)
      then Some (firstn (Z.to_nat l) (skipn (Z.to_nat o) rows))
      else None
  | _, _ => None
  end.

(** [ORDER BY key DESC] / [ASC]: an insertion sort that keeps rows with
    equal keys in table order; [before a b] says that [a] must come
    strictly before [b]. *)
Fixpoint insert_by {A : Type} (before : A -> A -> bool) (x : A) (l : list A)
    : list A :=
  match l with
  | [] => [x]
  | y :: l' => if before y x then y :: insert_by before x l' else x :: l
  end.

Definition order_by {A : Type} (before : A -> A -> bool) (l : list A) : list A :=
  fold_right (insert_by before) [] l.

Definition desc {A : Type} (key : A -> Z) (a b : A) : bool := key b <? key a.
Definition asc {A : Type} (key : A -> Z) (a b : A) : bool := key a <? key b.

End Sql.

(** ** Handler outcomes *)

(** The body handed to [res.status(code).json(...)]. *)
Record Reply (D : Type) := mkReply {
  statusCode : Z;
  success : bool;
  message : option string;
  errors : list (string * string);
  data : option D
}.
Arguments mkReply {D}.
Arguments statusCode {D}.
Arguments success {D}.
Arguments message {D}.
Arguments errors {D}.
Arguments data {D}.

(** What a handler did: sent a reply, or called [next(error)]. *)
Inductive Outcome (D : Type) :=
| Sent (r : Reply D)
| Next (error : string).
Arguments Sent {D}.
Arguments Next {D}.

Definition fail {D : Type} (code : Z) (msg : string) : Outcome D :=
  Sent (mkReply code false (Some msg) [] None).

(** The [pagination] object every list endpoint builds. *)
Record Pagination := mkPagination {
  page : JsNum;
  limit : JsNum;
  total : Z;
  hasMore : bool
}.

Definition pagination {A : Type} (page limit : JsNum) (rows : list A) : Pagination :=
  mkPagination page limit (Z.of_nat (List.length rows))
    (num_strict_eq (Num (Z.of_nat (List.length rows))) limit).

(** ** models/Product.js *)

Module Product.

(** [Product.findById(id)]: [db.get] yields the first matching row, which
    the constructor copies field by field; [None] stands for [null]. *)
Definition findById (db : Db) (id : Z) : option ProductRow :=
  Sql.first_row (Sql.select_where (fun p => p_id p =? id) (products db)).

(** [Product.findPending(limit, offset)]; the joined display columns are
    left out of the rows. *)
Definition findPending (db : Db) (limit offset : JsNum) : option (list ProductRow) :=
  Sql.limit_offset limit offset
    (Sql.order_by (Sql.asc p_created_at)
       (Sql.select_where (fun p => String.eqb (p_status p) "pending") (products db))).

(** [product.getImages()]: primary images first. *)
Definition getImages (db : Db) (this : ProductRow) : list ImageRow :=
  Sql.order_by (Sql.desc (fun i => if i_is_primary i then 1 else 0))
    (Sql.select_where (fun i => i_product_id i =? p_id this) (product_images db)).

(** [product.addImage(imageUrl, isPrimary)]: returns the store and the new
    row's id. *)
Definition addImage (db : Db) (this : ProductRow) (imageUrl : string)
    (isPrimary : bool) : Db * Z :=
  let db1 :=
    if isPrimary
    then set_product_images db
           (Sql.update_where (fun i => i_product_id i =? p_id this)
              (fun i => mkImage (i_id i) (i_product_id i) (i_image_url i) false)
              (product_images db))
    else db in
  let id := Sql.next_id (map i_id (product_images db1)) in
  (set_product_images db1
     (Sql.insert (mkImage id (p_id this) imageUrl isPrimary) (product_images db1)),
   id).

(** [product.removeImage(imageId)]. *)
Definition removeImage (db : Db) (this : ProductRow) (imageId : Z) : Db :=
  set_product_images db
    (Sql.delete_where
       (fun i => (i_id i =? imageId) && (i_product_id i =? p_id this))
       (product_images db)).

(** [product.isAvailable()]. *)
Definition isAvailable (this : ProductRow) : bool :=
  String.eqb (p_status this) "approved".

End Product.

(** ** middleware/validation.js *)

Module Validation.

(** A JSON body of the cart and purchase forms; a field that is absent is
    [None].  Fields are integers or strings as the schemas demand; other
    JSON types are outside this model. *)
Record CartBody := mkCartBody {
  cb_product_id : option Z;
  cb_quantity : option Z
}.

Record PurchaseBody := mkPurchaseBody {
  pb_product_id : option Z;
  pb_quantity : option Z;
  pb_payment_method : option string
}.

Definition Violation := (string * string)%type.

(** [Number.MAX_SAFE_INTEGER], 2^53 - 1. *)
Definition MAX_SAFE_INTEGER : Z := 9007199254740991.

(** Joi's base check of a number: beyond the safe integers it reports
    [number.unsafe] and runs none of the key's rules. *)
Definition unsafe (z : Z) : bool :=
  (MAX_SAFE_INTEGER <? z) || (z <? - MAX_SAFE_INTEGER).

(** A message the schema does not override: the key between double
    quotes, then Joi's text. *)
Definition labelled (key text : string) : string :=
  String "034"%char (String.append key (String "034"%char text)).

(** [Joi.number().integer().positive().required()] with its messages. *)
Definition check_product_id (v : option Z) : list Violation :=
  match v with
  | None => [("product_id", "Product ID is required")]
  | Some z =>
      if unsafe z
      then [("product_id", labelled "product_id" " must be a safe number")]
      else if 0 <? z then []
      else [("product_id", "Please provide a valid product ID")]
  end.

(** [Joi.number().integer().min(1).max(10).default(1)]. *)
Definition check_quantity (v : option Z) : list Violation :=
  match v with
  | None => []
  | Some z =>
      if unsafe z
      then [("quantity", labelled "quantity" " must be a safe number")]
      else if z <? 1 then [("quantity", "Quantity must be at least 1")]
      else if 10 <? z then [("quantity", "Quantity cannot exceed 10")]
      else []
  end.

(** [Joi.string().valid('cash', 'upi', 'card', 'netbanking').required()].
    The allowed values are tested before the base type, and with
    [abortEarly: false] the base check still runs after [any.only]: the empty
    string is reported twice. *)
Definition check_payment_method (v : option string) : list Violation :=
  match v with
  | None => [("payment_method", "Payment method is required")]
  | Some s =>
      if includes ["cash"; "upi"; "card"; "netbanking"] s then []
      else ("payment_method", "Please select a valid payment method")
           :: (if String.eqb s ""
               then [("payment_method",
                      labelled "payment_method" " is not allowed to be empty")]
               else [])
  end.

(** [cartValidation.addItem] and [purchaseValidation.create], run with
    [abortEarly: false]: every violation is collected. *)
Definition cartValidation_addItem (b : CartBody) : list Violation :=
  check_product_id (cb_product_id b) ++ check_quantity (cb_quantity b).

Definition purchaseValidation_create (b : PurchaseBody) : list Violation :=
  check_product_id (pb_product_id b) ++ check_quantity (pb_quantity b)
    ++ check_payment_method (pb_payment_method b).

(** [validate(schema)]: reply 400 with the violations, or call the handler. *)
Definition validate {B D : Type} (schema : B -> list Violation) (body : B)
    (handler : Db * Outcome D) (db : Db) : Db * Outcome D :=
  match schema body with
  | [] => handler
  | errs => (db, Sent (mkReply 400 false (Some "Validation error") errs None))
  end.

(** [const { quantity = 1 } = req.body]. *)
Definition default_quantity (v : option Z) : Z :=
  match v with Some z => z | None => 1 end.

End Validation.

(** ** routes/purchases.js *)

Module Purchases.

(** A row of the detail query: [pur.*] followed by the product and seller
    columns.  The product's [price] column is selected after [pur.*], so the
    [price] key of the row holds the product's price. *)
Record PurchaseView := mkPurchaseView {
  pv_id : Z;
  pv_buyer_id : Z;
  pv_seller_id : Z;
  pv_product_id : Z;
  pv_quantity : Z;
  pv_status : string;
  pv_payment_method : string;
  pv_purchase_date : Z;
  pv_title : string;
  pv_price : Z;
  pv_other_name : string
}.

(** [FROM purchases pur JOIN products p ON pur.product_id = p.id
     JOIN users u ON <who pur> = u.id], for the purchases kept by [cond]. *)
Definition join_details (db : Db) (who : PurchaseRow -> Z)
    (cond : PurchaseRow -> bool) : list PurchaseView :=
  flat_map
    (fun pur =>
       flat_map
         (fun p =>
            map
              (fun u =>
                 mkPurchaseView (pu_id pur) (pu_buyer_id pur) (pu_seller_id pur)
                   (pu_product_id pur) (pu_quantity pur) (pu_status pur)
                   (pu_payment_method pur) (pu_purchase_date pur)
                   (p_title p) (p_price p) (u_name u))
              (Sql.select_where (fun u => u_id u =? who pur) (users db)))
         (Sql.select_where (fun p => p_id p =? pu_product_id pur) (products db)))
    (Sql.select_where cond (purchases db)).

Record CreateRequest := mkCreateRequest {
  cr_user_id : Z;
  cr_body : Validation.PurchaseBody
}.

(** [router.post('/create', ...)] after validation.  [now] is the store's
    [CURRENT_TIMESTAMP].  The notification statement is a template literal
    that splices the product title between the quotes of the message.  For a
    plain title the statement is the one written and stores that text in the
    [message] column.  For a title with a quote, a backslash or a question
    mark the text sent is read as some other statement: [spliced title db]
    stands for what the store makes of it, the notifications table
    afterwards, or [None] when the store refuses it.  The purchase is stored and the cart row deleted before that
    statement, outside any transaction. *)
Definition create_handler (spliced : string -> Db -> option (list NotificationRow))
    (now : Z) (db : Db) (user_id product_id quantity : Z)
    (payment_method : string) : Db * Outcome (option PurchaseView) :=
  match Product.findById db product_id with
  | None => (db, fail 404 "Product not found")
  | Some product =>
      if p_seller_id product =? user_id
      then (db, fail 400 "You cannot purchase your own product")
      else if negb (String.eqb (p_status product) "approved")
      then (db, fail 400 "Product is not available for purchase")
      else
        let purchaseId := Sql.next_id (map pu_id (purchases db)) in
        let db1 :=
          set_purchases db
            (Sql.insert
               (mkPurchase purchaseId user_id (p_seller_id product) product_id
                  (p_price product) quantity "pending" payment_method None now None)
               (purchases db)) in
        let db2 :=
          set_cart db1
            (Sql.delete_where
               (fun c => (c_user_id c =? user_id) && (c_product_id c =? product_id))
               (cart db1)) in
        let notified :=
          if Sql.plain (p_title product)
          then Some (Sql.insert
                       (mkNotification (p_seller_id product) "purchase" "New Purchase"
                          (String.append "Someone wants to buy your product: "
                             (p_title product))
                          [("purchase_id", JNumber purchaseId);
                           ("product_id", JNumber product_id);
                           ("buyer_id", JNumber user_id)])
                       (notifications db2))
          else spliced (p_title product) db2 in
        match notified with
        | None => (db2, Next "statement refused: INSERT INTO notifications")
        | Some rows =>
            let db3 := set_notifications db2 rows in
            let purchaseRows :=
              join_details db3 pu_seller_id (fun pur => pu_id pur =? purchaseId) in
            (db3,
             Sent (mkReply 201 true
                     (Some "Purchase created successfully. Please contact the seller to complete the transaction.")
                     [] (Some (Sql.first_row purchaseRows))))
        end
  end.

Definition create (spliced : string -> Db -> option (list NotificationRow))
    (now : Z) (db : Db) (req : CreateRequest)
    : Db * Outcome (option PurchaseView) :=
  Validation.validate Validation.purchaseValidation_create (cr_body req)
    (match Validation.pb_product_id (cr_body req),
           Validation.pb_payment_method (cr_body req) with
     | Some product_id, Some payment_method =>
         create_handler spliced now db (cr_user_id req) product_id
           (Validation.default_quantity (Validation.pb_quantity (cr_body req)))
           payment_method
     | _, _ => (db, Next "unreachable: required field missing after validation")
     end)
    db.

(** The list endpoints' query string, after [parseInt] and the defaults
    [page = 1], [limit = 20]. *)
Record ListQuery := mkListQuery {
  lq_page : JsNum;
  lq_limit : JsNum;
  lq_status : option string
}.

Record ListData := mkListData {
  ld_rows : list PurchaseView;
  ld_pagination : Pagination
}.

Definition list_handler (db : Db) (mine other : PurchaseRow -> Z) (user_id : Z)
    (q : ListQuery) : Outcome ListData :=
  let offset := page_offset (lq_page q) (lq_limit q) in
  let cond pur :=
    (mine pur =? user_id)
    && match lq_status q with
       | Some s => if truthy_string (Some s) then String.eqb (pu_status pur) s else true
       | None => true
       end in
  match Sql.limit_offset (lq_limit q) offset
          (Sql.order_by (Sql.desc pv_purchase_date) (join_details db other cond)) with
  | None => Next "statement refused: LIMIT/OFFSET"
  | Some rows =>
      Sent (mkReply 200 true None []
              (Some (mkListData rows (pagination (lq_page q) (lq_limit q) rows))))
  end.

(** [router.get('/my-purchases')] and [router.get('/my-sales')]. *)
Definition my_purchases (db : Db) (user_id : Z) (q : ListQuery) : Outcome ListData :=
  list_handler db pu_buyer_id pu_seller_id user_id q.

Definition my_sales (db : Db) (user_id : Z) (q : ListQuery) : Outcome ListData :=
  list_handler db pu_seller_id pu_buyer_id user_id q.

Record StatusRequest := mkStatusRequest {
  sr_user_id : Z;
  sr_purchaseId : JsNum;
  sr_status : option string;
  sr_transaction_id : option string
}.

Record StatusData := mkStatusData {
  sd_purchase_id : Z;
  sd_status : string
}.

(** The parameter array of the status update, as the handler builds it:
    [[status, purchaseId]], then [splice(1, 0, transaction_id)] when a
    transaction id is given, then [push(purchaseId)]. *)
Definition updateData (status : string) (transaction_id : option string)
    (purchaseId : Z) : list Sql.Value :=
  let updateData := [Sql.VString status; Sql.VNumber purchaseId] in
  let updateData :=
    if truthy_string transaction_id
    then Sql.splice_1 updateData (Sql.of_string transaction_id)
    else updateData in
  Sql.push updateData (Sql.VNumber purchaseId).

(** The number of [?] in [updateQuery]. *)
Definition placeholders (with_transaction_id : bool) : nat :=
  if with_transaction_id then 3%nat else 2%nat.

(** [UPDATE purchases SET status = ?[, transaction_id = ?]
     [, completed_at = CURRENT_TIMESTAMP] WHERE id = ?] run with [params]:
    refused ([None]) unless [params] holds one value for each placeholder
    and no more. *)
Definition exec_update_purchase (with_transaction_id with_completed_at : bool)
    (params : list Sql.Value) (now : Z) (db : Db) : option Db :=
  let run status transaction_id id :=
    set_purchases db
      (Sql.update_where (fun pur => pu_id pur =? id)
         (fun pur =>
            mkPurchase (pu_id pur) (pu_buyer_id pur) (pu_seller_id pur)
              (pu_product_id pur) (pu_price pur) (pu_quantity pur) status
              (pu_payment_method pur)
              (match transaction_id with
               | Some t => Some t
               | None => pu_transaction_id pur
               end)
              (pu_purchase_date pur)
              (if with_completed_at then Some now else pu_completed_at pur))
         (purchases db)) in
  match with_transaction_id, params with
  | false, [Sql.VString status; Sql.VNumber id] =>
      Some (run status None id)
  | true, [Sql.VString status; Sql.VString t; Sql.VNumber id] =>
      Some (run status (Some t) id)
  | _, _ => None
  end.

(** The [statusMessages] object literal; [statusMessages[status]] is
    [get_message status statusMessages], [None] standing for [undefined]. *)
Definition statusMessages : list (string * string) :=
  [("confirmed", "Your purchase has been confirmed by the seller");
   ("cancelled", "Your purchase has been cancelled by the seller");
   ("completed", "Your purchase has been completed")].

(** [SET status = 'sold'] on a product row. *)
Definition set_sold (p : ProductRow) : ProductRow :=
  mkProduct (p_id p) (p_title p) (p_price p) (p_category_id p) (p_seller_id p)
    "sold" (p_created_at p).

(** [SET sales_count = sales_count + 1] on a user row. *)
Definition one_more_sale (u : UserRow) : UserRow :=
  mkUser (u_id u) (u_name u) (u_email u) (u_phone u) (u_password u) (u_avatar u)
    (u_is_verified u) (u_is_active u) (u_is_admin u) (u_followers_count u)
    (u_following_count u) (u_listings_count u) (u_sales_count u + 1)
    (u_created_at u) (u_updated_at u).

(** [router.put('/:purchaseId/status')]. *)
Definition update_status (now : Z) (db : Db) (req : StatusRequest)
    : Db * Outcome StatusData :=
  match sr_purchaseId req with
  | NaN => (db, fail 400 "Invalid purchase ID")
  | Num purchaseId =>
      match sr_status req with
      | None => (db, fail 400 "Invalid status. Must be confirmed, cancelled, or completed")
      | Some status =>
          if negb (includes ["confirmed"; "cancelled"; "completed"] status)
          then (db, fail 400 "Invalid status. Must be confirmed, cancelled, or completed")
          else
            match Sql.first_row
                    (Sql.select_where (fun pur => pu_id pur =? purchaseId) (purchases db)) with
            | None => (db, fail 404 "Purchase not found")
            | Some purchase =>
                if negb (pu_seller_id purchase =? sr_user_id req)
                then (db, fail 403 "You can only update your own sales")
                else if String.eqb (pu_status purchase) "completed"
                        || String.eqb (pu_status purchase) "cancelled"
                then (db, fail 400 "Purchase status cannot be changed")
                else
                  let with_tid := truthy_string (sr_transaction_id req) in
                  let with_completed := String.eqb status "completed" in
                  match exec_update_purchase with_tid with_completed
                          (updateData status (sr_transaction_id req) purchaseId) now db,
                        get_message status statusMessages with
                  | None, _ => (db, Next "statement refused: UPDATE purchases")
                  | Some db1, None => (db1, Next "bind parameter undefined")
                  | Some db1, Some text =>
                      let db2 :=
                        set_notifications db1
                          (Sql.insert
                             (mkNotification (pu_buyer_id purchase) "purchase"
                                "Purchase Update" text
                                [("purchase_id", JNumber purchaseId);
                                 ("status", JString status)])
                             (notifications db1)) in
                      let db3 :=
                        if String.eqb status "completed"
                        then
                          let db' :=
                            set_products db2
                              (Sql.update_where
                                 (fun p => p_id p =? pu_product_id purchase)
                                 set_sold
                                 (products db2)) in
                          set_users db'
                            (Sql.update_where
                               (fun u => u_id u =? pu_seller_id purchase)
                               one_more_sale
                               (users db'))
                        else db2 in
                      (db3,
                       Sent (mkReply 200 true
                               (Some (String.append "Purchase "
                                        (String.append status " successfully")))
                               [] (Some (mkStatusData purchaseId status))))
                  end
            end
      end
  end.

Record CancelRequest := mkCancelRequest {
  ca_user_id : Z;
  ca_purchaseId : JsNum
}.

(** [router.put('/:purchaseId/cancel')]. *)
Definition cancel (db : Db) (req : CancelRequest) : Db * Outcome StatusData :=
  match ca_purchaseId req with
  | NaN => (db, fail 400 "Invalid purchase ID")
  | Num purchaseId =>
      match Sql.first_row
              (Sql.select_where (fun pur => pu_id pur =? purchaseId) (purchases db)) with
      | None => (db, fail 404 "Purchase not found")
      | Some purchase =>
          if negb (pu_buyer_id purchase =? ca_user_id req)
          then (db, fail 403 "You can only cancel your own purchases")
          else if negb (String.eqb (pu_status purchase) "pending")
          then (db, fail 400 "Purchase cannot be cancelled")
          else
            let db1 :=
              set_purchases db
                (Sql.update_where (fun pur => pu_id pur =? purchaseId)
                   (fun pur =>
                      mkPurchase (pu_id pur) (pu_buyer_id pur) (pu_seller_id pur)
                        (pu_product_id pur) (pu_price pur) (pu_quantity pur)
                        "cancelled" (pu_payment_method pur) (pu_transaction_id pur)
                        (pu_purchase_date pur) (pu_completed_at pur))
                   (purchases db)) in
            let db2 :=
              set_notifications db1
                (Sql.insert
                   (mkNotification (pu_seller_id purchase) "purchase"
                      "Purchase Cancelled" "A buyer has cancelled their purchase"
                      [("purchase_id", JNumber purchaseId);
                       ("status", JString "cancelled")])
                   (notifications db1)) in
            (db2,
             Sent (mkReply 200 true (Some "Purchase cancelled successfully") []
                     (Some (mkStatusData purchaseId "cancelled"))))
      end
  end.

End Purchases.

(** ** routes/cart.js *)

Module Cart.

Record AddData := mkAddData {
  ad_action : string;
  ad_quantity : Z
}.

Definition mine (user_id product_id : Z) (c : CartRow) : bool :=
  (c_user_id c =? user_id) && (c_product_id c =? product_id).

(** [router.post('/add', ...)] after validation. *)
Definition add_handler (db : Db) (user_id product_id quantity : Z)
    : Db * Outcome AddData :=
  match Product.findById db product_id with
  | None => (db, fail 404 "Product not found")
  | Some product =>
      if p_seller_id product =? user_id
      then (db, fail 400 "You cannot add your own product to cart")
      else
        match Sql.select_where (mine user_id product_id) (cart db) with
        | existing :: _ =>
            (set_cart db
               (Sql.update_where (mine user_id product_id)
                  (fun c => mkCart (c_user_id c) (c_product_id c) (c_quantity c + quantity))
                  (cart db)),
             Sent (mkReply 200 true (Some "Item quantity updated in cart") []
                     (Some (mkAddData "updated" (c_quantity existing + quantity)))))
        | [] =>
            (set_cart db (Sql.insert (mkCart user_id product_id quantity) (cart db)),
             Sent (mkReply 200 true (Some "Item added to cart") []
                     (Some (mkAddData "added" quantity))))
        end
  end.

Record AddRequest := mkAddRequest {
  ar_user_id : Z;
  ar_body : Validation.CartBody
}.

Definition add (db : Db) (req : AddRequest) : Db * Outcome AddData :=
  Validation.validate Validation.cartValidation_addItem (ar_body req)
    (match Validation.cb_product_id (ar_body req) with
     | Some product_id =>
         add_handler db (ar_user_id req) product_id
           (Validation.default_quantity (Validation.cb_quantity (ar_body req)))
     | None => (db, Next "unreachable: required field missing after validation")
     end)
    db.

Record UpdateRequest := mkUpdateRequest {
  ur_user_id : Z;
  ur_productId : JsNum;
  ur_quantity : BodyValue
}.

Record UpdateData := mkUpdateData {
  ud_product_id : Z;
  ud_quantity : BodyValue
}.

(** [!quantity || quantity < 1 || quantity > 10].  The route has no
    validator: [quantity] is whatever the body holds. *)
Definition bad_quantity (co : Coercions) (quantity : BodyValue) : bool :=
  negb (ToBoolean quantity)
  || less_than (ToNumber co quantity) 1
  || greater_than (ToNumber co quantity) 10.

(** [router.put('/update/:productId')]. *)
Definition update (co : Coercions) (db : Db) (req : UpdateRequest)
    : Db * Outcome UpdateData :=
  match ur_productId req with
  | NaN => (db, fail 400 "Invalid product ID")
  | Num productId =>
      if bad_quantity co (ur_quantity req)
      then (db, fail 400 "Quantity must be between 1 and 10")
      else
        match Sql.select_where (mine (ur_user_id req) productId) (cart db) with
        | [] => (db, fail 404 "Item not found in cart")
        | _ :: _ =>
            match column_int co (ur_quantity req) with
            | None => (db, Next "statement refused: UPDATE cart")
            | Some quantity =>
                (set_cart db
                   (Sql.update_where (mine (ur_user_id req) productId)
                      (fun c => mkCart (c_user_id c) (c_product_id c) quantity)
                      (cart db)),
                 Sent (mkReply 200 true (Some "Cart item updated") []
                         (Some (mkUpdateData productId (ur_quantity req)))))
            end
        end
  end.

(** [router.delete('/remove/:productId')]. *)
Definition remove (db : Db) (user_id : Z) (productId : JsNum) : Db * Outcome unit :=
  match productId with
  | NaN => (db, fail 400 "Invalid product ID")
  | Num productId =>
      match Sql.select_where (mine user_id productId) (cart db) with
      | [] => (db, fail 404 "Item not found in cart")
      | _ :: _ =>
          (set_cart db (Sql.delete_where (mine user_id productId) (cart db)),
           Sent (mkReply 200 true (Some "Item removed from cart") [] None))
      end
  end.

(** [router.delete('/clear')]. *)
Definition clear (db : Db) (user_id : Z) : Db * Outcome unit :=
  (set_cart db (Sql.delete_where (fun c => c_user_id c =? user_id) (cart db)),
   Sent (mkReply 200 true (Some "Cart cleared successfully") [] None)).

(** The stored quantities of one (user, product) pair. *)
Definition quantities (db : Db) (user_id product_id : Z) : list Z :=
  map c_quantity (Sql.select_where (mine user_id product_id) (cart db)).

End Cart.

(** ** routes/products.js *)

Module Products.

(** [router.post('/:id/favorite', ...)]; the reply's data would be
    [{ is_favorited }].  Once the product is found the handler calls
    [product.isFavoritedBy(req.user.id)].  The Product class of
    models/Product.js defines no [isFavoritedBy] (nor [addToFavorites], nor
    [removeFromFavorites]), so the call throws a TypeError, which the
    handler's [catch] passes to [next]: no statement on the favorites table
    is ever reached. *)
Definition favorite (db : Db) (user_id : Z) (id : JsNum) : Db * Outcome bool :=
  match id with
  | NaN => (db, fail 400 "Invalid product ID")
  | Num productId =>
      match Product.findById db productId with
      | None => (db, fail 404 "Product not found")
      | Some product => (db, Next "product.isFavoritedBy is not a function")
      end
  end.

End Products.

(** ** models/User.js and routes/users.js *)

Module User.

(** [new User(data)]: the instance's own properties, in the order the
    constructor assigns them. *)
Definition own_properties (this : UserRow) : JsObject :=
  [("id", JNumber (u_id this));
   ("name", JString (u_name this));
   ("email", JString (u_email this));
   ("phone", of_option_string (u_phone this));
   ("password", JString (u_password this));
   ("avatar", of_option_string (u_avatar this));
   ("is_verified", JBool (u_is_verified this));
   ("is_active", JBool (u_is_active this));
   ("is_admin", JBool (u_is_admin this));
   ("followers_count", JNumber (u_followers_count this));
   ("following_count", JNumber (u_following_count this));
   ("listings_count", JNumber (u_listings_count this));
   ("sales_count", JNumber (u_sales_count this));
   ("created_at", JNumber (u_created_at this));
   ("updated_at", JNumber (u_updated_at this))].

(** [const { password, ...userWithoutPassword } = this]: every own property
    but [password], order kept. *)
Definition rest_without (key : string) (o : JsObject) : JsObject :=
  filter (fun kv => negb (String.eqb (fst kv) key)) o.

Definition toJSON (this : UserRow) : JsObject :=
  rest_without "password" (own_properties this).

Record Stats := mkStats {
  st_listings : Z;
  st_sales : Z;
  st_purchases : Z
}.

Definition count {A : Type} (rows : list A) : Z := Z.of_nat (List.length rows).

(** [user.getStats()]. *)
Definition getStats (db : Db) (this : UserRow) : Stats :=
  mkStats
    (count (Sql.select_where (fun p => p_seller_id p =? u_id this) (products db)))
    (count (Sql.select_where
              (fun pur => (pu_seller_id pur =? u_id this)
                          && String.eqb (pu_status pur) "completed")
              (purchases db)))
    (count (Sql.select_where
              (fun pur => (pu_buyer_id pur =? u_id this)
                          && String.eqb (pu_status pur) "completed")
              (purchases db))).

Record ProfileData := mkProfileData {
  pd_user : JsObject;
  pd_stats : Stats
}.

(** [router.get('/profile')]: [req.user] is the instance the auth gate
    attached. *)
Definition profile (db : Db) (req_user : UserRow) : Outcome ProfileData :=
  Sent (mkReply 200 true None []
          (Some (mkProfileData (toJSON req_user) (getStats db req_user)))).

(** The same record with another stored credential. *)
Definition with_password (u : UserRow) (hash : string) : UserRow :=
  mkUser (u_id u) (u_name u) (u_email u) (u_phone u) hash (u_avatar u)
    (u_is_verified u) (u_is_active u) (u_is_admin u) (u_followers_count u)
    (u_following_count u) (u_listings_count u) (u_sales_count u)
    (u_created_at u) (u_updated_at u).

End User.

(** ** routes/chat.js *)

Module Chat.

(** [String.prototype.trim].  A string is held as the UTF-8 bytes of its
    text, so a character is one to three bytes here.  The characters removed
    are the language's WhiteSpace and LineTerminator code points: tab,
    vertical tab, form feed, space, no-break space, the byte order mark and
    the other space separators; line feed, carriage return, line separator
    and paragraph separator. *)
Definition WhiteSpace : list N :=
  [9; 11; 12; 32; 160; 65279; 5760; 8192; 8193; 8194; 8195; 8196; 8197; 8198;
   8199; 8200; 8201; 8202; 8239; 8287; 12288]%N.

Definition LineTerminator : list N := [10; 13; 8232; 8233]%N.

(** The UTF-8 bytes of a code point below 65536. *)
Definition utf8 (cp : N) : list Ascii.ascii :=
  if (cp <? 128)%N then [Ascii.ascii_of_N cp]
  else if (cp <? 2048)%N
  then [Ascii.ascii_of_N (192 + cp / 64); Ascii.ascii_of_N (128 + cp mod 64)]
  else [Ascii.ascii_of_N (224 + cp / 4096);
        Ascii.ascii_of_N (128 + (cp / 64) mod 64);
        Ascii.ascii_of_N (128 + cp mod 64)].

Definition encode (cps : list N) : string :=
  string_of_list_ascii (flat_map utf8 cps).

Definition is_space (bytes : list Ascii.ascii) : bool :=
  existsb (fun cp => String.eqb (string_of_list_ascii (utf8 cp))
                       (string_of_list_ascii bytes))
    (WhiteSpace ++ LineTerminator).

(** Drops the white space characters at the head of [s]; [read] gives the
    bytes of a character in text order (the identity, or [rev] when [s] is
    the text reversed). *)
Fixpoint strip (read : list Ascii.ascii -> list Ascii.ascii)
    (s : list Ascii.ascii) : list Ascii.ascii :=
  match s with
  | [] => []
  | a :: s1 =>
      if is_space (read [a]) then strip read s1
      else
        match s1 with
        | [] => s
        | b :: s2 =>
            if is_space (read [a; b]) then strip read s2
            else
              match s2 with
              | [] => s
              | c :: s3 => if is_space (read [a; b; c]) then strip read s3 else s
              end
        end
  end.

Definition trim_start (s : list Ascii.ascii) : list Ascii.ascii :=
  strip (fun bytes => bytes) s.

Definition trim_end (s : list Ascii.ascii) : list Ascii.ascii :=
  rev (strip (@rev Ascii.ascii) (rev s)).

Definition trim (s : string) : string :=
  string_of_list_ascii (trim_end (trim_start (list_ascii_of_string s))).

Definition participant (user_id : Z) (r : RoomRow) : bool :=
  (r_buyer_id r =? user_id) || (r_seller_id r =? user_id).

(** [SELECT * FROM chat_rooms WHERE id = ? AND (buyer_id = ? OR seller_id = ?)]. *)
Definition rooms_of (db : Db) (roomId user_id : Z) : list RoomRow :=
  Sql.select_where (fun r => (r_id r =? roomId) && participant user_id r)
    (chat_rooms db).

(** A message row joined with its sender's name. *)
Record MessageView := mkMessageView {
  mv_row : MessageRow;
  mv_sender_name : string
}.

Definition join_sender (db : Db) (cond : MessageRow -> bool) : list MessageView :=
  flat_map
    (fun m =>
       map (fun u => mkMessageView m (u_name u))
         (Sql.select_where (fun u => u_id u =? m_sender_id m) (users db)))
    (Sql.select_where cond (messages db)).

Definition set_read (m : MessageRow) : MessageRow :=
  mkMessage (m_id m) (m_room_id m) (m_sender_id m) (m_message m)
    (m_message_type m) (m_attachment_url m) true (m_created_at m).

Record MessagesData := mkMessagesData {
  md_messages : list MessageView;
  md_pagination : Pagination
}.

(** [router.get('/room/:roomId/messages')]. *)
Definition get_messages (db : Db) (user_id : Z) (roomId page limit : JsNum)
    : Db * Outcome MessagesData :=
  match roomId with
  | NaN => (db, fail 400 "Invalid room ID")
  | Num roomId =>
      match rooms_of db roomId user_id with
      | [] => (db, fail 403 "Access denied to this chat room")
      | _ :: _ =>
          let offset := page_offset page limit in
          match Sql.limit_offset limit offset
                  (Sql.order_by (Sql.desc (fun v => m_created_at (mv_row v)))
                     (join_sender db (fun m => m_room_id m =? roomId))) with
          | None => (db, Next "statement refused: LIMIT/OFFSET")
          | Some rows =>
              (set_messages db
                 (Sql.update_where
                    (fun m => (m_room_id m =? roomId)
                              && negb (m_sender_id m =? user_id)
                              && negb (m_is_read m))
                    set_read (messages db)),
               Sent (mkReply 200 true None []
                       (Some (mkMessagesData (rev rows) (pagination page limit rows)))))
          end
      end
  end.

Record SendBody := mkSendBody {
  sb_message : option string;
  sb_message_type : option string;
  sb_attachment_url : option string
}.

(** [router.post('/room/:roomId/message')].  The socket broadcast that
    follows the writes does not touch the store. *)
Definition send_message (now : Z) (db : Db) (user_id : Z) (roomId : JsNum)
    (body : SendBody) : Db * Outcome (option MessageView) :=
  match roomId with
  | NaN => (db, fail 400 "Invalid room ID")
  | Num roomId =>
      if negb (truthy_string (sb_message body))
         || String.eqb (trim (match sb_message body with Some s => s | None => "" end)) ""
      then (db, fail 400 "Message cannot be empty")
      else
        match rooms_of db roomId user_id with
        | [] => (db, fail 403 "Access denied to this chat room")
        | _ :: _ =>
            let text := trim (match sb_message body with Some s => s | None => "" end) in
            let message_type :=
              match sb_message_type body with Some t => t | None => "text" end in
            let attachment :=
              if truthy_string (sb_attachment_url body)
              then sb_attachment_url body else None in
            let insertId := Sql.next_id (map m_id (messages db)) in
            let db1 :=
              set_messages db
                (Sql.insert
                   (mkMessage insertId roomId user_id text message_type attachment
                      false now)
                   (messages db)) in
            let db2 :=
              set_chat_rooms db1
                (Sql.update_where (fun r => r_id r =? roomId)
                   (fun r => mkRoom (r_id r) (r_buyer_id r) (r_seller_id r)
                               (r_product_id r) now)
                   (chat_rooms db1)) in
            (db2,
             Sent (mkReply 201 true (Some "Message sent successfully") []
                     (Some (Sql.first_row
                              (join_sender db2 (fun m => m_id m =? insertId))))))
        end
  end.

(** [router.put('/room/:roomId/read')]. *)
Definition mark_read (db : Db) (user_id : Z) (roomId : JsNum) : Db * Outcome unit :=
  match roomId with
  | NaN => (db, fail 400 "Invalid room ID")
  | Num roomId =>
      match rooms_of db roomId user_id with
      | [] => (db, fail 403 "Access denied to this chat room")
      | _ :: _ =>
          (set_messages db
             (Sql.update_where
                (fun m => (m_room_id m =? roomId) && negb (m_sender_id m =? user_id))
                set_read (messages db)),
           Sent (mkReply 200 true (Some "Messages marked as read") [] None))
      end
  end.

(** [router.delete('/message/:messageId')]. *)
Definition delete_message (db : Db) (user_id : Z) (messageId : JsNum)
    : Db * Outcome unit :=
  match messageId with
  | NaN => (db, fail 400 "Invalid message ID")
  | Num messageId =>
      match Sql.select_where
              (fun m => (m_id m =? messageId) && (m_sender_id m =? user_id))
              (messages db) with
      | [] => (db, fail 404 "Message not found or you cannot delete this message")
      | _ :: _ =>
          (set_messages db
             (Sql.delete_where (fun m => m_id m =? messageId) (messages db)),
           Sent (mkReply 200 true (Some "Message deleted successfully") [] None))
      end
  end.

Record ReportBody := mkReportBody {
  rb_reason : option string;
  rb_description : option string
}.

(** [router.post('/message/:messageId/report')]. *)
Definition report_message (db : Db) (user_id : Z) (messageId : JsNum)
    (body : ReportBody) : Db * Outcome unit :=
  match messageId with
  | NaN => (db, fail 400 "Invalid message ID")
  | Num messageId =>
      match rb_reason body with
      | None => (db, fail 400 "Report reason is required")
      | Some reason =>
          if String.eqb reason ""
          then (db, fail 400 "Report reason is required")
          else
            match flat_map
                    (fun m =>
                       map (fun r => (m, r))
                         (Sql.select_where
                            (fun r => (r_id r =? m_room_id m) && participant user_id r)
                            (chat_rooms db)))
                    (Sql.select_where (fun m => m_id m =? messageId) (messages db)) with
            | [] => (db, fail 404 "Message not found or access denied")
            | (m, r) :: _ =>
                let reportedUserId :=
                  if m_sender_id m =? user_id
                  then (if r_buyer_id r =? user_id then r_seller_id r else r_buyer_id r)
                  else m_sender_id m in
                (set_reports db
                   (Sql.insert
                      (mkReport (Sql.next_id (map rp_id (reports db))) user_id
                         (Some reportedUserId) "message" reason
                         (if truthy_string (rb_description body)
                          then rb_description body else None)
                         "pending" None None)
                      (reports db)),
                 Sent (mkReply 200 true (Some "Message reported successfully") [] None))
            end
      end
  end.

(** The store-changing requests of the chat router. *)
Inductive Request :=
| GetMessages (roomId page limit : JsNum)
| SendMessage (roomId : JsNum) (body : SendBody)
| MarkRead (roomId : JsNum)
| DeleteMessage (messageId : JsNum)
| ReportMessage (messageId : JsNum) (body : ReportBody).

Definition is_delete (r : Request) : bool :=
  match r with DeleteMessage _ => true | _ => false end.

(** The store after the router served [r] for [user_id] at time [now]. *)
Definition serve (now : Z) (db : Db) (user_id : Z) (r : Request) : Db :=
  match r with
  | GetMessages roomId page limit => fst (get_messages db user_id roomId page limit)
  | SendMessage roomId body => fst (send_message now db user_id roomId body)
  | MarkRead roomId => fst (mark_read db user_id roomId)
  | DeleteMessage messageId => fst (delete_message db user_id messageId)
  | ReportMessage messageId body => fst (report_message db user_id messageId body)
  end.

End Chat.

(** ** routes/admin.js (behind [authenticateToken, requireAdmin]) *)

Module Admin.

Record PendingData := mkPendingData {
  pe_products : list ProductRow;
  pe_pagination : Pagination
}.

(** [router.get('/products/pending')]. *)
Definition products_pending (db : Db) (page limit : JsNum) : Outcome PendingData :=
  let offset := page_offset page limit in
  match Product.findPending db limit offset with
  | None => Next "Error finding pending products"
  | Some products =>
      Sent (mkReply 200 true None []
              (Some (mkPendingData products (pagination page limit products))))
  end.

Record ReportStatusRequest := mkReportStatusRequest {
  rs_reportId : JsNum;
  rs_status : option string;
  rs_admin_notes : option string
}.

Record ReportStatusData := mkReportStatusData {
  rd_report_id : Z;
  rd_status : string
}.

(** The parameter array of the report update, as the handler builds it:
    [[status, reportId]], then [splice(1, 0, admin_notes)] when notes are
    given, then [push(reportId)]. *)
Definition updateData (status : string) (admin_notes : option string)
    (reportId : Z) : list Sql.Value :=
  let updateData := [Sql.VString status; Sql.VNumber reportId] in
  let updateData :=
    if truthy_string admin_notes
    then Sql.splice_1 updateData (Sql.of_string admin_notes)
    else updateData in
  Sql.push updateData (Sql.VNumber reportId).

(** [UPDATE reports SET status = ?[, admin_notes = ?]
     [, resolved_at = CURRENT_TIMESTAMP] WHERE id = ?] run with [params]:
    refused ([None]) unless [params] holds one value for each placeholder
    and no more. *)
Definition exec_update_report (with_admin_notes with_resolved_at : bool)
    (params : list Sql.Value) (now : Z) (db : Db) : option Db :=
  let run status admin_notes id :=
    set_reports db
      (Sql.update_where (fun rp => rp_id rp =? id)
         (fun rp =>
            mkReport (rp_id rp) (rp_reporter_id rp) (rp_reported_user_id rp)
              (rp_report_type rp) (rp_reason rp) (rp_description rp) status
              (match admin_notes with
               | Some t => Some t
               | None => rp_admin_notes rp
               end)
              (if with_resolved_at then Some now else rp_resolved_at rp))
         (reports db)) in
  match with_admin_notes, params with
  | false, [Sql.VString status; Sql.VNumber id] =>
      Some (run status None id)
  | true, [Sql.VString status; Sql.VString t; Sql.VNumber id] =>
      Some (run status (Some t) id)
  | _, _ => None
  end.

Definition statusMessages : list (string * string) :=
  [("reviewed", "Your report is being reviewed");
   ("resolved", "Your report has been resolved");
   ("dismissed", "Your report has been dismissed")].

(** [router.put('/reports/:id/status')]. *)
Definition update_report_status (now : Z) (db : Db) (req : ReportStatusRequest)
    : Db * Outcome ReportStatusData :=
  match rs_reportId req with
  | NaN => (db, fail 400 "Invalid report ID")
  | Num reportId =>
      match rs_status req with
      | None => (db, fail 400 "Invalid status. Must be reviewed, resolved, or dismissed")
      | Some status =>
          if negb (includes ["reviewed"; "resolved"; "dismissed"] status)
          then (db, fail 400 "Invalid status. Must be reviewed, resolved, or dismissed")
          else
            match Sql.first_row
                    (Sql.select_where (fun rp => rp_id rp =? reportId) (reports db)) with
            | None => (db, fail 404 "Report not found")
            | Some report =>
                let with_notes := truthy_string (rs_admin_notes req) in
                let with_resolved := String.eqb status "resolved" in
                match exec_update_report with_notes with_resolved
                        (updateData status (rs_admin_notes req) reportId) now db,
                      get_message status statusMessages with
                | None, _ => (db, Next "statement refused: UPDATE reports")
                | Some db1, None => (db1, Next "bind parameter undefined")
                | Some db1, Some text =>
                    (set_notifications db1
                       (Sql.insert
                          (mkNotification (rp_reporter_id report) "admin"
                             "Report Update" text
                             [("report_id", JNumber reportId);
                              ("status", JString status)])
                          (notifications db1)),
                     Sent (mkReply 200 true
                             (Some (String.append "Report "
                                      (String.append status " successfully")))
                             [] (Some (mkReportStatusData reportId status))))
                end
            end
      end
  end.

(** Position of a status on the path pending, reviewed, then resolved or
    dismissed. *)
Definition rank (status : string) : Z :=
  if String.eqb status "pending" then 0
  else if String.eqb status "reviewed" then 1
  else 2.

(** The status of the report a lookup by id returns. *)
Definition status_of (db : Db) (reportId : Z) : option string :=
  option_map rp_status
    (Sql.first_row (Sql.select_where (fun rp => rp_id rp =? reportId) (reports db))).

End Admin.

(** ** routes/cart.js: the read routes and the router as a whole *)

Module CartViews.

(** A row of the cart listing: the cart columns with the product's. *)
Record Item := mkItem {
  it_product_id : Z;
  it_quantity : Z;
  it_title : string;
  it_price : Z;
  it_seller_name : string
}.

Record Summary := mkSummary {
  subtotal : Z;
  serviceFee : Z;
  total : Z;
  itemCount : Z
}.

Record Listing := mkListing {
  items : list Item;
  summary : Summary
}.

(** [FROM cart c JOIN products p ON c.product_id = p.id
     JOIN users u ON p.seller_id = u.id
     WHERE c.user_id = ? AND p.status = 'approved'], in table order. *)
Definition join_items (db : Db) (user_id : Z) : list Item :=
  flat_map
    (fun c =>
       flat_map
         (fun p =>
            map (fun u => mkItem (c_product_id c) (c_quantity c) (p_title p)
                            (p_price p) (u_name u))
              (Sql.select_where (fun u => u_id u =? p_seller_id p) (users db)))
         (Sql.select_where
            (fun p => (p_id p =? c_product_id c) && String.eqb (p_status p) "approved")
            (products db)))
    (Sql.select_where (fun c => c_user_id c =? user_id) (cart db)).

(** [rows.reduce((sum, item) => sum + (item.price * item.quantity), 0)]. *)
Definition reduce_subtotal (rows : list Item) : Z :=
  fold_left (fun sum item => sum + it_price item * it_quantity item) rows 0.

(** [router.get('/')].  [ORDER BY c.added_at DESC]: a row gets [added_at]
    when it is inserted and the table is kept in insertion order, so the
    listing is the joined rows, latest first.  The fixed fee of 50 is
    written in hundredths like the prices. *)
Definition get (db : Db) (user_id : Z) : Outcome Listing :=
  let rows := rev (join_items db user_id) in
  let subtotal := reduce_subtotal rows in
  let serviceFee := 50 * 100 in
  let total := subtotal + serviceFee in
  Sent (mkReply 200 true None []
          (Some (mkListing rows
                   (mkSummary subtotal serviceFee total
                      (Z.of_nat (List.length rows)))))).

(** [router.get('/count')]: the reply's [count]. *)
Definition count (db : Db) (user_id : Z) : Outcome Z :=
  Sent (mkReply 200 true None []
          (Some (Z.of_nat
                   (List.length
                      (Sql.select_where (fun c => c_user_id c =? user_id) (cart db)))))).

Record CheckData := mkCheckData {
  in_cart : bool;
  quantity : Z
}.

(** [router.get('/check/:productId')]. *)
Definition check (db : Db) (user_id : Z) (productId : JsNum) : Outcome CheckData :=
  match productId with
  | NaN => fail 400 "Invalid product ID"
  | Num productId =>
      let rows := Sql.select_where (Cart.mine user_id productId) (cart db) in
      Sent (mkReply 200 true None []
              (Some (mkCheckData
                       (match rows with [] => false | _ :: _ => true end)
                       (match rows with [] => 0 | row :: _ => c_quantity row end))))
  end.

(** The store-changing requests of the cart router. *)
Inductive Request :=
| Add (body : Validation.CartBody)
| Update (productId : JsNum) (quantity : BodyValue)
| Remove (productId : JsNum)
| Clear.

(** The store after the router served [r] for [user_id]. *)
Definition serve (co : Coercions) (db : Db) (user_id : Z) (r : Request) : Db :=
  match r with
  | Add body => fst (Cart.add db (Cart.mkAddRequest user_id body))
  | Update productId quantity =>
      fst (Cart.update co db (Cart.mkUpdateRequest user_id productId quantity))
  | Remove productId => fst (Cart.remove db user_id productId)
  | Clear => fst (Cart.clear db user_id)
  end.

(** The key of the table's [UNIQUE KEY unique_user_product]. *)
Definition pair_of (c : CartRow) : Z * Z := (c_user_id c, c_product_id c).

End CartViews.

(** ** routes/purchases.js: the detail and statistics routes *)

Module PurchaseViews.

(** A row of the detail query: the purchase with the product's title and
    price (selected after [pur.*]) and both parties' names. *)
Record Details := mkDetails {
  de_id : Z;
  de_buyer_id : Z;
  de_seller_id : Z;
  de_product_id : Z;
  de_quantity : Z;
  de_status : string;
  de_title : string;
  de_price : Z;
  de_seller_name : string;
  de_buyer_name : string
}.

(** [router.get('/:purchaseId')]. *)
Definition details (db : Db) (user_id : Z) (purchaseId : JsNum)
    : Outcome Details :=
  match purchaseId with
  | NaN => fail 400 "Invalid purchase ID"
  | Num purchaseId =>
      let rows :=
        flat_map
          (fun pur =>
             flat_map
               (fun p =>
                  flat_map
                    (fun seller =>
                       map
                         (fun buyer =>
                            mkDetails (pu_id pur) (pu_buyer_id pur) (pu_seller_id pur)
                              (pu_product_id pur) (pu_quantity pur) (pu_status pur)
                              (p_title p) (p_price p) (u_name seller) (u_name buyer))
                         (Sql.select_where (fun u => u_id u =? pu_buyer_id pur)
                            (users db)))
                    (Sql.select_where (fun u => u_id u =? pu_seller_id pur) (users db)))
               (Sql.select_where (fun p => p_id p =? pu_product_id pur) (products db)))
          (Sql.select_where
             (fun pur => (pu_id pur =? purchaseId)
                         && ((pu_buyer_id pur =? user_id) || (pu_seller_id pur =? user_id)))
             (purchases db)) in
      match rows with
      | [] => fail 404 "Purchase not found"
      | row :: _ => Sent (mkReply 200 true None [] (Some row))
      end
  end.

(** One row of the statistics queries.  [SUM] over no row is [NULL]. *)
Record Counts := mkCounts {
  total_count : Z;
  pending_count : Z;
  confirmed_count : Z;
  completed_count : Z;
  cancelled_count : Z;
  amount : option Z
}.

(** [COUNT(CASE WHEN status = s THEN 1 END)]. *)
Definition count_status (s : string) (rows : list PurchaseRow) : Z :=
  Z.of_nat (List.length (filter (fun pur => String.eqb (pu_status pur) s) rows)).

(** [SUM(CASE WHEN status = 'completed' THEN price * quantity ELSE 0 END)]. *)
Definition sum_completed (rows : list PurchaseRow) : option Z :=
  match rows with
  | [] => None
  | _ :: _ =>
      Some (fold_right
              (fun pur acc =>
                 (if String.eqb (pu_status pur) "completed"
                  then pu_price pur * pu_quantity pur else 0) + acc)
              0 rows)
  end.

Definition counts (rows : list PurchaseRow) : Counts :=
  mkCounts (Z.of_nat (List.length rows))
    (count_status "pending" rows) (count_status "confirmed" rows)
    (count_status "completed" rows) (count_status "cancelled" rows)
    (sum_completed rows).

Record Overview := mkOverview {
  ov_purchases : Counts;
  ov_sales : Counts
}.

(** [router.get('/stats/overview')]. *)
Definition stats_overview (db : Db) (user_id : Z) : Outcome Overview :=
  Sent (mkReply 200 true None []
          (Some (mkOverview
                   (counts (Sql.select_where (fun pur => pu_buyer_id pur =? user_id)
                              (purchases db)))
                   (counts (Sql.select_where (fun pur => pu_seller_id pur =? user_id)
                              (purchases db)))))).

(** The statuses of the [ENUM] column. *)
Definition valid_status (s : string) : bool :=
  includes ["pending"; "confirmed"; "completed"; "cancelled"] s.

End PurchaseViews.

(** ** routes/chat.js: the room routes *)

Module ChatRooms.

(** [SELECT COUNT( * ) FROM messages WHERE room_id = cr.id AND sender_id != ?
     AND is_read = FALSE], the [unread_count] column of the room list. *)
Definition unread_in_room (db : Db) (roomId user_id : Z) : Z :=
  Z.of_nat
    (List.length
       (Sql.select_where
          (fun m => (m_room_id m =? roomId) && negb (m_sender_id m =? user_id)
                    && negb (m_is_read m))
          (messages db))).

(** [SELECT message FROM messages WHERE room_id = cr.id
     ORDER BY created_at DESC LIMIT 1]. *)
Definition last_message (db : Db) (roomId : Z) : option string :=
  option_map m_message
    (Sql.first_row
       (Sql.order_by (Sql.desc m_created_at)
          (Sql.select_where (fun m => m_room_id m =? roomId) (messages db)))).

Record RoomView := mkRoomView {
  rv_id : Z;
  rv_buyer_id : Z;
  rv_seller_id : Z;
  rv_product_id : Z;
  rv_last_message_at : Z;
  rv_product_title : string;
  rv_other_user_name : string;
  rv_other_user_id : Z;
  rv_last_message : option string;
  rv_unread_count : Z
}.

(** [router.get('/rooms')]: the rows of the reply. *)
Definition rooms (db : Db) (user_id : Z) : list RoomView :=
  Sql.order_by (Sql.desc rv_last_message_at)
    (flat_map
       (fun cr =>
          flat_map
            (fun p =>
               flat_map
                 (fun buyer =>
                    map
                      (fun seller =>
                         mkRoomView (r_id cr) (r_buyer_id cr) (r_seller_id cr) (p_id p)
                           (r_last_message_at cr) (p_title p)
                           (if r_buyer_id cr =? user_id
                            then u_name seller else u_name buyer)
                           (if r_buyer_id cr =? user_id
                            then u_id seller else u_id buyer)
                           (last_message db (r_id cr))
                           (unread_in_room db (r_id cr) user_id))
                      (Sql.select_where (fun u => u_id u =? r_seller_id cr) (users db)))
                 (Sql.select_where (fun u => u_id u =? r_buyer_id cr) (users db)))
            (Sql.select_where (fun p => p_id p =? r_product_id cr) (products db)))
       (Sql.select_where (Chat.participant user_id) (chat_rooms db))).

(** [router.get('/unread-count')]: the reply's [unread_count]. *)
Definition unread_count (db : Db) (user_id : Z) : Z :=
  Z.of_nat
    (List.length
       (flat_map
          (fun m =>
             Sql.select_where
               (fun cr => (r_id cr =? m_room_id m) && Chat.participant user_id cr)
               (chat_rooms db))
          (Sql.select_where
             (fun m => negb (m_sender_id m =? user_id) && negb (m_is_read m))
             (messages db)))).







End ChatRooms.

(** ** models/Category.js and the category routes of routes/admin.js *)

(** What an [async] model method did: returned, or threw an [Error]. *)
Inductive Result (A : Type) :=
| Returned (value : A)
| Thrown (message : string).
Arguments Returned {A}.
Arguments Thrown {A}.

Record CategoryRow := mkCategory {
  cat_id : Z;
  cat_name : string;
  cat_icon : string;
  cat_description : option string;
  cat_created_at : Z;
  cat_updated_at : Z
}.

(** The store with its categories table. *)
Record Catalog := mkCatalog {
  base : Db;
  categories : list CategoryRow
}.

Module Category.

Record CategoryData := mkCategoryData {
  cd_name : string;
  cd_icon : string;
  cd_description : option string
}.

(** [Category.findById(id)]. *)
Definition findById (c : Catalog) (id : Z) : option CategoryRow :=
  Sql.first_row (Sql.select_where (fun cat => cat_id cat =? id) (categories c)).

(** [Category.create(categoryData)]; [description || null]. *)
Definition create (now : Z) (c : Catalog) (categoryData : CategoryData)
    : Catalog * Result (option CategoryRow) :=
  let id := Sql.next_id (map cat_id (categories c)) in
  let c' :=
    mkCatalog (base c)
      (Sql.insert
         (mkCategory id (cd_name categoryData) (cd_icon categoryData)
            (if truthy_string (cd_description categoryData)
             then cd_description categoryData else None)
            now now)
         (categories c)) in
  (c', Returned (findById c' id)).

(** [category.delete()]: the error thrown inside is rethrown with the
    method's prefix. *)
Definition delete (c : Catalog) (this : CategoryRow) : Catalog * Result bool :=
  let productCount :=
    Z.of_nat
      (List.length
         (Sql.select_where (fun p => p_category_id p =? cat_id this)
            (products (base c)))) in
  if 0 <? productCount
  then (c, Thrown (String.append "Error deleting category: "
                     "Cannot delete category with existing products"))
  else (mkCatalog (base c)
          (Sql.delete_where (fun cat => cat_id cat =? cat_id this) (categories c)),
        Returned true).

(** [category.getStats()]: total, approved, pending, sold. *)
Definition getStats (c : Catalog) (this : CategoryRow) : Z * Z * Z * Z :=
  let mine := Sql.select_where (fun p => p_category_id p =? cat_id this)
                (products (base c)) in
  let with_status s :=
    Z.of_nat (List.length (filter (fun p => String.eqb (p_status p) s) mine)) in
  (Z.of_nat (List.length mine), with_status "approved", with_status "pending",
   with_status "sold").

End Category.

Module AdminCategories.

Record CreateBody := mkCreateBody {
  cb_name : option string;
  cb_icon : option string;
  cb_description : option string
}.

(** [router.post('/categories')]. *)
Definition create (now : Z) (c : Catalog) (body : CreateBody)
    : Catalog * Outcome (option CategoryRow) :=
  match cb_name body, cb_icon body with
  | Some name, Some icon =>
      if negb (truthy_string (Some name)) || negb (truthy_string (Some icon))
      then (c, fail 400 "Name and icon are required")
      else
        match Category.create now c (Category.mkCategoryData name icon (cb_description body)) with
        | (c', Returned category) =>
            (c', Sent (mkReply 201 true (Some "Category created successfully") []
                         (Some category)))
        | (c', Thrown message) => (c', Next message)
        end
  | _, _ => (c, fail 400 "Name and icon are required")
  end.

(** [router.delete('/categories/:id')]. *)
Definition delete (c : Catalog) (id : JsNum) : Catalog * Outcome unit :=
  match id with
  | NaN => (c, fail 400 "Invalid category ID")
  | Num categoryId =>
      match Category.findById c categoryId with
      | None => (c, fail 404 "Category not found")
      | Some category =>
          match Category.delete c category with
          | (c', Returned _) =>
              (c', Sent (mkReply 200 true (Some "Category deleted successfully") [] None))
          | (c', Thrown message) => (c', Next message)
          end
      end
  end.

End AdminCategories.

(** ** models/Product.js: creation, moderation, and the image loops of
    routes/products.js *)

Module Listing.

Record ProductData := mkProductData {
  pd_title : string;
  pd_price : Z;
  pd_category_id : Z;
  pd_seller_id : Z;
  pd_status : option string
}.

(** [Product.create(productData)]; [productData.status || 'pending']. *)
Definition create (now : Z) (db : Db) (productData : ProductData)
    : Db * option ProductRow :=
  let id := Sql.next_id (map p_id (products db)) in
  let db' :=
    set_products db
      (Sql.insert
         (mkProduct id (pd_title productData) (pd_price productData)
            (pd_category_id productData) (pd_seller_id productData)
            (match pd_status productData with
             | Some s => if truthy_string (Some s) then s else "pending"
             | None => "pending"
             end)
            now)
         (products db)) in
  (db', Product.findById db' id).

(** [product.updateStatus(status, rejection_reason)]. *)
Definition updateStatus (db : Db) (this : ProductRow) (status : string)
    : Db * option ProductRow :=
  let db' :=
    set_products db
      (Sql.update_where (fun p => p_id p =? p_id this)
         (fun p => mkProduct (p_id p) (p_title p) (p_price p) (p_category_id p)
                     (p_seller_id p) status (p_created_at p))
         (products db)) in
  (db', Product.findById db' (p_id this)).

(** [for (let i = ...; i < req.files.length; i++)]: the files from index
    [i] on; the image with index 0 is the primary one. *)
Fixpoint add_files (db : Db) (product : ProductRow) (i : nat) (files : list string)
    : Db :=
  match files with
  | [] => db
  | filename :: rest =>
      let imageUrl := String.append "/uploads/products/" filename in
      let isPrimary := Nat.eqb i 0 in
      add_files (fst (Product.addImage db product imageUrl isPrimary)) product (S i) rest
  end.

(** The image step of [router.post('/')]: the uploaded files, or the
    placeholder when there is none. *)
Definition images_on_create (db : Db) (product : ProductRow) (files : list string)
    : Db :=
  match files with
  | _ :: _ => add_files db product 0 files
  | [] => fst (Product.addImage db product "/uploads/placeholder-product.jpg" true)
  end.

(** The image step of [router.put('/:id')]: only the uploaded files. *)
Definition images_on_update (db : Db) (product : ProductRow) (files : list string)
    : Db :=
  match files with
  | _ :: _ => add_files db product 0 files
  | [] => db
  end.

End Listing.

(** ** models/User.js: updates; routes/admin.js: the user status route *)

Module Account.

(** [User.findById(id)]. *)
Definition findById (db : Db) (id : Z) : option UserRow :=
  Sql.first_row (Sql.select_where (fun u => u_id u =? id) (users db)).

(** [SET column = ?] on a user row, for a value of the column's type;
    [None] when the column is unknown or the value does not fit it (the
    statement is refused).  Values of other JSON types than the column's are
    outside this model. *)
Definition set_column (column : string) (v : JsVal) : option (UserRow -> UserRow) :=
  let text := match v with JString s => Some s | _ => None end in
  let nullable := match v with
                  | JString s => Some (Some s)
                  | JNull => Some None
                  | _ => None
                  end in
  let flag := match v with JBool b => Some b | _ => None end in
  let number := match v with JNumber z => Some z | _ => None end in
  if String.eqb column "id" then
    option_map (fun x u => mkUser x (u_name u) (u_email u) (u_phone u) (u_password u)
      (u_avatar u) (u_is_verified u) (u_is_active u) (u_is_admin u) (u_followers_count u)
      (u_following_count u) (u_listings_count u) (u_sales_count u) (u_created_at u)
      (u_updated_at u)) number
  else if String.eqb column "name" then
    option_map (fun x u => mkUser (u_id u) x (u_email u) (u_phone u) (u_password u)
      (u_avatar u) (u_is_verified u) (u_is_active u) (u_is_admin u) (u_followers_count u)
      (u_following_count u) (u_listings_count u) (u_sales_count u) (u_created_at u)
      (u_updated_at u)) text
  else if String.eqb column "email" then
    option_map (fun x u => mkUser (u_id u) (u_name u) x (u_phone u) (u_password u)
      (u_avatar u) (u_is_verified u) (u_is_active u) (u_is_admin u) (u_followers_count u)
      (u_following_count u) (u_listings_count u) (u_sales_count u) (u_created_at u)
      (u_updated_at u)) text
  else if String.eqb column "phone" then
    option_map (fun x u => mkUser (u_id u) (u_name u) (u_email u) x (u_password u)
      (u_avatar u) (u_is_verified u) (u_is_active u) (u_is_admin u) (u_followers_count u)
      (u_following_count u) (u_listings_count u) (u_sales_count u) (u_created_at u)
      (u_updated_at u)) nullable
  else if String.eqb column "password" then
    option_map (fun x u => mkUser (u_id u) (u_name u) (u_email u) (u_phone u) x
      (u_avatar u) (u_is_verified u) (u_is_active u) (u_is_admin u) (u_followers_count u)
      (u_following_count u) (u_listings_count u) (u_sales_count u) (u_created_at u)
      (u_updated_at u)) text
  else if String.eqb column "avatar" then
    option_map (fun x u => mkUser (u_id u) (u_name u) (u_email u) (u_phone u) (u_password u)
      x (u_is_verified u) (u_is_active u) (u_is_admin u) (u_followers_count u)
      (u_following_count u) (u_listings_count u) (u_sales_count u) (u_created_at u)
      (u_updated_at u)) nullable
  else if String.eqb column "is_verified" then
    option_map (fun x u => mkUser (u_id u) (u_name u) (u_email u) (u_phone u) (u_password u)
      (u_avatar u) x (u_is_active u) (u_is_admin u) (u_followers_count u)
      (u_following_count u) (u_listings_count u) (u_sales_count u) (u_created_at u)
      (u_updated_at u)) flag
  else if String.eqb column "is_active" then
    option_map (fun x u => mkUser (u_id u) (u_name u) (u_email u) (u_phone u) (u_password u)
      (u_avatar u) (u_is_verified u) x (u_is_admin u) (u_followers_count u)
      (u_following_count u) (u_listings_count u) (u_sales_count u) (u_created_at u)
      (u_updated_at u)) flag
  else if String.eqb column "is_admin" then
    option_map (fun x u => mkUser (u_id u) (u_name u) (u_email u) (u_phone u) (u_password u)
      (u_avatar u) (u_is_verified u) (u_is_active u) x (u_followers_count u)
      (u_following_count u) (u_listings_count u) (u_sales_count u) (u_created_at u)
      (u_updated_at u)) flag
  else if String.eqb column "followers_count" then
    option_map (fun x u => mkUser (u_id u) (u_name u) (u_email u) (u_phone u) (u_password u)
      (u_avatar u) (u_is_verified u) (u_is_active u) (u_is_admin u) x
      (u_following_count u) (u_listings_count u) (u_sales_count u) (u_created_at u)
      (u_updated_at u)) number
  else if String.eqb column "following_count" then
    option_map (fun x u => mkUser (u_id u) (u_name u) (u_email u) (u_phone u) (u_password u)
      (u_avatar u) (u_is_verified u) (u_is_active u) (u_is_admin u) (u_followers_count u)
      x (u_listings_count u) (u_sales_count u) (u_created_at u)
      (u_updated_at u)) number
  else if String.eqb column "listings_count" then
    option_map (fun x u => mkUser (u_id u) (u_name u) (u_email u) (u_phone u) (u_password u)
      (u_avatar u) (u_is_verified u) (u_is_active u) (u_is_admin u) (u_followers_count u)
      (u_following_count u) x (u_sales_count u) (u_created_at u)
      (u_updated_at u)) number
  else if String.eqb column "sales_count" then
    option_map (fun x u => mkUser (u_id u) (u_name u) (u_email u) (u_phone u) (u_password u)
      (u_avatar u) (u_is_verified u) (u_is_active u) (u_is_admin u) (u_followers_count u)
      (u_following_count u) (u_listings_count u) x (u_created_at u)
      (u_updated_at u)) number
  else if String.eqb column "created_at" then
    option_map (fun x u => mkUser (u_id u) (u_name u) (u_email u) (u_phone u) (u_password u)
      (u_avatar u) (u_is_verified u) (u_is_active u) (u_is_admin u) (u_followers_count u)
      (u_following_count u) (u_listings_count u) (u_sales_count u) x
      (u_updated_at u)) number
  else if String.eqb column "updated_at" then
    option_map (fun x u => mkUser (u_id u) (u_name u) (u_email u) (u_phone u) (u_password u)
      (u_avatar u) (u_is_verified u) (u_is_active u) (u_is_admin u) (u_followers_count u)
      (u_following_count u) (u_listings_count u) (u_sales_count u) (u_created_at u)
      x) number
  else None.

(** The [SET a = ?, b = ?, ...] list, applied left to right. *)
Fixpoint assignments (fields : JsObject) : option (UserRow -> UserRow) :=
  match fields with
  | [] => Some (fun u => u)
  | (column, v) :: rest =>
      match set_column column v, assignments rest with
      | Some set, Some set_rest => Some (fun u => set_rest (set u))
      | _, _ => None
      end
  end.

(** [updated_at = CURRENT_TIMESTAMP]. *)
Definition touch (now : Z) (u : UserRow) : UserRow :=
  mkUser (u_id u) (u_name u) (u_email u) (u_phone u) (u_password u) (u_avatar u)
    (u_is_verified u) (u_is_active u) (u_is_admin u) (u_followers_count u)
    (u_following_count u) (u_listings_count u) (u_sales_count u) (u_created_at u) now.

Definition defined (v : JsVal) : bool :=
  match v with JUndefined => false | _ => true end.

(** [user.update(updateData)]: the keys whose value is not [undefined].
    [refusal] is the message of the error [db.run] rejects with when the
    statement names an unknown column. *)
Definition update (refusal : string) (now : Z) (db : Db) (this : UserRow)
    (updateData : JsObject) : Db * Result (option UserRow) :=
  match filter (fun kv => defined (snd kv)) updateData with
  | [] => (db, Thrown (String.append "Error updating user: " "No fields to update"))
  | fields =>
      match assignments fields with
      | None => (db, Thrown (String.append "Error updating user: " refusal))
      | Some set =>
          let db' :=
            set_users db
              (Sql.update_where (fun u => u_id u =? u_id this)
                 (fun u => touch now (set u)) (users db)) in
          (db', Returned (findById db' (u_id this)))
      end
  end.

(** [user.updateProfile(profileData)]: only [name], [phone] and [avatar]
    are taken from [profileData]. *)
Definition updateProfile (refusal : string) (now : Z) (db : Db) (this : UserRow)
    (profileData : JsObject) : Db * Result (option UserRow) :=
  let allowedFields := ["name"; "phone"; "avatar"] in
  let updateData :=
    flat_map
      (fun field =>
         match get_prop field profileData with
         | Some v => if defined v then [(field, v)] else []
         | None => []
         end)
      allowedFields in
  match update refusal now db this updateData with
  | (db', Thrown message) =>
      (db', Thrown (String.append "Error updating profile: " message))
  | returned => returned
  end.

(** The columns [updateProfile] is not meant to reach. *)
Definition guarded (u : UserRow)
    : Z * string * string * bool * bool * bool * Z * Z * Z * Z * Z :=
  (u_id u, u_email u, u_password u, u_is_verified u, u_is_active u, u_is_admin u,
   u_followers_count u, u_following_count u, u_listings_count u, u_sales_count u,
   u_created_at u).

End Account.

Module AdminUsers.

Record StatusRequest := mkStatusRequest {
  us_admin_id : Z;
  us_userId : JsNum;
  us_is_active : option bool;
  us_is_verified : option bool
}.

Definition flag_entry (key : string) (v : option bool) : JsObject :=
  match v with Some b => [(key, JBool b)] | None => [] end.

(** [messages.join('. ')]. *)
Fixpoint join (sep : string) (parts : list string) : string :=
  match parts with
  | [] => ""
  | [part] => part
  | part :: rest => String.append part (String.append sep (join sep rest))
  end.

(** [router.put('/users/:id/status')]. *)
Definition update_status (refusal : string) (now : Z) (db : Db) (req : StatusRequest)
    : Db * Outcome JsObject :=
  match us_userId req with
  | NaN => (db, fail 400 "Invalid user ID")
  | Num userId =>
      if userId =? us_admin_id req
      then (db, fail 400 "You cannot modify your own account")
      else
        match Account.findById db userId with
        | None => (db, fail 404 "User not found")
        | Some user =>
            let updateData :=
              flag_entry "is_active" (us_is_active req)
              ++ flag_entry "is_verified" (us_is_verified req) in
            match updateData with
            | [] => (db, fail 400 "No valid fields to update")
            | _ :: _ =>
                match Account.update refusal now db user updateData with
                | (db1, Thrown message) => (db1, Next message)
                | (db1, Returned _) =>
                    let messages :=
                      match us_is_active req with
                      | Some false => ["Your account has been deactivated"]
                      | Some true => ["Your account has been reactivated"]
                      | None => []
                      end
                      ++ match us_is_verified req with
                         | Some true => ["Your account has been verified"]
                         | _ => []
                         end in
                    let db2 :=
                      match messages with
                      | [] => db1
                      | _ :: _ =>
                          set_notifications db1
                            (Sql.insert
                               (mkNotification userId "admin" "Account Update"
                                  (join ". " messages) updateData)
                               (notifications db1))
                      end in
                    (db2,
                     Sent (mkReply 200 true (Some "User status updated successfully") []
                             (Some (("user_id", JNumber userId) :: updateData))))
                end
            end
        end
  end.

End AdminUsers.

(** ** The list endpoints of routes/products.js, routes/admin.js and
    routes/users.js

    [../config/database] is not among the sources, and the statements of
    these endpoints join and order by columns that the row records above
    leave out, use LIKE patterns, or are handed an object where a number is
    expected.  Their handlers are therefore read over any store: a store
    answers a statement and its parameter array with rows or with an
    error. *)

Module Store.

(** A value in a parameter array: a number (the result of [parseInt] or of
    arithmetic on it), a property of a row or of the request, or an
    object. *)
Inductive Arg :=
| ANum (n : JsNum)
| AVal (v : JsVal)
| AObj (o : JsObject).

(** [db.execute] (the rows of its result), [db.all] and [db.get]. *)
Record t := mk {
  execute : string -> list Arg -> Result (list JsObject);
  all : string -> list Arg -> Result (list JsObject);
  get : string -> list Arg -> Result (option JsObject)
}.

(** A statement written over several lines, each run of white space read
    as one space. *)
Definition text (lines : list string) : string := String.concat " " lines.

(** [catch (error) { throw new Error(`prefix: ${error.message}`) }]. *)
Definition rethrow {A : Type} (prefix : string) (r : Result A) : Result A :=
  match r with
  | Returned value => Returned value
  | Thrown message => Thrown (String.append prefix (String.append ": " message))
  end.

(** [row[key]]. *)
Definition prop (key : string) (row : JsObject) : JsVal :=
  match get_prop key row with
  | Some v => v
  | None => JUndefined
  end.

(** [{ ...o, ...extra }] for one property and for an object. *)
Fixpoint set_prop (key : string) (v : JsVal) (o : JsObject) : JsObject :=
  match o with
  | [] => [(key, v)]
  | (key', v') :: o' =>
      if String.eqb key key' then (key, v) :: o' else (key', v') :: set_prop key v o'
  end.

Definition spread (o extra : JsObject) : JsObject :=
  fold_left (fun acc kv => set_prop (fst kv) (snd kv) acc) extra o.

End Store.

(** [data: { <rows>, pagination }]; the rows are under the route's own key
    ([products], [users], [reports], [purchases], [sales]). *)
Record Page := mkPage {
  pg_rows : list JsObject;
  pg_pagination : Pagination
}.

(** models/Product.js, the two methods the list routes call.  An instance
    is given by the row it was built from. *)
Module ProductModel.

(** [Product.findById(id)]. *)
Definition findById (db : Store.t) (id : JsVal) : Result (option JsObject) :=
  Store.rethrow "Error finding product by ID"
    (Store.get db "SELECT * FROM products WHERE id = ?" [Store.AVal id]).

(** [Product.findAll(limit, offset, status)]; every caller passes three
    arguments, none of them [undefined], so no default applies. *)
Definition findAll (db : Store.t) (limit offset status : Store.Arg)
    : Result (list JsObject) :=
  Store.rethrow "Error finding all products"
    (Store.all db
       (Store.text
          ["SELECT p.*, c.name as category_name, c.icon as category_icon,";
           "u.name as seller_name, u.avatar as seller_avatar,";
           "(SELECT image_url FROM product_images WHERE product_id = p.id AND is_primary = TRUE LIMIT 1) as primary_image";
           "FROM products p";
           "LEFT JOIN categories c ON p.category_id = c.id";
           "LEFT JOIN users u ON p.seller_id = u.id";
           "WHERE p.status = ?";
           "ORDER BY p.created_at DESC";
           "LIMIT ? OFFSET ?"])
       [status; limit; offset]).

End ProductModel.

(** The User model (User.js), the methods the list routes call.  An
    instance is given by its [id]. *)
Module UserModel.

(** [User.findById(id)]: the row found, of which the instance keeps
    [id]. *)
Definition findById (db : Store.t) (id : JsNum) : Result (option JsObject) :=
  Store.rethrow "Error finding user by ID"
    (Store.get db "SELECT * FROM users WHERE id = ?" [Store.ANum id]).

(** [user.getProducts(limit, offset)]. *)
Definition getProducts (db : Store.t) (this_id : Store.Arg) (limit offset : JsNum)
    : Result (list JsObject) :=
  Store.rethrow "Error getting user products"
    (Store.all db
       (Store.text
          ["SELECT p.*, c.name as category_name, c.icon as category_icon";
           "FROM products p";
           "LEFT JOIN categories c ON p.category_id = c.id";
           "WHERE p.seller_id = ?";
           "ORDER BY p.created_at DESC";
           "LIMIT ? OFFSET ?"])
       [this_id; Store.ANum limit; Store.ANum offset]).

(** [user.getPurchases(limit, offset)]. *)
Definition getPurchases (db : Store.t) (this_id : Store.Arg) (limit offset : JsNum)
    : Result (list JsObject) :=
  Store.rethrow "Error getting user purchases"
    (Store.all db
       (Store.text
          ["SELECT pur.*, p.title as product_title, p.price as product_price,";
           "(SELECT image_url FROM product_images WHERE product_id = p.id AND is_primary = TRUE LIMIT 1) as product_image,";
           "seller.name as seller_name";
           "FROM purchases pur";
           "JOIN products p ON pur.product_id = p.id";
           "JOIN users seller ON pur.seller_id = seller.id";
           "WHERE pur.buyer_id = ?";
           "ORDER BY pur.created_at DESC";
           "LIMIT ? OFFSET ?"])
       [this_id; Store.ANum limit; Store.ANum offset]).

(** [user.getSales(limit, offset)]. *)
Definition getSales (db : Store.t) (this_id : Store.Arg) (limit offset : JsNum)
    : Result (list JsObject) :=
  Store.rethrow "Error getting user sales"
    (Store.all db
       (Store.text
          ["SELECT pur.*, p.title as product_title, p.price as product_price,";
           "(SELECT image_url FROM product_images WHERE product_id = p.id AND is_primary = TRUE LIMIT 1) as product_image,";
           "buyer.name as buyer_name";
           "FROM purchases pur";
           "JOIN products p ON pur.product_id = p.id";
           "JOIN users buyer ON pur.buyer_id = buyer.id";
           "WHERE pur.seller_id = ?";
           "ORDER BY pur.created_at DESC";
           "LIMIT ? OFFSET ?"])
       [this_id; Store.ANum limit; Store.ANum offset]).

End UserModel.

(** routes/products.js: the list routes.  [page] and [limit] are the
    results of [parseInt] on the query string (or its defaults 1 and 20);
    [req_user] is what [optionalAuth] attached, if anything. *)
Module ProductRoutes.

(** [s.length]: the number of UTF-16 code units of a string held as UTF-8
    bytes.  A continuation byte adds nothing; the first byte of a four-byte
    character stands for two code units. *)
Definition length (s : string) : Z :=
  fold_right
    (fun c n =>
       let b := Z.of_N (Ascii.N_of_ascii c) in
       n + (if (128 <=? b) && (b <? 192) then 0 else if 240 <=? b then 2 else 1))
    0 (list_ascii_of_string s).

(** The loop that adds the favorite status: [for (let product of products)],
    [Product.findById(product.id)] and, for a product found, the call of
    its [isFavoritedBy].  models/Product.js defines no such method, so the
    call throws.  The result is the error that ends the loop, if any;
    [name] is the name the route gives the instance. *)
Fixpoint favorite_status (db : Store.t) (name : string) (products : list JsObject)
    : option string :=
  match products with
  | [] => None
  | product :: rest =>
      match ProductModel.findById db (Store.prop "id" product) with
      | Thrown message => Some message
      | Returned None => favorite_status db name rest
      | Returned (Some _) => Some (String.append name ".isFavoritedBy is not a function")
      end
  end.

(** [router.get('/')].  [filters] is the object the handler builds from
    the query string, its undefined entries deleted.  The handler passes
    it in the place of [limit], the limit in the place of [offset] and the
    offset in the place of [status]. *)
Definition list_all (db : Store.t) (req_user : option UserRow) (filters : JsObject)
    (page limit : JsNum) : Outcome Page :=
  let offset := page_offset page limit in
  match ProductModel.findAll db (Store.AObj filters) (Store.ANum limit)
          (Store.ANum offset) with
  | Thrown message => Next message
  | Returned products =>
      match (match req_user with
             | Some _ => favorite_status db "isFavorited" products
             | None => None
             end) with
      | Some message => Next message
      | None =>
          Sent (mkReply 200 true None []
                  (Some (mkPage products (pagination page limit products))))
      end
  end.

(** [router.get('/user/:userId')]: models/Product.js has [findBySellerId]
    but no [findBySeller]. *)
Definition by_seller (userId page limit : JsNum) : Outcome Page :=
  match userId with
  | NaN => fail 400 "Invalid user ID"
  | Num _ => Next "Product.findBySeller is not a function"
  end.

(** [router.get('/category/:categoryId')]: models/Category.js has
    [findById] and [findAllWithCounts] but no [findByIdWithCount]. *)
Definition by_category (categoryId page limit : JsNum) : Outcome Page :=
  match categoryId with
  | NaN => fail 400 "Invalid category ID"
  | Num _ => Next "Category.findByIdWithCount is not a function"
  end.

Record SearchData := mkSearchData {
  sd_query : string;
  sd_products : list JsObject;
  sd_pagination : Pagination
}.

(** [router.get('/search/:query')]; [req_query] is the parsed query
    string. *)
Definition search (db : Store.t) (req_user : option UserRow) (query : string)
    (req_query : JsObject) (page limit : JsNum) : Outcome SearchData :=
  if String.eqb query "" || (length (Chat.trim query) <? 2)
  then fail 400 "Search query must be at least 2 characters long"
  else
    let offset := page_offset page limit in
    let filters := Store.spread [("search", JString (Chat.trim query))] req_query in
    match ProductModel.findAll db (Store.AObj filters) (Store.ANum limit)
            (Store.ANum offset) with
    | Thrown message => Next message
    | Returned products =>
        match (match req_user with
               | Some _ => favorite_status db "productObj" products
               | None => None
               end) with
        | Some message => Next message
        | None =>
            Sent (mkReply 200 true None []
                    (Some (mkSearchData (Chat.trim query) products
                             (pagination page limit products))))
        end
    end.

End ProductRoutes.

(** routes/admin.js: the lists whose statement the handler assembles. *)
Module AdminLists.

(** [`%${search}%`]. *)
Definition pattern (search : string) : Store.Arg :=
  Store.AVal (JString (String.append "%" (String.append search "%"))).

(** [query] and [queryParams] of [router.get('/products')] when the
    statement is executed. *)
Definition products_statement (status search : option string) (limit offset : JsNum)
    : string * list Store.Arg :=
  let query :=
    Store.text
          ["SELECT p.*, c.name as category_name, c.icon as category_icon,";
           "u.name as seller_name, u.email as seller_email, u.phone as seller_phone,";
           "(SELECT image_url FROM product_images WHERE product_id = p.id AND is_primary = TRUE LIMIT 1) as primary_image";
           "FROM products p";
           "JOIN categories c ON p.category_id = c.id";
           "JOIN users u ON p.seller_id = u.id";
           "WHERE 1=1"] in
  let queryParams : list Store.Arg := [] in
  let '(query, queryParams) :=
    match status with
    | Some s =>
        if truthy_string status
        then (String.append query " AND p.status = ?",
              Sql.push queryParams (Store.AVal (JString s)))
        else (query, queryParams)
    | None => (query, queryParams)
    end in
  let '(query, queryParams) :=
    match search with
    | Some s =>
        if truthy_string search
        then (String.append query
                " AND (p.title LIKE ? OR p.description LIKE ? OR u.name LIKE ?)",
              queryParams ++ [pattern s; pattern s; pattern s])
        else (query, queryParams)
    | None => (query, queryParams)
    end in
  (String.append query " ORDER BY p.created_at DESC LIMIT ? OFFSET ?",
   queryParams ++ [Store.ANum limit; Store.ANum offset]).

(** [router.get('/products')]. *)
Definition products (db : Store.t) (page limit : JsNum) (status search : option string)
    : Outcome Page :=
  let offset := page_offset page limit in
  let '(query, queryParams) := products_statement status search limit offset in
  match Store.execute db query queryParams with
  | Thrown message => Next message
  | Returned rows =>
      Sent (mkReply 200 true None [] (Some (mkPage rows (pagination page limit rows))))
  end.

(** [query] and [queryParams] of [router.get('/users')]; [is_active] and
    [is_verified] are compared with the text 'true' when they are given. *)
Definition users_statement (search is_active is_verified : option string)
    (limit offset : JsNum) : string * list Store.Arg :=
  let query :=
    Store.text
          ["SELECT id, name, email, phone, is_active, is_verified, is_admin,";
           "followers_count, following_count, listings_count, sales_count, created_at";
           "FROM users";
           "WHERE 1=1"] in
  let queryParams : list Store.Arg := [] in
  let '(query, queryParams) :=
    match search with
    | Some s =>
        if truthy_string search
        then (String.append query " AND (name LIKE ? OR email LIKE ? OR phone LIKE ?)",
              queryParams ++ [pattern s; pattern s; pattern s])
        else (query, queryParams)
    | None => (query, queryParams)
    end in
  let '(query, queryParams) :=
    match is_active with
    | Some s =>
        (String.append query " AND is_active = ?",
         Sql.push queryParams (Store.AVal (JBool (String.eqb s "true"))))
    | None => (query, queryParams)
    end in
  let '(query, queryParams) :=
    match is_verified with
    | Some s =>
        (String.append query " AND is_verified = ?",
         Sql.push queryParams (Store.AVal (JBool (String.eqb s "true"))))
    | None => (query, queryParams)
    end in
  (String.append query " ORDER BY created_at DESC LIMIT ? OFFSET ?",
   queryParams ++ [Store.ANum limit; Store.ANum offset]).

(** [router.get('/users')]. *)
Definition users (db : Store.t) (page limit : JsNum)
    (search is_active is_verified : option string) : Outcome Page :=
  let offset := page_offset page limit in
  let '(query, queryParams) :=
    users_statement search is_active is_verified limit offset in
  match Store.execute db query queryParams with
  | Thrown message => Next message
  | Returned rows =>
      Sent (mkReply 200 true None [] (Some (mkPage rows (pagination page limit rows))))
  end.

(** [query] and [queryParams] of [router.get('/reports')]. *)
Definition reports_statement (status report_type : option string) (limit offset : JsNum)
    : string * list Store.Arg :=
  let query :=
    Store.text
          ["SELECT r.*,";
           "reporter.name as reporter_name, reporter.email as reporter_email,";
           "reported_user.name as reported_user_name,";
           "p.title as reported_product_title";
           "FROM reports r";
           "JOIN users reporter ON r.reporter_id = reporter.id";
           "LEFT JOIN users reported_user ON r.reported_user_id = reported_user.id";
           "LEFT JOIN products p ON r.reported_product_id = p.id";
           "WHERE 1=1"] in
  let queryParams : list Store.Arg := [] in
  let '(query, queryParams) :=
    match status with
    | Some s =>
        if truthy_string status
        then (String.append query " AND r.status = ?",
              Sql.push queryParams (Store.AVal (JString s)))
        else (query, queryParams)
    | None => (query, queryParams)
    end in
  let '(query, queryParams) :=
    match report_type with
    | Some s =>
        if truthy_string report_type
        then (String.append query " AND r.report_type = ?",
              Sql.push queryParams (Store.AVal (JString s)))
        else (query, queryParams)
    | None => (query, queryParams)
    end in
  (String.append query " ORDER BY r.created_at DESC LIMIT ? OFFSET ?",
   queryParams ++ [Store.ANum limit; Store.ANum offset]).

(** [router.get('/reports')]. *)
Definition reports (db : Store.t) (page limit : JsNum)
    (status report_type : option string) : Outcome Page :=
  let offset := page_offset page limit in
  let '(query, queryParams) := reports_statement status report_type limit offset in
  match Store.execute db query queryParams with
  | Thrown message => Next message
  | Returned rows =>
      Sent (mkReply 200 true None [] (Some (mkPage rows (pagination page limit rows))))
  end.

End AdminLists.

(** routes/users.js: the list routes.  [req_user] is the instance the auth
    gate attached. *)
Module UserRoutes.

(** [req.user.id], the [this.id] of the instance's own methods. *)
Definition id_of (req_user : UserRow) : Store.Arg := Store.ANum (Num (u_id req_user)).

(** [router.get('/products')]. *)
Definition products (db : Store.t) (req_user : UserRow) (page limit : JsNum)
    : Outcome Page :=
  let offset := page_offset page limit in
  match UserModel.getProducts db (id_of req_user) limit offset with
  | Thrown message => Next message
  | Returned products =>
      Sent (mkReply 200 true None []
              (Some (mkPage products (pagination page limit products))))
  end.

(** [router.get('/purchases')]. *)
Definition purchases (db : Store.t) (req_user : UserRow) (page limit : JsNum)
    : Outcome Page :=
  let offset := page_offset page limit in
  match UserModel.getPurchases db (id_of req_user) limit offset with
  | Thrown message => Next message
  | Returned purchases =>
      Sent (mkReply 200 true None []
              (Some (mkPage purchases (pagination page limit purchases))))
  end.

(** [router.get('/sales')]. *)
Definition sales (db : Store.t) (req_user : UserRow) (page limit : JsNum)
    : Outcome Page :=
  let offset := page_offset page limit in
  match UserModel.getSales db (id_of req_user) limit offset with
  | Thrown message => Next message
  | Returned sales =>
      Sent (mkReply 200 true None [] (Some (mkPage sales (pagination page limit sales))))
  end.

(** The statement of [router.get('/favorites')]. *)
Definition favorites_statement : string :=
  Store.text
          ["SELECT p.*, c.name as category_name, c.icon as category_icon,";
           "u.name as seller_name, u.avatar as seller_avatar, u.location as seller_location,";
           "(SELECT image_url FROM product_images WHERE product_id = p.id AND is_primary = TRUE LIMIT 1) as primary_image,";
           "f.created_at as favorited_at";
           "FROM favorites f";
           "JOIN products p ON f.product_id = p.id";
           "JOIN categories c ON p.category_id = c.id";
           "JOIN users u ON p.seller_id = u.id";
           "WHERE f.user_id = ? AND p.status = 'approved'";
           "ORDER BY f.created_at DESC";
           "LIMIT ? OFFSET ?"].

(** [router.get('/favorites')]. *)
Definition favorites (db : Store.t) (req_user : UserRow) (page limit : JsNum)
    : Outcome Page :=
  let offset := page_offset page limit in
  match Store.execute db favorites_statement
          [id_of req_user; Store.ANum limit; Store.ANum offset] with
  | Thrown message => Next message
  | Returned rows =>
      Sent (mkReply 200 true None [] (Some (mkPage rows (pagination page limit rows))))
  end.

(** [router.get('/followers')], [router.get('/following')] and
    [router.get('/notifications')]: the User model defines none of
    [getFollowers], [getFollowing] and [getNotifications]. *)
Definition followers (req_user : UserRow) (page limit : JsNum) : Outcome Page :=
  Next "req.user.getFollowers is not a function".

Definition following (req_user : UserRow) (page limit : JsNum) : Outcome Page :=
  Next "req.user.getFollowing is not a function".

Definition notifications (req_user : UserRow) (page limit : JsNum) : Outcome Page :=
  Next "req.user.getNotifications is not a function".

(** [router.get('/:userId/products')]. *)
Definition public_products (db : Store.t) (userId page limit : JsNum) : Outcome Page :=
  match userId with
  | NaN => fail 400 "Invalid user ID"
  | Num _ =>
      match UserModel.findById db userId with
      | Thrown message => Next message
      | Returned None => fail 404 "User not found"
      | Returned (Some user) =>
          let offset := page_offset page limit in
          match UserModel.getProducts db (Store.AVal (Store.prop "id" user))
                  limit offset with
          | Thrown message => Next message
          | Returned products =>
              Sent (mkReply 200 true None []
                      (Some (mkPage products (pagination page limit products))))
          end
      end
  end.

End UserRoutes.

(** ** Observations used by the statements below *)

(** [SELECT * FROM purchases WHERE id = ?] followed by [rows[0]]. *)
Definition purchase_of (db : Db) (id : Z) : option PurchaseRow :=
  Sql.first_row (Sql.select_where (fun pur => pu_id pur =? id) (purchases db)).

(** The two states no handler leaves. *)
Definition terminal (status : string) : bool :=
  String.eqb status "completed" || String.eqb status "cancelled".

Definition product_status_of (db : Db) (id : Z) : option string :=
  option_map p_status (Product.findById db id).

Definition sales_count_of (db : Db) (user_id : Z) : option Z :=
  option_map u_sales_count
    (Sql.first_row (Sql.select_where (fun u => u_id u =? user_id) (users db))).

(** The images of a product that are flagged primary. *)
Definition primary_images (db : Db) (product_id : Z) : list ImageRow :=
  Sql.select_where (fun i => (i_product_id i =? product_id) && i_is_primary i)
    (product_images db).

(** A message without its [is_read] flag. *)
Definition message_content (m : MessageRow)
    : Z * Z * Z * string * string * option string * Z :=
  (m_id m, m_room_id m, m_sender_id m, m_message m, m_message_type m,
   m_attachment_url m, m_created_at m).

(** The four shapes of what a cart request does to the cart table. *)
Inductive cart_change (user_id : Z) (before : list CartRow) : list CartRow -> Prop :=
| cart_same : cart_change user_id before before
| cart_set (product_id : Z) (set : CartRow -> CartRow) :
    (forall c, CartViews.pair_of (set c) = CartViews.pair_of c) ->
    cart_change user_id before
      (Sql.update_where (Cart.mine user_id product_id) set before)
| cart_new (product_id quantity : Z) :
    Sql.select_where (Cart.mine user_id product_id) before = [] ->
    cart_change user_id before (before ++ [mkCart user_id product_id quantity])
| cart_gone (gone : CartRow -> bool) :
    (forall c, gone c = true -> c_user_id c = user_id) ->
    cart_change user_id before (Sql.delete_where gone before).

(** The columns the admin's user status route must leave alone. *)
Definition credentials (u : UserRow) : Z * string * string * string * bool :=
  (u_id u, u_name u, u_email u, u_password u, u_is_admin u).

(** All images of a product. *)
Definition images_of (db : Db) (product_id : Z) : list ImageRow :=
  Sql.select_where (fun i => i_product_id i =? product_id) (product_images db).

(** ** Sample stores *)

Definition alice : UserRow :=
  mkUser 1 "Alice" "alice@example.com" None "$2a$10$hashA" None true true false
    0 0 1 0 100 100.

Definition bob : UserRow :=
  mkUser 2 "Bob" "bob@example.com" (Some "9876543210") "$2a$10$hashB" None
    true true false 0 0 0 0 101 101.

(** Alice's approved listing, priced 100.00. *)
Definition lamp : ProductRow := mkProduct 7 "Lamp" 10000 3 1 "approved" 110.

Definition market : Db :=
  mkDb [alice; bob] [lamp] [] [] [] [] [] [] [] [].

(** The value of an unsigned decimal integer literal. *)
Fixpoint decimal (s : string) (acc : Z) : option Z :=
  match s with
  | EmptyString => Some acc
  | String c s' =>
      let n := Z.of_nat (nat_of_ascii c) in
      if (48 <=? n) && (n <=? 57) then decimal s' (10 * acc + (n - 48)) else None
  end.

(** Coercions for the sample requests.  Of strings, the samples use the
    empty string, unsigned decimal integers and words without a digit, which
    convert to 0, to their value and to [NaN].  The store is one that rounds
    a fraction to the nearest integer, takes a boolean as 0 or 1 and refuses
    text for an INT column. *)
Definition sample_coercions : Coercions :=
  mkCoercions
    (fun s => match decimal s 0 with Some z => DFinite z 1 | None => DNaN end)
    (fun v =>
       match v with
       | BBool b => Some (if b then 1 else 0)
       | BNumber (DFinite num den) =>
           Some (if 0 <=? num
                 then (2 * num + Z.pos den) / (2 * Z.pos den)
                 else - ((2 * - num + Z.pos den) / (2 * Z.pos den)))
       | _ => None
       end).

(** A store that refuses every notification statement a title that is
    not plain has changed. *)
Definition refuse_spliced (title : string) (db : Db) : option (list NotificationRow) :=
  None.

(** Bob's purchase of the lamp, in a given status. *)
Definition order (status : string) : PurchaseRow :=
  mkPurchase 1 2 1 7 10000 2 status "cash" None 120 None.

Definition market_with_order (status : string) : Db :=
  set_purchases market [order status].

(** The market with the lamp in Bob's cart. *)
Definition market_with_cart (quantity : Z) : Db :=
  set_cart market [mkCart 2 7 quantity].

(** Bob and Alice talk about the lamp; Bob wrote the only message. *)
Definition hello : MessageRow := mkMessage 1 1 2 "Is it available?" "text" None false 140.

Definition market_with_chat : Db :=
  set_messages (set_chat_rooms market [mkRoom 1 2 1 7 140]) [hello].

(** Bob's report on Alice, in a given status. *)
Definition complaint (status : string) : ReportRow :=
  mkReport 1 2 (Some 1) "user" "spam" None status None None.

Definition market_with_report (status : string) : Db :=
  set_reports market [complaint status].

(** The market with the category of the lamp and an unused one. *)
Definition catalog : Catalog :=
  mkCatalog market
    [mkCategory 3 "Home" "fas fa-home" None 90 90;
     mkCategory 4 "Books" "fas fa-book" (Some "Novels") 91 91].

(** What the pagination claim says of a handler that awaits a call and
    answers with its rows: when the call returns rows, the handler sends
    them in a 200 reply whose [hasMore] is true exactly when they are as
    many as [limit]; when the call throws, the handler passes the error
    on. *)
Definition paginates (limit : JsNum) (awaited : Result (list JsObject))
    (o : Outcome Page) : Prop :=
  match awaited with
  | Returned rows =>
      exists pag,
        o = Sent (mkReply 200 true None [] (Some (mkPage rows pag)))
        /\ (hasMore pag = true <-> limit = Num (Z.of_nat (List.length rows)))
  | Thrown message => o = Next message
  end.

(** A store that answers every list statement with the same two rows and
    finds no row by id. *)
Definition two_rows : list JsObject :=
  [[("id", JNumber 1); ("name", JString "Alice")];
   [("id", JNumber 2); ("name", JString "Bob")]].

Definition two_row_store : Store.t :=
  Store.mk (fun _ _ => Returned two_rows) (fun _ _ => Returned two_rows)
    (fun _ _ => Returned None).

(** The same store, finding a row for every id. *)
Definition finding_store : Store.t :=
  Store.mk (fun _ _ => Returned two_rows) (fun _ _ => Returned two_rows)
    (fun _ _ => Returned (Some [("id", JNumber 1)])).

(** The market with a second lamp waiting for approval. *)
Definition market_with_pending : Db :=
  set_products market [lamp; mkProduct 8 "Desk lamp" 4000 3 2 "pending" 130].

(** * Properties *)

(** ** Lists and statements *)

Lemma includes_3 (a b c x : string) :
  includes [a; b; c] x = true -> x = a \/ x = b \/ x = c.
Proof.
  unfold includes; simpl.
  repeat rewrite orb_true_iff.
  intros [H | [H | [H | H]]]; try discriminate;
    apply String.eqb_eq in H; auto.
Qed.

Section UpdateWhere.
Context {A : Type} (key : A -> Z) (set : A -> A).
Hypothesis set_key : forall r, key (set r) = key r.

Lemma first_row_update_same (id : Z) (t : list A) :
  Sql.first_row
    (Sql.select_where (fun r => key r =? id)
       (Sql.update_where (fun r => key r =? id) set t))
  = option_map set
      (Sql.first_row (Sql.select_where (fun r => key r =? id) t)).
Proof.
  induction t as [| r t IH]; simpl; [reflexivity |].
  destruct (key r =? id) eqn:E; simpl.
  - rewrite set_key, E. reflexivity.
  - rewrite E. exact IH.
Qed.

Lemma select_update_other (id id' : Z) (t : list A) :
  id <> id' ->
  Sql.select_where (fun r => key r =? id)
    (Sql.update_where (fun r => key r =? id') set t)
  = Sql.select_where (fun r => key r =? id) t.
Proof.
  intros Hne.
  induction t as [| r t IH]; simpl; [reflexivity |].
  destruct (key r =? id') eqn:E'.
  - rewrite set_key.
    apply Z.eqb_eq in E'.
    destruct (key r =? id) eqn:E.
    + apply Z.eqb_eq in E. congruence.
    + exact IH.
  - destruct (key r =? id); [f_equal |]; exact IH.
Qed.
End UpdateWhere.

Lemma first_row_select_sound {A : Type} (cond : A -> bool) (t : list A) (r : A) :
  Sql.first_row (Sql.select_where cond t) = Some r -> In r t /\ cond r = true.
Proof.
  unfold Sql.first_row, Sql.select_where.
  intros H.
  assert (Hin : In r (filter cond t)).
  { destruct (filter cond t); simpl in H; [discriminate |].
    injection H as ->. now left. }
  now apply filter_In in Hin.
Qed.

Lemma purchase_of_id (db : Db) (id : Z) (purchase : PurchaseRow) :
  purchase_of db id = Some purchase -> pu_id purchase = id.
Proof.
  intros H. apply first_row_select_sound in H as [_ H].
  now apply Z.eqb_eq.
Qed.

(** ** Purchases: terminal states *)

Lemma terminal_guard (status : string) :
  terminal status = true ->
  String.eqb status "completed" || String.eqb status "cancelled" = true
  /\ String.eqb status "pending" = false.
Proof.
  unfold terminal. intros H. split; [exact H |].
  apply orb_true_iff in H as [H | H]; apply String.eqb_eq in H; subst; reflexivity.
Qed.

Lemma update_status_terminal (now : Z) (db : Db) (id : Z) (purchase : PurchaseRow)
    (user_id : Z) (status tid : option string) :
  purchase_of db id = Some purchase ->
  terminal (pu_status purchase) = true ->
  exists code msg,
    Purchases.update_status now db
      (Purchases.mkStatusRequest user_id (Num id) status tid)
    = (db, fail code msg)
    /\ (code = 400 \/ code = 403)
    /\ (user_id = pu_seller_id purchase -> code = 400)
    /\ (user_id = pu_seller_id purchase ->
        (exists s, status = Some s
                   /\ includes ["confirmed"; "cancelled"; "completed"] s = true) ->
        msg = "Purchase status cannot be changed").
Proof.
  intros Hrow Hterm.
  apply terminal_guard in Hterm as [Hguard _].
  unfold Purchases.update_status.
  cbn [Purchases.sr_purchaseId Purchases.sr_status Purchases.sr_user_id].
  destruct status as [s |].
  - destruct (includes ["confirmed"; "cancelled"; "completed"] s) eqn:Hs;
      cbn [negb].
    + unfold purchase_of in Hrow. rewrite Hrow.
      destruct (pu_seller_id purchase =? user_id) eqn:Hu; cbn [negb].
      * rewrite Hguard. do 2 eexists. split; [reflexivity |]. auto.
      * apply Z.eqb_neq in Hu.
        do 2 eexists. split; [reflexivity |].
        repeat split; auto; intros; congruence.
    + do 2 eexists. split; [reflexivity |].
      repeat split; auto.
      intros _ (s' & [= <-] & Hs'). congruence.
  - do 2 eexists. split; [reflexivity |].
    repeat split; auto.
    intros _ (s' & Hs' & _). discriminate.
Qed.

Lemma cancel_terminal (db : Db) (id : Z) (purchase : PurchaseRow) (user_id : Z) :
  purchase_of db id = Some purchase ->
  terminal (pu_status purchase) = true ->
  Purchases.cancel db (Purchases.mkCancelRequest user_id (Num id))
  = (db, if pu_buyer_id purchase =? user_id
         then fail 400 "Purchase cannot be cancelled"
         else fail 403 "You can only cancel your own purchases").
Proof.
  intros Hrow Hterm.
  apply terminal_guard in Hterm as [_ Hpending].
  unfold Purchases.cancel.
  cbn [Purchases.ca_purchaseId Purchases.ca_user_id].
  unfold purchase_of in Hrow. rewrite Hrow.
  destruct (pu_buyer_id purchase =? user_id); cbn [negb]; [| reflexivity].
  rewrite Hpending. reflexivity.
Qed.

(** The parameter array of the status update always holds one value more
    than the statement has placeholders: the purchase id is in the initial
    array and is pushed again. *)
Lemma updateData_surplus (status : string) (tid : option string) (id : Z) :
  List.length (Purchases.updateData status tid id)
  = S (Purchases.placeholders (truthy_string tid))
  /\ nth_error (Purchases.updateData status tid id)
       (Purchases.placeholders (truthy_string tid))
     = Some (Sql.VNumber id).
Proof.
  unfold Purchases.updateData, Purchases.placeholders.
  destruct (truthy_string tid); split; reflexivity.
Qed.

(** So the store refuses the statement the handler builds, whatever the
    request. *)
Lemma exec_update_purchase_refused (status : string) (tid : option string) (id : Z)
    (with_completed : bool) (now : Z) (db : Db) :
  Purchases.exec_update_purchase (truthy_string tid) with_completed
    (Purchases.updateData status tid id) now db
  = None.
Proof.
  unfold Purchases.updateData.
  destruct tid as [t |]; [| reflexivity].
  cbn [truthy_string]. destruct (negb (String.eqb t "")); reflexivity.
Qed.

(** The status route never writes: its first statement that writes is the
    refused one. *)
Lemma update_status_store (now : Z) (db : Db) (req : Purchases.StatusRequest) :
  fst (Purchases.update_status now db req) = db.
Proof.
  unfold Purchases.update_status.
  destruct (Purchases.sr_purchaseId req) as [| id]; [reflexivity |].
  destruct (Purchases.sr_status req) as [status |]; [| reflexivity].
  destruct (negb _); [reflexivity |].
  destruct (Sql.first_row _) as [purchase |]; [| reflexivity].
  destruct (negb _); [reflexivity |].
  destruct (_ || _); [reflexivity |].
  now rewrite exec_update_purchase_refused.
Qed.

Lemma cancel_purchases (db : Db) (req : Purchases.CancelRequest) :
  purchases (fst (Purchases.cancel db req)) = purchases db
  \/ exists id set,
       Purchases.ca_purchaseId req = Num id
       /\ (forall r, pu_id (set r) = pu_id r)
       /\ purchases (fst (Purchases.cancel db req))
          = Sql.update_where (fun pur => pu_id pur =? id) set (purchases db).
Proof.
  unfold Purchases.cancel.
  destruct (Purchases.ca_purchaseId req) as [| id]; [now left |].
  destruct (Sql.first_row _) as [purchase |]; [| now left].
  destruct (negb _); [now left |].
  destruct (negb _); [now left |].
  right. eexists id, _. split; [reflexivity |]. split; [| reflexivity].
  reflexivity.
Qed.

Lemma purchase_of_ext (db db' : Db) (id : Z) :
  purchases db' = purchases db -> purchase_of db' id = purchase_of db id.
Proof. unfold purchase_of. now intros ->. Qed.

(** C1.  A purchase whose status is completed or cancelled is frozen.  The
    seller's status update on it is answered 400 (with the message
    'Purchase status cannot be changed' when the requested status is one of
    the three accepted ones) and the buyer's cancel is answered 400
    'Purchase cannot be cancelled'; both leave the whole store unchanged.
    Moreover no request whatsoever to either endpoint, from any user and
    about any purchase, changes the row of a terminal purchase. *)
Theorem terminal_purchase_is_frozen (now : Z) (db : Db) (id : Z)
    (purchase : PurchaseRow) :
  purchase_of db id = Some purchase ->
  terminal (pu_status purchase) = true ->
  (forall status tid,
      exists msg,
        Purchases.update_status now db
          (Purchases.mkStatusRequest (pu_seller_id purchase) (Num id) status tid)
        = (db, fail 400 msg)
        /\ (forall s, status = Some s ->
                      includes ["confirmed"; "cancelled"; "completed"] s = true ->
                      msg = "Purchase status cannot be changed"))
  /\ Purchases.cancel db (Purchases.mkCancelRequest (pu_buyer_id purchase) (Num id))
     = (db, fail 400 "Purchase cannot be cancelled")
  /\ (forall req,
        purchase_of (fst (Purchases.update_status now db req)) id = Some purchase)
  /\ (forall req, purchase_of (fst (Purchases.cancel db req)) id = Some purchase).
Proof.
  intros Hrow Hterm.
  split; [| split; [| split]].
  - intros status tid.
    destruct (update_status_terminal now db id purchase (pu_seller_id purchase)
                status tid Hrow Hterm) as (code & msg & Heq & _ & Hcode & Hmsg).
    rewrite (Hcode eq_refl) in Heq.
    exists msg. split; [exact Heq |].
    intros s -> Hs. apply Hmsg; [reflexivity | eauto].
  - rewrite (cancel_terminal db id purchase _ Hrow Hterm), Z.eqb_refl.
    reflexivity.
  - intros req. rewrite update_status_store. exact Hrow.
  - intros req.
    destruct (cancel_purchases db req) as [Hsame | (id' & set & Hreq & Hset & Hupd)].
    + rewrite (purchase_of_ext _ _ _ Hsame). exact Hrow.
    + destruct (Z.eq_dec id id') as [<- | Hne].
      * destruct req as [u n]. cbn in Hreq. subst n.
        rewrite (cancel_terminal db id purchase u Hrow Hterm). exact Hrow.
      * unfold purchase_of. rewrite Hupd.
        rewrite (select_update_other pu_id set Hset id id' _ Hne).
        exact Hrow.
Qed.

Lemma terminal_purchase_is_frozen_witness :
  Purchases.cancel (market_with_order "completed")
    (Purchases.mkCancelRequest 2 (Num 1))
  = (market_with_order "completed", fail 400 "Purchase cannot be cancelled").
Proof.
  exact (proj1 (proj2 (terminal_purchase_is_frozen 0 (market_with_order "completed")
                         1 (order "completed") eq_refl eq_refl))).
Defined.

(** ** Purchases: completion *)

Lemma not_terminal_guard (status : string) :
  terminal status = false ->
  String.eqb status "completed" || String.eqb status "cancelled" = false.
Proof. intros H. exact H. Qed.

(** C2, as the code has it.  When the seller asks to move an open (pending
    or confirmed) purchase to 'completed', every guard passes, but the
    UPDATE the handler then runs carries one bind value more than it has
    placeholders: the store refuses it, the error goes to [next] and nothing
    is written.  The purchase keeps its status, the product is not marked
    sold and the seller's sales_count is not raised.  A completion request
    on a purchase that is already completed is answered 400 and leaves the
    store as it is, so nothing is ever counted twice. *)
Theorem completion_is_refused (now : Z) (db : Db) (id : Z)
    (purchase : PurchaseRow) (tid : option string) :
  purchase_of db id = Some purchase ->
  let request :=
    Purchases.mkStatusRequest (pu_seller_id purchase) (Num id) (Some "completed") tid in
  let db' := fst (Purchases.update_status now db request) in
  (terminal (pu_status purchase) = false ->
   (exists error, snd (Purchases.update_status now db request) = Next error)
   /\ db' = db
   /\ purchase_of db' id = Some purchase
   /\ product_status_of db' (pu_product_id purchase)
      = product_status_of db (pu_product_id purchase)
   /\ sales_count_of db' (pu_seller_id purchase)
      = sales_count_of db (pu_seller_id purchase))
  /\ (pu_status purchase = "completed" ->
      Purchases.update_status now db request
      = (db, fail 400 "Purchase status cannot be changed")).
Proof.
  intros Hrow request db'.
  assert (Hstore : db' = db) by apply update_status_store.
  split.
  - intros Hopen. apply not_terminal_guard in Hopen.
    split; [| rewrite Hstore; auto].
    subst request. unfold Purchases.update_status.
    cbn [Purchases.sr_purchaseId Purchases.sr_status Purchases.sr_user_id
         Purchases.sr_transaction_id].
    change (includes ["confirmed"; "cancelled"; "completed"] "completed") with true.
    cbn [negb].
    unfold purchase_of in Hrow. rewrite Hrow.
    rewrite Z.eqb_refl. cbn [negb]. rewrite Hopen.
    rewrite exec_update_purchase_refused. eexists. reflexivity.
  - intros Hdone.
    assert (Hterm : terminal (pu_status purchase) = true) by now rewrite Hdone.
    destruct (update_status_terminal now db id purchase (pu_seller_id purchase)
                (Some "completed") tid Hrow Hterm)
      as (code & msg & Heq & _ & Hcode & Hmsg).
    subst request. rewrite Heq, (Hcode eq_refl), (Hmsg eq_refl); [reflexivity |].
    exists "completed". split; reflexivity.
Qed.

(** The seller completes Bob's confirmed order of the lamp: no reply, the
    lamp is still approved and Alice's sales_count is still 0. *)
Lemma completion_is_refused_witness :
  let out := Purchases.update_status 130 (market_with_order "confirmed")
               (Purchases.mkStatusRequest 1 (Num 1) (Some "completed") None) in
  (exists error, snd out = Next error)
  /\ option_map pu_status (purchase_of (fst out) 1) = Some "confirmed"
  /\ product_status_of (fst out) 7 = Some "approved"
  /\ sales_count_of (fst out) 1 = Some 0.
Proof.
  pose proof (completion_is_refused 130 (market_with_order "confirmed") 1
                (order "confirmed") None eq_refl) as H.
  cbv zeta in H. destruct H as [H _].
  destruct (H eq_refl) as (Herror & _ & Hrow & Hproduct & Hsales).
  intros out.
  split; [exact Herror |].
  split; [exact (f_equal (option_map pu_status) Hrow) |].
  split; [exact Hproduct | exact Hsales].
Defined.

(** ** Self-dealing: cart, purchase, favorite *)

Lemma validate_cases {B D : Type} (schema : B -> list Validation.Violation)
    (body : B) (handler : Db * Outcome D) (db : Db) :
  Validation.validate schema body handler db = handler
  \/ exists errs,
       Validation.validate schema body handler db
       = (db, Sent (mkReply 400 false (Some "Validation error") errs None)).
Proof.
  unfold Validation.validate.
  destruct (schema body) as [| e errs]; [now left | right; eauto].
Qed.

Lemma cart_add_own_product (db : Db) (user_id product_id quantity : Z)
    (product : ProductRow) :
  Product.findById db product_id = Some product ->
  p_seller_id product = user_id ->
  Cart.add_handler db user_id product_id quantity
  = (db, fail 400 "You cannot add your own product to cart").
Proof.
  intros Hp Hown. unfold Cart.add_handler.
  rewrite Hp, Hown, Z.eqb_refl. reflexivity.
Qed.

Lemma purchase_create_own_product
    (spliced : string -> Db -> option (list NotificationRow)) (now : Z) (db : Db)
    (user_id product_id quantity : Z) (payment_method : string)
    (product : ProductRow) :
  Product.findById db product_id = Some product ->
  p_seller_id product = user_id ->
  Purchases.create_handler spliced now db user_id product_id quantity payment_method
  = (db, fail 400 "You cannot purchase your own product").
Proof.
  intros Hp Hown. unfold Purchases.create_handler.
  rewrite Hp, Hown, Z.eqb_refl. reflexivity.
Qed.

(** C3, as the code has it.  For a product whose seller is the caller, the
    add-to-cart and the purchase-create routes answer 400 and leave the
    store unchanged (with the self-dealing message once the body passes
    validation).  The favorite route has no such guard: for the caller's own
    product, as for any product it finds, it calls a method the Product model
    does not define, so the TypeError goes to [next]; no reply is sent by the
    handler and no favorites row is stored. *)
Theorem own_product_cart_and_purchase_rejected
    (spliced : string -> Db -> option (list NotificationRow)) (now : Z) (db : Db)
    (user_id product_id : Z) (product : ProductRow) :
  Product.findById db product_id = Some product ->
  p_seller_id product = user_id ->
  (forall quantity,
      let out := Cart.add db
                   (Cart.mkAddRequest user_id
                      (Validation.mkCartBody (Some product_id) quantity)) in
      fst out = db
      /\ (exists r, snd out = Sent r /\ statusCode r = 400 /\ success r = false)
      /\ (Validation.cartValidation_addItem
            (Validation.mkCartBody (Some product_id) quantity) = [] ->
          snd out = fail 400 "You cannot add your own product to cart"))
  /\ (forall quantity payment_method,
        let out := Purchases.create spliced now db
                     (Purchases.mkCreateRequest user_id
                        (Validation.mkPurchaseBody (Some product_id) quantity
                           (Some payment_method))) in
        fst out = db
        /\ (exists r, snd out = Sent r /\ statusCode r = 400 /\ success r = false)
        /\ (Validation.purchaseValidation_create
              (Validation.mkPurchaseBody (Some product_id) quantity
                 (Some payment_method)) = [] ->
            snd out = fail 400 "You cannot purchase your own product"))
  /\ Products.favorite db user_id (Num product_id)
     = (db, Next "product.isFavoritedBy is not a function")
  /\ (forall other,
        Products.favorite db other (Num product_id)
        = Products.favorite db user_id (Num product_id)).
Proof.
  intros Hp Hown.
  split; [| split; [| split]].
  - intros quantity out. subst out. unfold Cart.add.
    cbn [Cart.ar_body Cart.ar_user_id Validation.cb_product_id
         Validation.cb_quantity].
    rewrite (cart_add_own_product db user_id product_id _ product Hp Hown).
    match goal with
    | |- context [Validation.validate ?s ?b ?h ?d] =>
        destruct (validate_cases s b h d) as [-> | (errs & Herr)]
    end.
    + repeat split. eexists. repeat split.
    + rewrite Herr. repeat split.
      * eexists. repeat split.
      * intros Hok. unfold Validation.validate in Herr.
        rewrite Hok in Herr. discriminate.
  - intros quantity payment_method out. subst out. unfold Purchases.create.
    cbn [Purchases.cr_body Purchases.cr_user_id Validation.pb_product_id
         Validation.pb_quantity Validation.pb_payment_method].
    rewrite (purchase_create_own_product spliced now db user_id product_id _ _ product
               Hp Hown).
    match goal with
    | |- context [Validation.validate ?s ?b ?h ?d] =>
        destruct (validate_cases s b h d) as [-> | (errs & Herr)]
    end.
    + repeat split. eexists. repeat split.
    + rewrite Herr. repeat split.
      * eexists. repeat split.
      * intros Hok. unfold Validation.validate in Herr.
        rewrite Hok in Herr. discriminate.
  - unfold Products.favorite. rewrite Hp. reflexivity.
  - intros other. unfold Products.favorite. rewrite Hp. reflexivity.
Qed.

(** Alice and her own lamp: the cart and the purchase routes answer 400
    with their self-dealing messages; the favorite route sends no reply. *)
Lemma own_product_cart_and_purchase_rejected_witness :
  snd (Cart.add market
         (Cart.mkAddRequest 1 (Validation.mkCartBody (Some 7) (Some 1))))
  = fail 400 "You cannot add your own product to cart"
  /\ snd (Purchases.create refuse_spliced 130 market
            (Purchases.mkCreateRequest 1
               (Validation.mkPurchaseBody (Some 7) (Some 2) (Some "cash"))))
     = fail 400 "You cannot purchase your own product"
  /\ Products.favorite market 1 (Num 7)
     = (market, Next "product.isFavoritedBy is not a function").
Proof.
  pose proof (own_product_cart_and_purchase_rejected refuse_spliced 130 market 1 7 lamp
                eq_refl eq_refl) as (Hcart & Hbuy & Hfavorite & _).
  split; [| split].
  - exact (proj2 (proj2 (Hcart (Some 1))) eq_refl).
  - exact (proj2 (proj2 (Hbuy (Some 2) "cash")) eq_refl).
  - exact Hfavorite.
Defined.

(** The favorite route never answers with the 400 of a refused request
    once the product exists, whoever owns it. *)
Example favorite_is_no_domain_rejection :
  ~ (exists code msg, snd (Products.favorite market 1 (Num 7)) = fail code msg).
Proof. intros (code & msg & H). discriminate H. Qed.

(** ** Cart quantities *)

Section SelectUpdate.
Context {A : Type} (cond : A -> bool) (set : A -> A).
Hypothesis set_cond : forall r, cond (set r) = cond r.

Lemma select_update_same (t : list A) :
  Sql.select_where cond (Sql.update_where cond set t)
  = map set (Sql.select_where cond t).
Proof.
  induction t as [| r t IH]; simpl; [reflexivity |].
  destruct (cond r) eqn:E; simpl.
  - rewrite set_cond, E. simpl. now f_equal.
  - rewrite E. exact IH.
Qed.
End SelectUpdate.

Lemma update_where_length {A : Type} (cond : A -> bool) (set : A -> A) (t : list A) :
  List.length (Sql.update_where cond set t) = List.length t.
Proof. apply length_map. Qed.

Lemma quantities_nil (db : Db) (user_id product_id : Z) :
  Cart.quantities db user_id product_id = [] ->
  Sql.select_where (Cart.mine user_id product_id) (cart db) = [].
Proof.
  unfold Cart.quantities.
  now destruct (Sql.select_where _ _).
Qed.

Lemma check_quantity_ok (quantity : option Z) :
  Validation.check_quantity quantity = [] ->
  1 <= Validation.default_quantity quantity <= 10.
Proof.
  destruct quantity as [z |]; cbn; [| lia].
  destruct (Validation.unsafe z); [discriminate |].
  destruct (z <? 1) eqn:E1; [discriminate |].
  destruct (10 <? z) eqn:E2; [discriminate |].
  intros _. apply Z.ltb_ge in E1, E2. lia.
Qed.

(** The guard of the update route on a JSON integer. *)
Lemma bad_quantity_integer (co : Coercions) (q : Z) :
  Cart.bad_quantity co (BNumber (DFinite q 1)) = false <-> 1 <= q <= 10.
Proof.
  unfold Cart.bad_quantity. cbn [ToBoolean ToNumber less_than greater_than].
  rewrite !orb_false_iff, negb_false_iff, negb_true_iff, Z.eqb_neq, !Z.ltb_ge. lia.
Qed.

Lemma column_int_integer (co : Coercions) (q : Z) :
  column_int co (BNumber (DFinite q 1)) = Some q.
Proof.
  unfold column_int, as_integer.
  now rewrite Z.mod_1_r, Z.div_1_r.
Qed.

(** The accepted add-to-cart request, on the two branches of the handler. *)
Lemma cart_add_accepted (db : Db) (user_id product_id : Z) (quantity : option Z)
    (product : ProductRow) :
  Product.findById db product_id = Some product ->
  p_seller_id product <> user_id ->
  Validation.check_product_id (Some product_id) = [] ->
  Validation.check_quantity quantity = [] ->
  Cart.add db
    (Cart.mkAddRequest user_id (Validation.mkCartBody (Some product_id) quantity))
  = Cart.add_handler db user_id product_id (Validation.default_quantity quantity).
Proof.
  intros Hp Hother Hid Hq.
  unfold Cart.add, Validation.validate, Validation.cartValidation_addItem.
  cbn [Cart.ar_body Cart.ar_user_id Validation.cb_product_id Validation.cb_quantity].
  rewrite Hid, Hq. reflexivity.
Qed.

(** C4, as the code has it.  An accepted add for a pair with no cart row
    inserts one row holding the requested quantity, which is in [1,10].  An
    accepted add for a pair already in the cart inserts no row and adds the
    requested quantity to the stored one; the sum is stored as it is, without
    a bound, so the stored quantity exceeds 10 whenever the sum does.  On
    the update route a quantity given as a JSON integer is stored when it is
    in [1,10] and refused, the store unchanged, when it is not. *)
Theorem cart_add_merges_without_bound (db : Db) (user_id product_id : Z)
    (quantity : option Z) (product : ProductRow) :
  Product.findById db product_id = Some product ->
  p_seller_id product <> user_id ->
  Validation.check_product_id (Some product_id) = [] ->
  Validation.check_quantity quantity = [] ->
  let q := Validation.default_quantity quantity in
  let added :=
    fst (Cart.add db
           (Cart.mkAddRequest user_id
              (Validation.mkCartBody (Some product_id) quantity))) in
  1 <= q <= 10
  /\ (Cart.quantities db user_id product_id = [] ->
      cart added = cart db ++ [mkCart user_id product_id q])
  /\ (Cart.quantities db user_id product_id <> [] ->
      List.length (cart added) = List.length (cart db)
      /\ Cart.quantities added user_id product_id
         = map (fun stored => stored + q) (Cart.quantities db user_id product_id))
  /\ (forall stored,
        In stored (Cart.quantities db user_id product_id) ->
        In (stored + q) (Cart.quantities added user_id product_id))
  /\ (forall co n,
        Cart.quantities db user_id product_id <> [] ->
        let updated :=
          fst (Cart.update co db
                 (Cart.mkUpdateRequest user_id (Num product_id)
                    (BNumber (DFinite n 1)))) in
        (1 <= n <= 10 ->
         Cart.quantities updated user_id product_id
         = map (fun _ => n) (Cart.quantities db user_id product_id))
        /\ (~ 1 <= n <= 10 -> updated = db)).
Proof.
  intros Hp Hother Hid Hq q added.
  assert (Hadd : added = fst (Cart.add_handler db user_id product_id q)).
  { subst added q. now rewrite (cart_add_accepted db user_id product_id quantity product). }
  assert (Hne : (p_seller_id product =? user_id) = false) by now apply Z.eqb_neq.
  assert (Hmine : forall f c,
             Cart.mine user_id product_id (mkCart (c_user_id c) (c_product_id c) (f c))
             = Cart.mine user_id product_id c) by reflexivity.
  assert (Hmerge : Cart.quantities db user_id product_id <> [] ->
            List.length (cart added) = List.length (cart db)
            /\ Cart.quantities added user_id product_id
               = map (fun stored => stored + q)
                   (Cart.quantities db user_id product_id)).
  { intros Hsome. rewrite Hadd. unfold Cart.add_handler. rewrite Hp, Hne.
    unfold Cart.quantities in *.
    destruct (Sql.select_where (Cart.mine user_id product_id) (cart db))
      as [| existing rest] eqn:Hsel; [contradiction |].
    cbn [fst cart set_cart]. split; [apply update_where_length |].
    rewrite (select_update_same (Cart.mine user_id product_id)
               (fun c => mkCart (c_user_id c) (c_product_id c) (c_quantity c + q))
               (Hmine (fun c => c_quantity c + q))).
    rewrite Hsel, !map_map. reflexivity. }
  split; [now apply check_quantity_ok |].
  split; [| split; [exact Hmerge | split]].
  - intros Hnone. apply quantities_nil in Hnone.
    rewrite Hadd. unfold Cart.add_handler. rewrite Hp, Hne, Hnone. reflexivity.
  - intros stored Hin.
    assert (Hsome : Cart.quantities db user_id product_id <> [])
      by (intros E; rewrite E in Hin; exact Hin).
    rewrite (proj2 (Hmerge Hsome)).
    apply (in_map (fun stored => stored + q)), Hin.
  - intros co n Hsome updated. subst updated. unfold Cart.update.
    cbn [Cart.ur_productId Cart.ur_quantity Cart.ur_user_id].
    destruct (Cart.bad_quantity co (BNumber (DFinite n 1))) eqn:Hbad.
    + split; [| reflexivity].
      intros Hn. apply (bad_quantity_integer co) in Hn. congruence.
    + split; [| intros Hn; apply bad_quantity_integer in Hbad; contradiction].
      intros _. unfold Cart.quantities in *.
      destruct (Sql.select_where (Cart.mine user_id product_id) (cart db))
        as [| existing rest] eqn:Hsel; [contradiction |].
      rewrite column_int_integer.
      cbn [fst cart set_cart].
      rewrite (select_update_same (Cart.mine user_id product_id)
                 (fun c => mkCart (c_user_id c) (c_product_id c) n)
                 (Hmine (fun _ => n))).
      rewrite Hsel, !map_map. reflexivity.
Qed.

(** With 10 lamps in Bob's cart, an add of 10 more is accepted and the one
    row then holds 20. *)
Lemma cart_add_merges_without_bound_witness :
  let added :=
    fst (Cart.add (market_with_cart 10)
           (Cart.mkAddRequest 2 (Validation.mkCartBody (Some 7) (Some 10)))) in
  List.length (cart added) = 1%nat /\ Cart.quantities added 2 7 = [20].
Proof.
  pose proof (cart_add_merges_without_bound (market_with_cart 10) 2 7 (Some 10) lamp
                eq_refl) as H.
  assert (Hother : p_seller_id lamp <> 2) by discriminate.
  specialize (H Hother eq_refl eq_refl).
  cbv zeta in H.
  destruct H as (_ & _ & Hmerge & _).
  assert (Hsome : Cart.quantities (market_with_cart 10) 2 7 <> []) by discriminate.
  exact (Hmerge Hsome).
Defined.

(** The bound on quantities is not an invariant of the add route: a cart that
    holds quantities in [1,10] only does not after an accepted add. *)
Lemma cart_merge_exceeds_ten :
  ~ (forall db req,
        (forall c, In c (cart db) -> 1 <= c_quantity c <= 10) ->
        forall c, In c (cart (fst (Cart.add db req))) -> 1 <= c_quantity c <= 10).
Proof.
  intros H.
  assert (Hbefore : forall c, In c (cart (market_with_cart 10)) ->
                              1 <= c_quantity c <= 10).
  { intros c [<- | []]. cbn. lia. }
  specialize (H (market_with_cart 10)
                (Cart.mkAddRequest 2 (Validation.mkCartBody (Some 7) (Some 10)))
                Hbefore (mkCart 2 7 20)).
  destruct (H (or_introl eq_refl)) as [_ Hle].
  now apply Hle.
Qed.

(** The guard of the update route is written for numbers only.  It lets
    through [true], the fraction 2.5 and every non-empty string that is not
    a number; what the cart row then holds is what the store makes of the
    bound value. *)
Lemma cart_update_guard_passes_non_integers (co : Coercions) :
  Cart.bad_quantity co (BBool true) = false
  /\ Cart.bad_quantity co (BNumber (DFinite 5 2)) = false
  /\ (forall s, s <> "" -> StringToNumber co s = DNaN ->
                Cart.bad_quantity co (BString s) = false)
  /\ (forall db user_id product_id v,
        Cart.bad_quantity co v = false ->
        Cart.quantities db user_id product_id <> [] ->
        cart (fst (Cart.update co db (Cart.mkUpdateRequest user_id (Num product_id) v)))
        = match column_int co v with
          | Some stored =>
              Sql.update_where (Cart.mine user_id product_id)
                (fun c => mkCart (c_user_id c) (c_product_id c) stored) (cart db)
          | None => cart db
          end).
Proof.
  split; [reflexivity |]. split; [reflexivity |]. split.
  - intros s Hs Hnan. unfold Cart.bad_quantity.
    cbn [ToBoolean ToNumber]. rewrite Hnan.
    apply String.eqb_neq in Hs. now rewrite Hs.
  - intros db user_id product_id v Hok Hsome. unfold Cart.update.
    cbn [Cart.ur_productId Cart.ur_quantity Cart.ur_user_id]. rewrite Hok.
    unfold Cart.quantities in Hsome.
    destruct (Sql.select_where _ _); [contradiction |].
    destruct (column_int co v); reflexivity.
Qed.

(** The fraction 2.5 on a store that rounds: the row holds 3. *)
Example cart_update_stores_rounded_fraction :
  Cart.quantities
    (fst (Cart.update sample_coercions (market_with_cart 1)
            (Cart.mkUpdateRequest 2 (Num 7) (BNumber (DFinite 5 2)))))
    2 7
  = [3].
Proof. reflexivity. Qed.

(** ** Purchase creation *)

Lemma next_id_fresh (ids : list Z) (x : Z) : In x ids -> x < Sql.next_id ids.
Proof.
  unfold Sql.next_id.
  induction ids as [| y ids IH]; cbn [fold_right In]; [contradiction |].
  intros [-> | Hin]; [lia |]. specialize (IH Hin). lia.
Qed.

Lemma select_none {A : Type} (cond : A -> bool) (t : list A) :
  (forall r, In r t -> cond r = false) -> Sql.select_where cond t = [].
Proof.
  induction t as [| r t IH]; simpl; [reflexivity |].
  intros H. rewrite (H r (or_introl eq_refl)).
  apply IH. intros r' Hin. apply H. now right.
Qed.

Lemma select_fresh {A : Type} (key : A -> Z) (t : list A) :
  Sql.select_where (fun r => key r =? Sql.next_id (map key t)) t = [].
Proof.
  apply select_none. intros r Hin. apply Z.eqb_neq.
  pose proof (next_id_fresh (map key t) (key r) (in_map key t r Hin)). lia.
Qed.

Lemma select_app {A : Type} (cond : A -> bool) (t t' : list A) :
  Sql.select_where cond (t ++ t') = Sql.select_where cond t ++ Sql.select_where cond t'.
Proof. apply filter_app. Qed.

Lemma first_row_select_cons {A : Type} (cond : A -> bool) (t : list A) (r : A) :
  Sql.first_row (Sql.select_where cond t) = Some r ->
  exists rest, Sql.select_where cond t = r :: rest.
Proof.
  destruct (Sql.select_where cond t) as [| r' rest]; [discriminate |].
  intros [= ->]. eauto.
Qed.

(** The accepted purchase: the row stored, the cart statement, and the
    reply built from the detail query, which is sent unless the store
    refuses the notification statement with the title spliced in. *)
Lemma create_accepted (spliced : string -> Db -> option (list NotificationRow))
    (now : Z) (db : Db) (buyer product_id quantity : Z)
    (payment_method : string) (product : ProductRow) (seller : UserRow) :
  Product.findById db product_id = Some product ->
  p_seller_id product <> buyer ->
  p_status product = "approved" ->
  Sql.first_row (Sql.select_where (fun u => u_id u =? p_seller_id product) (users db))
  = Some seller ->
  let purchaseId := Sql.next_id (map pu_id (purchases db)) in
  let out :=
    Purchases.create_handler spliced now db buyer product_id quantity payment_method in
  let reply :=
    Sent (mkReply 201 true
            (Some "Purchase created successfully. Please contact the seller to complete the transaction.")
            []
            (Some (Some (Purchases.mkPurchaseView purchaseId buyer
                           (p_seller_id product) product_id quantity "pending"
                           payment_method now (p_title product) (p_price product)
                           (u_name seller))))) in
  purchases (fst out)
  = purchases db
    ++ [mkPurchase purchaseId buyer (p_seller_id product) product_id (p_price product)
          quantity "pending" payment_method None now None]
  /\ cart (fst out) = Sql.delete_where (Cart.mine buyer product_id) (cart db)
  /\ products (fst out) = products db
  /\ users (fst out) = users db
  /\ (snd out = reply
      \/ (Sql.plain (p_title product) = false
          /\ exists error, snd out = Next error))
  /\ (Sql.plain (p_title product) = true -> snd out = reply).
Proof.
  intros Hp Hother Happroved Hseller purchaseId out reply.
  subst out. unfold Purchases.create_handler.
  rewrite Hp.
  apply Z.eqb_neq in Hother. rewrite Hother.
  rewrite Happroved.
  change (String.eqb "approved" "approved") with true. cbn [negb].
  assert (Hview : forall rows,
            Sql.first_row
              (Purchases.join_details
                 (set_notifications
                    (set_cart
                       (set_purchases db
                          (Sql.insert
                             (mkPurchase purchaseId buyer (p_seller_id product)
                                product_id (p_price product) quantity "pending"
                                payment_method None now None)
                             (purchases db)))
                       (Sql.delete_where
                          (fun c => (c_user_id c =? buyer) && (c_product_id c =? product_id))
                          (cart db)))
                    rows)
                 pu_seller_id (fun pur => pu_id pur =? purchaseId))
            = Some (Purchases.mkPurchaseView purchaseId buyer
                      (p_seller_id product) product_id quantity "pending"
                      payment_method now (p_title product) (p_price product)
                      (u_name seller))).
  { intros rows. unfold Purchases.join_details.
    cbn [purchases users products set_purchases set_cart set_notifications].
    unfold Sql.insert. rewrite select_app. subst purchaseId. rewrite select_fresh.
    cbn [app Sql.select_where filter pu_id]. rewrite Z.eqb_refl.
    cbn [flat_map pu_product_id pu_seller_id app].
    unfold Product.findById in Hp.
    apply first_row_select_cons in Hp as (ps & ->).
    apply first_row_select_cons in Hseller as (us & ->).
    reflexivity. }
  destruct (Sql.plain (p_title product)).
  - cbn [fst snd purchases cart products users set_purchases set_cart
         set_notifications].
    fold purchaseId. rewrite Hview.
    repeat split; auto.
  - destruct (spliced (p_title product) _) as [rows |].
    + cbn [fst snd purchases cart products users set_purchases set_cart
           set_notifications].
      fold purchaseId. rewrite Hview.
      repeat split; auto; discriminate.
    + cbn [fst snd purchases cart products users set_purchases set_cart].
      repeat split;
        first [discriminate | right; split; [reflexivity | eexists; reflexivity]].
Qed.

Lemma select_deleted {A : Type} (cond : A -> bool) (t : list A) :
  Sql.select_where cond (Sql.delete_where cond t) = [].
Proof.
  apply select_none. intros r Hin.
  apply filter_In in Hin as [_ Hin].
  now apply negb_true_iff.
Qed.

Lemma safe_small (z : Z) : 1 <= z <= 10 -> Validation.unsafe z = false.
Proof.
  intros Hz. unfold Validation.unsafe, Validation.MAX_SAFE_INTEGER.
  apply orb_false_iff. split; apply Z.ltb_ge; lia.
Qed.

Lemma create_validated (spliced : string -> Db -> option (list NotificationRow))
    (now : Z) (db : Db) (buyer product_id quantity : Z) (payment_method : string) :
  Validation.check_product_id (Some product_id) = [] ->
  1 <= quantity <= 10 ->
  includes ["cash"; "upi"; "card"; "netbanking"] payment_method = true ->
  Purchases.create spliced now db
    (Purchases.mkCreateRequest buyer
       (Validation.mkPurchaseBody (Some product_id) (Some quantity)
          (Some payment_method)))
  = Purchases.create_handler spliced now db buyer product_id quantity payment_method.
Proof.
  intros Hid Hq Hpay.
  unfold Purchases.create, Validation.validate, Validation.purchaseValidation_create.
  cbn [Purchases.cr_body Purchases.cr_user_id Validation.pb_product_id
       Validation.pb_quantity Validation.pb_payment_method
       Validation.check_quantity Validation.check_payment_method
       Validation.default_quantity].
  rewrite Hid, Hpay, (safe_small quantity Hq).
  destruct (quantity <? 1) eqn:E1; [apply Z.ltb_lt in E1; lia |].
  destruct (10 <? quantity) eqn:E2; [apply Z.ltb_lt in E2; lia |].
  reflexivity.
Qed.

(** C5.  A buyer who is not the seller asks for quantity 2 of a product
    priced 100.00.  If the product is approved, one purchase row is appended
    with the buyer, the product, quantity 2, price 100.00 and status
    'pending', and the buyer's cart holds no row for the product afterwards.
    The reply is 201 and carries the purchase with price 100.00 and status
    'pending' whenever the title is plain (no quote, backslash or question
    mark); for another title the reply is the same one, or the store refuses
    the notification statement and the error goes to [next], the purchase
    being stored all the same.  If the product is not approved, the reply is 400
    and the store is unchanged. *)
Theorem purchase_create_snapshot
    (spliced : string -> Db -> option (list NotificationRow)) (now : Z) (db : Db)
    (buyer product_id : Z) (payment_method : string) (product : ProductRow)
    (seller : UserRow) :
  Product.findById db product_id = Some product ->
  p_seller_id product <> buyer ->
  Validation.check_product_id (Some product_id) = [] ->
  includes ["cash"; "upi"; "card"; "netbanking"] payment_method = true ->
  p_price product = 10000 ->
  Sql.first_row (Sql.select_where (fun u => u_id u =? p_seller_id product) (users db))
  = Some seller ->
  let out :=
    Purchases.create spliced now db
      (Purchases.mkCreateRequest buyer
         (Validation.mkPurchaseBody (Some product_id) (Some 2) (Some payment_method))) in
  (p_status product = "approved" ->
   exists row view,
     purchases (fst out) = purchases db ++ [row]
     /\ pu_buyer_id row = buyer
     /\ pu_product_id row = product_id
     /\ pu_quantity row = 2
     /\ pu_price row = 10000
     /\ pu_status row = "pending"
     /\ cart (fst out) = Sql.delete_where (Cart.mine buyer product_id) (cart db)
     /\ Cart.quantities (fst out) buyer product_id = []
     /\ (snd out
         = Sent (mkReply 201 true
                   (Some "Purchase created successfully. Please contact the seller to complete the transaction.")
                   [] (Some (Some view)))
         \/ (Sql.plain (p_title product) = false
             /\ exists error, snd out = Next error))
     /\ (Sql.plain (p_title product) = true ->
         snd out
         = Sent (mkReply 201 true
                   (Some "Purchase created successfully. Please contact the seller to complete the transaction.")
                   [] (Some (Some view))))
     /\ Purchases.pv_id view = pu_id row
     /\ Purchases.pv_price view = 10000
     /\ Purchases.pv_quantity view = 2
     /\ Purchases.pv_status view = "pending")
  /\ (p_status product <> "approved" ->
      out = (db, fail 400 "Product is not available for purchase")).
Proof.
  intros Hp Hother Hid Hpay Hprice Hseller out.
  assert (Hout : out = Purchases.create_handler spliced now db buyer product_id 2
                         payment_method).
  { subst out. apply create_validated; [exact Hid | lia | exact Hpay]. }
  split.
  - intros Happroved.
    destruct (create_accepted spliced now db buyer product_id 2 payment_method product
                seller Hp Hother Happroved Hseller)
      as (Hrows & Hcart & _ & _ & Hreply & Hplain).
    rewrite <- Hout in Hrows, Hcart, Hreply, Hplain.
    rewrite Hprice in Hrows, Hreply, Hplain.
    do 2 eexists.
    split; [exact Hrows |].
    do 5 (split; [reflexivity |]).
    split; [exact Hcart |].
    split; [unfold Cart.quantities; rewrite Hcart, select_deleted; reflexivity |].
    split; [exact Hreply |].
    split; [exact Hplain |].
    repeat split.
  - intros Hnot. rewrite Hout. unfold Purchases.create_handler.
    rewrite Hp.
    apply Z.eqb_neq in Hother. rewrite Hother.
    apply String.eqb_neq in Hnot. rewrite Hnot. reflexivity.
Qed.

Lemma purchase_create_snapshot_witness :
  let out :=
    Purchases.create refuse_spliced 130 (market_with_cart 1)
      (Purchases.mkCreateRequest 2
         (Validation.mkPurchaseBody (Some 7) (Some 2) (Some "upi"))) in
  exists row view,
    purchases (fst out) = [row]
    /\ pu_price row = 10000
    /\ pu_status row = "pending"
    /\ cart (fst out) = []
    /\ snd out
       = Sent (mkReply 201 true
                 (Some "Purchase created successfully. Please contact the seller to complete the transaction.")
                 [] (Some (Some view)))
    /\ Purchases.pv_price view = 10000.
Proof.
  assert (Hother : p_seller_id lamp <> 2) by discriminate.
  pose proof (purchase_create_snapshot refuse_spliced 130 (market_with_cart 1) 2 7 "upi"
                lamp alice eq_refl Hother eq_refl eq_refl eq_refl eq_refl) as H.
  cbv zeta in H.
  destruct H as [H _].
  destruct (H eq_refl)
    as (row & view & Hrows & _ & _ & _ & Hprice & Hstatus & Hcart & _ & _ & Hplain
        & _ & Hvprice & _).
  exists row, view.
  repeat split; try assumption. exact (Hplain eq_refl).
Defined.

(** A lamp whose title holds an apostrophe, on a store that refuses the
    statement the splice makes: the purchase is stored and Bob's cart row
    deleted, but the handler sends no reply. *)
Example purchase_of_quoted_title :
  let db := set_products (market_with_cart 1)
              [mkProduct 7 "Alice's lamp" 10000 3 1 "approved" 110] in
  let out :=
    Purchases.create refuse_spliced 130 db
      (Purchases.mkCreateRequest 2
         (Validation.mkPurchaseBody (Some 7) (Some 2) (Some "upi"))) in
  List.length (purchases (fst out)) = 1%nat
  /\ cart (fst out) = []
  /\ notifications (fst out) = []
  /\ snd out = Next "statement refused: INSERT INTO notifications".
Proof. repeat split. Qed.

(** ** Product images *)

(** C6.  After [addImage] with the primary flag set, the product has
    exactly one primary image, the one just added; the images of every other
    product are as before. *)
Theorem add_primary_image_unique (db : Db) (this : ProductRow) (imageUrl : string) :
  let db' := fst (Product.addImage db this imageUrl true) in
  let id := snd (Product.addImage db this imageUrl true) in
  primary_images db' (p_id this) = [mkImage id (p_id this) imageUrl true]
  /\ List.length (primary_images db' (p_id this)) = 1%nat
  /\ (forall other, other <> p_id this ->
                    Sql.select_where (fun i => i_product_id i =? other) (product_images db')
                    = Sql.select_where (fun i => i_product_id i =? other) (product_images db)).
Proof.
  intros db' id.
  assert (Hprim : primary_images db' (p_id this) = [mkImage id (p_id this) imageUrl true]).
  { subst db' id. unfold primary_images, Product.addImage.
    cbn [fst snd product_images set_product_images].
    unfold Sql.insert. rewrite select_app.
    rewrite select_none.
    - cbn [app Sql.select_where filter i_product_id i_is_primary].
      rewrite Z.eqb_refl. reflexivity.
    - intros r Hin. unfold Sql.update_where in Hin.
      apply in_map_iff in Hin as (i & <- & _).
      destruct (i_product_id i =? p_id this) eqn:E; cbn [i_product_id i_is_primary].
      + apply andb_false_r.
      + rewrite E. reflexivity. }
  split; [exact Hprim |].
  split; [rewrite Hprim; reflexivity |].
  intros other Hother. subst db'. unfold Product.addImage.
  cbn [fst product_images set_product_images].
  unfold Sql.insert. rewrite select_app.
  cbn [Sql.select_where filter i_product_id].
  apply Z.eqb_neq in Hother. rewrite Z.eqb_sym, Hother, app_nil_r.
  apply Z.eqb_neq in Hother.
  apply (select_update_other i_product_id); [reflexivity | exact Hother].
Qed.

(** ** Chat messages *)

Lemma content_set_read (m : MessageRow) :
  message_content (Chat.set_read m) = message_content m.
Proof. reflexivity. Qed.

Lemma content_mark {cond : MessageRow -> bool} (t : list MessageRow) :
  map message_content (Sql.update_where cond Chat.set_read t) = map message_content t.
Proof.
  unfold Sql.update_where. rewrite map_map.
  apply map_ext. intros m. now destruct (cond m).
Qed.

Lemma get_messages_keeps (db : Db) (user_id : Z) (roomId page limit : JsNum) :
  map message_content (messages (fst (Chat.get_messages db user_id roomId page limit)))
  = map message_content (messages db).
Proof.
  unfold Chat.get_messages.
  destruct roomId as [| roomId]; [reflexivity |].
  destruct (Chat.rooms_of db roomId user_id); [reflexivity |].
  destruct (Sql.limit_offset _ _ _); [| reflexivity].
  cbn [fst messages set_messages]. apply content_mark.
Qed.

Lemma mark_read_keeps (db : Db) (user_id : Z) (roomId : JsNum) :
  map message_content (messages (fst (Chat.mark_read db user_id roomId)))
  = map message_content (messages db).
Proof.
  unfold Chat.mark_read.
  destruct roomId as [| roomId]; [reflexivity |].
  destruct (Chat.rooms_of db roomId user_id); [reflexivity |].
  cbn [fst messages set_messages]. apply content_mark.
Qed.

Lemma send_message_appends (now : Z) (db : Db) (user_id : Z) (roomId : JsNum)
    (body : Chat.SendBody) :
  messages (fst (Chat.send_message now db user_id roomId body)) = messages db
  \/ exists m, messages (fst (Chat.send_message now db user_id roomId body))
               = messages db ++ [m]
               /\ m_sender_id m = user_id /\ roomId = Num (m_room_id m).
Proof.
  unfold Chat.send_message.
  destruct roomId as [| roomId]; [now left |].
  destruct (_ || _); [now left |].
  destruct (Chat.rooms_of db roomId user_id); [now left |].
  right. eexists. cbn [fst messages set_messages set_chat_rooms].
  split; [reflexivity |]. split; reflexivity.
Qed.

Lemma report_message_keeps (db : Db) (user_id : Z) (messageId : JsNum)
    (body : Chat.ReportBody) :
  messages (fst (Chat.report_message db user_id messageId body)) = messages db.
Proof.
  unfold Chat.report_message.
  destruct messageId as [| messageId]; [reflexivity |].
  destruct (Chat.rb_reason body) as [reason |]; [| reflexivity].
  destruct (String.eqb reason ""); [reflexivity |].
  destruct (flat_map _ _) as [| [m r] rest]; reflexivity.
Qed.

(** C7, as the code has it.  Reading a room, sending a message, marking a
    room read and reporting a message keep every stored message (only the
    read flag may change) and at most append one; the delete-message route
    is the one that removes rows: it removes the rows with the requested id,
    and only when the caller is the sender of such a row. *)
Theorem messages_removed_only_by_sender_delete (now : Z) (db : Db) (user_id : Z)
    (request : Chat.Request) :
  let db' := Chat.serve now db user_id request in
  match request with
  | Chat.DeleteMessage messageId =>
      messages db' = messages db
      \/ exists id m,
           messageId = Num id
           /\ In m (messages db) /\ m_id m = id /\ m_sender_id m = user_id
           /\ messages db' = Sql.delete_where (fun m => m_id m =? id) (messages db)
  | _ =>
      exists added,
        map message_content (messages db') = map message_content (messages db) ++ added
        /\ (List.length added <= 1)%nat
  end.
Proof.
  intros db'. subst db'.
  destruct request as [roomId page limit | roomId body | roomId | messageId
                      | messageId body]; cbn [Chat.serve].
  - exists []. rewrite get_messages_keeps, app_nil_r. auto.
  - destruct (send_message_appends now db user_id roomId body) as [-> | (m & -> & _)].
    + exists []. rewrite app_nil_r. auto.
    + exists [message_content m]. rewrite map_app. auto.
  - exists []. rewrite mark_read_keeps, app_nil_r. auto.
  - unfold Chat.delete_message.
    destruct messageId as [| id]; [now left |].
    destruct (Sql.select_where _ _) as [| m rest] eqn:Hsel; [now left |].
    right. exists id, m.
    assert (Hin : In m (Sql.select_where
                          (fun m => (m_id m =? id) && (m_sender_id m =? user_id))
                          (messages db))) by (rewrite Hsel; now left).
    apply filter_In in Hin as [Hin Hcond].
    apply andb_true_iff in Hcond as [Hid Hsender].
    apply Z.eqb_eq in Hid, Hsender.
    repeat split; assumption.
  - exists []. rewrite report_message_keeps, app_nil_r. auto.
Qed.

(** C7 as stated fails: Bob deletes the message he sent and the messages
    table no longer holds it. *)
Lemma sender_delete_removes_message :
  ~ (forall now db user_id request m,
        In m (messages db) ->
        exists m', In m' (messages (Chat.serve now db user_id request))
                   /\ m_id m' = m_id m).
Proof.
  intros H.
  destruct (H 150 market_with_chat 2 (Chat.DeleteMessage (Num 1)) hello
              (or_introl eq_refl)) as (m' & Hin & _).
  exact Hin.
Qed.

(** ** Report status *)

(** The parameter array of the report update holds the report id twice,
    one value more than the statement has placeholders, so the store refuses
    the statement whatever the request. *)
Lemma exec_update_report_refused (status : string) (notes : option string) (id : Z)
    (with_resolved : bool) (now : Z) (db : Db) :
  Admin.exec_update_report (truthy_string notes) with_resolved
    (Admin.updateData status notes id) now db
  = None.
Proof.
  unfold Admin.updateData.
  destruct notes as [t |]; [| reflexivity].
  cbn [truthy_string]. destruct (negb (String.eqb t "")); reflexivity.
Qed.

(** Every outcome of the route: a 400 or 404 reply, or, once the request is
    well formed and the report exists, the store's error passed to [next];
    the store is the same in every case. *)
Lemma update_report_status_outcome (now : Z) (db : Db)
    (req : Admin.ReportStatusRequest) :
  fst (Admin.update_report_status now db req) = db
  /\ ((exists code msg, snd (Admin.update_report_status now db req) = fail code msg
                        /\ (code = 400 \/ code = 404))
      \/ (exists id status report error,
            Admin.rs_reportId req = Num id
            /\ Admin.rs_status req = Some status
            /\ includes ["reviewed"; "resolved"; "dismissed"] status = true
            /\ Sql.first_row
                 (Sql.select_where (fun rp => rp_id rp =? id) (reports db))
               = Some report
            /\ snd (Admin.update_report_status now db req) = Next error)).
Proof.
  unfold Admin.update_report_status.
  destruct (Admin.rs_reportId req) as [| id];
    [split; [reflexivity | left; do 2 eexists; split; [reflexivity | now left]] |].
  destruct (Admin.rs_status req) as [status |];
    [| split; [reflexivity | left; do 2 eexists; split; [reflexivity | now left]]].
  destruct (includes _ status) eqn:Hvalid; cbn [negb];
    [| split; [reflexivity | left; do 2 eexists; split; [reflexivity | now left]]].
  destruct (Sql.first_row _) as [report |] eqn:Hrow;
    [| split; [reflexivity | left; do 2 eexists; split; [reflexivity | now right]]].
  rewrite exec_update_report_refused.
  split; [reflexivity |]. right. exists id, status, report. eexists.
  repeat split; first [reflexivity | assumption].
Qed.

(** C8.  No request to the admin status route moves a report backwards
    along pending, reviewed, resolved or dismissed: a report that is resolved
    or dismissed is not moved back to reviewed, and no report returns to an
    earlier status.  The route in fact stores no status at all: the UPDATE it
    builds carries the report id twice and is refused, so every report keeps
    the status it had. *)
Theorem report_status_never_regresses (now : Z) (db : Db)
    (req : Admin.ReportStatusRequest) (id : Z) (before after : string) :
  Admin.status_of db id = Some before ->
  Admin.status_of (fst (Admin.update_report_status now db req)) id = Some after ->
  Admin.rank before <= Admin.rank after
  /\ (before = "resolved" \/ before = "dismissed" -> after <> "reviewed")
  /\ after = before.
Proof.
  intros Hbefore Hafter.
  rewrite (proj1 (update_report_status_outcome now db req)) in Hafter.
  assert (Hsame : after = before) by congruence.
  subst after. split; [apply Z.le_refl |]. split; [| reflexivity].
  intros [-> | ->]; discriminate.
Qed.

(** The admin asks to move a resolved report back to 'reviewed': it stays
    resolved. *)
Lemma report_status_never_regresses_witness :
  let db' :=
    fst (Admin.update_report_status 160 (market_with_report "resolved")
           (Admin.mkReportStatusRequest (Num 1) (Some "reviewed") None)) in
  Admin.status_of db' 1 = Some "resolved"
  /\ Admin.rank "resolved" <= Admin.rank "resolved".
Proof.
  intros db'. split; [reflexivity |].
  exact (proj1 (report_status_never_regresses 160 (market_with_report "resolved")
                  (Admin.mkReportStatusRequest (Num 1) (Some "reviewed") None)
                  1 "resolved" "resolved" eq_refl eq_refl)).
Defined.

(** ** Pagination *)

Lemma hasMore_spec {A : Type} (page limit : JsNum) (rows : list A) :
  hasMore (pagination page limit rows) = true
  <-> limit = Num (Z.of_nat (List.length rows)).
Proof.
  unfold pagination; cbn [hasMore num_strict_eq].
  destruct limit as [| l]; [split; discriminate |].
  rewrite Z.eqb_eq. split; [now intros <- | now intros [= ->]].
Qed.

(** With a page of at least 1 and a non-negative limit the store accepts
    the [LIMIT ? OFFSET ?] clause, and returns at most [limit] rows. *)
Lemma limit_offset_accepts {A : Type} (p l : Z) (rows : list A) :
  1 <= p -> 0 <= l ->
  exists page_rows,
    Sql.limit_offset (Num l) (page_offset (Num p) (Num l)) rows = Some page_rows
    /\ Z.of_nat (List.length page_rows) <= l.
Proof.
  intros Hp Hl. unfold Sql.limit_offset, page_offset.
  assert (H : (0 <=? l) && (0 <=? (p - 1) * l) = true).
  { apply andb_true_iff. split; apply Z.leb_le; nia. }
  rewrite H. eexists. split; [reflexivity |].
  rewrite length_firstn. lia.
Qed.

Lemma list_handler_replies (db : Db) (mine other : PurchaseRow -> Z) (user_id : Z)
    (p l : Z) (status : option string) :
  1 <= p -> 0 <= l ->
  exists rows,
    Purchases.list_handler db mine other user_id
      (Purchases.mkListQuery (Num p) (Num l) status)
    = Sent (mkReply 200 true None []
              (Some (Purchases.mkListData rows (pagination (Num p) (Num l) rows)))).
Proof.
  intros Hp Hl. unfold Purchases.list_handler.
  cbn [Purchases.lq_page Purchases.lq_limit Purchases.lq_status].
  match goal with
  | |- context [Sql.limit_offset _ _ ?rows] =>
      destruct (limit_offset_accepts p l rows Hp Hl) as (page_rows & -> & _)
  end.
  eauto.
Qed.

Lemma list_handler_pagination (db : Db) (mine other : PurchaseRow -> Z)
    (user_id : Z) (q : Purchases.ListQuery) (r : Reply Purchases.ListData)
    (d : Purchases.ListData) :
  Purchases.list_handler db mine other user_id q = Sent r ->
  data r = Some d ->
  Purchases.ld_pagination d
  = pagination (Purchases.lq_page q) (Purchases.lq_limit q) (Purchases.ld_rows d).
Proof.
  unfold Purchases.list_handler.
  destruct (Sql.limit_offset _ _ _) as [rows |]; [| discriminate].
  intros [= <-] [= <-]. reflexivity.
Qed.

Lemma paginates_reply (page limit : JsNum) (awaited : Result (list JsObject)) :
  paginates limit awaited
    match awaited with
    | Thrown message => Next message
    | Returned rows =>
        Sent (mkReply 200 true None [] (Some (mkPage rows (pagination page limit rows))))
    end.
Proof.
  destruct awaited as [rows | message]; cbn [paginates]; [| reflexivity].
  eexists. split; [reflexivity | apply hasMore_spec].
Qed.

Lemma hasMore_num (page : JsNum) {A : Type} (l : Z) (rows : list A) :
  hasMore (pagination page (Num l) rows) = true <-> l = Z.of_nat (List.length rows).
Proof.
  rewrite hasMore_spec. split; [now intros [= ->] | now intros ->].
Qed.

(** C9.  In the reply of every list endpoint, [hasMore] is true exactly
    when the number of rows returned equals the requested limit (so a limit
    that is not a number never gives [hasMore]).

    The buyer's purchases, the seller's sales, the admin's pending products
    and a chat room's messages are read over the relational store: for a
    page of at least 1 and a limit of at least 0 they send such a reply, and
    every reply they send for any page and limit is such a reply.

    The other list routes are read over any store.  The product list and
    the product search, the admin's products, users and reports, and the
    user's products, purchases, sales, favorites and public products send
    such a reply whenever the call they await returns rows, and pass the
    error on when it throws; with a signed-in caller the product list and
    the search send it only when the favorite-status loop finds none of the
    products, and otherwise pass that loop's error on.  The routes for a
    seller's products, a category's products, followers, following and
    notifications call a method their model does not define and never send
    a list. *)
Theorem hasMore_iff_full_page :
  (forall db user_id p l status,
      1 <= p -> 0 <= l ->
      exists rows pag,
        Purchases.my_purchases db user_id (Purchases.mkListQuery (Num p) (Num l) status)
        = Sent (mkReply 200 true None [] (Some (Purchases.mkListData rows pag)))
        /\ (hasMore pag = true <-> l = Z.of_nat (List.length rows)))
  /\ (forall db user_id p l status,
        1 <= p -> 0 <= l ->
        exists rows pag,
          Purchases.my_sales db user_id (Purchases.mkListQuery (Num p) (Num l) status)
          = Sent (mkReply 200 true None [] (Some (Purchases.mkListData rows pag)))
          /\ (hasMore pag = true <-> l = Z.of_nat (List.length rows)))
  /\ (forall db p l,
        1 <= p -> 0 <= l ->
        exists rows pag,
          Admin.products_pending db (Num p) (Num l)
          = Sent (mkReply 200 true None [] (Some (Admin.mkPendingData rows pag)))
          /\ (hasMore pag = true <-> l = Z.of_nat (List.length rows)))
  /\ (forall db user_id roomId p l,
        Chat.rooms_of db roomId user_id <> [] ->
        1 <= p -> 0 <= l ->
        exists rows pag,
          snd (Chat.get_messages db user_id (Num roomId) (Num p) (Num l))
          = Sent (mkReply 200 true None [] (Some (Chat.mkMessagesData rows pag)))
          /\ (hasMore pag = true <-> l = Z.of_nat (List.length rows)))
  /\ (forall db user_id q r d,
        Purchases.my_purchases db user_id q = Sent r ->
        data r = Some d ->
        hasMore (Purchases.ld_pagination d) = true
        <-> Purchases.lq_limit q = Num (Z.of_nat (List.length (Purchases.ld_rows d))))
  /\ (forall db user_id q r d,
        Purchases.my_sales db user_id q = Sent r ->
        data r = Some d ->
        hasMore (Purchases.ld_pagination d) = true
        <-> Purchases.lq_limit q = Num (Z.of_nat (List.length (Purchases.ld_rows d))))
  /\ (forall db page limit r d,
        Admin.products_pending db page limit = Sent r ->
        data r = Some d ->
        hasMore (Admin.pe_pagination d) = true
        <-> limit = Num (Z.of_nat (List.length (Admin.pe_products d))))
  /\ (forall db user_id roomId page limit r d,
        snd (Chat.get_messages db user_id roomId page limit) = Sent r ->
        data r = Some d ->
        hasMore (Chat.md_pagination d) = true
        <-> limit = Num (Z.of_nat (List.length (Chat.md_messages d))))
  /\ (forall db filters page limit,
        paginates limit
          (ProductModel.findAll db (Store.AObj filters) (Store.ANum limit)
             (Store.ANum (page_offset page limit)))
          (ProductRoutes.list_all db None filters page limit))
  /\ (forall db user filters page limit products,
        ProductModel.findAll db (Store.AObj filters) (Store.ANum limit)
          (Store.ANum (page_offset page limit)) = Returned products ->
        match ProductRoutes.favorite_status db "isFavorited" products with
        | None =>
            paginates limit (Returned products)
              (ProductRoutes.list_all db (Some user) filters page limit)
        | Some message =>
            ProductRoutes.list_all db (Some user) filters page limit = Next message
        end)
  /\ (forall db req_user query req_query page limit products,
        query <> "" ->
        2 <= ProductRoutes.length (Chat.trim query) ->
        ProductModel.findAll db
          (Store.AObj (Store.spread [("search", JString (Chat.trim query))] req_query))
          (Store.ANum limit) (Store.ANum (page_offset page limit))
        = Returned products ->
        match (match req_user with
               | Some _ => ProductRoutes.favorite_status db "productObj" products
               | None => None
               end) with
        | None =>
            exists pag,
              ProductRoutes.search db req_user query req_query page limit
              = Sent (mkReply 200 true None []
                        (Some (ProductRoutes.mkSearchData (Chat.trim query) products pag)))
              /\ (hasMore pag = true <-> limit = Num (Z.of_nat (List.length products)))
        | Some message =>
            ProductRoutes.search db req_user query req_query page limit = Next message
        end)
  /\ (forall db page limit status search,
        paginates limit
          (Store.execute db
             (fst (AdminLists.products_statement status search limit
                     (page_offset page limit)))
             (snd (AdminLists.products_statement status search limit
                     (page_offset page limit))))
          (AdminLists.products db page limit status search))
  /\ (forall db page limit search is_active is_verified,
        paginates limit
          (Store.execute db
             (fst (AdminLists.users_statement search is_active is_verified limit
                     (page_offset page limit)))
             (snd (AdminLists.users_statement search is_active is_verified limit
                     (page_offset page limit))))
          (AdminLists.users db page limit search is_active is_verified))
  /\ (forall db page limit status report_type,
        paginates limit
          (Store.execute db
             (fst (AdminLists.reports_statement status report_type limit
                     (page_offset page limit)))
             (snd (AdminLists.reports_statement status report_type limit
                     (page_offset page limit))))
          (AdminLists.reports db page limit status report_type))
  /\ (forall db req_user page limit,
        paginates limit
          (UserModel.getProducts db (UserRoutes.id_of req_user) limit
             (page_offset page limit))
          (UserRoutes.products db req_user page limit))
  /\ (forall db req_user page limit,
        paginates limit
          (UserModel.getPurchases db (UserRoutes.id_of req_user) limit
             (page_offset page limit))
          (UserRoutes.purchases db req_user page limit))
  /\ (forall db req_user page limit,
        paginates limit
          (UserModel.getSales db (UserRoutes.id_of req_user) limit
             (page_offset page limit))
          (UserRoutes.sales db req_user page limit))
  /\ (forall db req_user page limit,
        paginates limit
          (Store.execute db UserRoutes.favorites_statement
             [UserRoutes.id_of req_user; Store.ANum limit;
              Store.ANum (page_offset page limit)])
          (UserRoutes.favorites db req_user page limit))
  /\ (forall db userId page limit user,
        UserModel.findById db (Num userId) = Returned (Some user) ->
        paginates limit
          (UserModel.getProducts db (Store.AVal (Store.prop "id" user)) limit
             (page_offset page limit))
          (UserRoutes.public_products db (Num userId) page limit))
  /\ (forall userId categoryId page limit,
        ProductRoutes.by_seller (Num userId) page limit
        = Next "Product.findBySeller is not a function"
        /\ ProductRoutes.by_category (Num categoryId) page limit
           = Next "Category.findByIdWithCount is not a function")
  /\ (forall req_user page limit,
        UserRoutes.followers req_user page limit
        = Next "req.user.getFollowers is not a function"
        /\ UserRoutes.following req_user page limit
           = Next "req.user.getFollowing is not a function"
        /\ UserRoutes.notifications req_user page limit
           = Next "req.user.getNotifications is not a function").
Proof.
  repeat match goal with |- _ /\ _ => split end.
  - intros db user_id p l status Hp Hl.
    destruct (list_handler_replies db pu_buyer_id pu_seller_id user_id p l status Hp Hl)
      as (rows & Hr).
    exists rows, (pagination (Num p) (Num l) rows).
    split; [exact Hr | apply hasMore_num].
  - intros db user_id p l status Hp Hl.
    destruct (list_handler_replies db pu_seller_id pu_buyer_id user_id p l status Hp Hl)
      as (rows & Hr).
    exists rows, (pagination (Num p) (Num l) rows).
    split; [exact Hr | apply hasMore_num].
  - intros db p l Hp Hl. unfold Admin.products_pending, Product.findPending.
    match goal with
    | |- context [Sql.limit_offset _ _ ?rows] =>
        destruct (limit_offset_accepts p l rows Hp Hl) as (page_rows & -> & _)
    end.
    exists page_rows, (pagination (Num p) (Num l) page_rows).
    split; [reflexivity | apply hasMore_num].
  - intros db user_id roomId p l Hroom Hp Hl. unfold Chat.get_messages.
    destruct (Chat.rooms_of db roomId user_id) as [| room rooms]; [contradiction |].
    match goal with
    | |- context [Sql.limit_offset _ _ ?rows] =>
        destruct (limit_offset_accepts p l rows Hp Hl) as (page_rows & -> & _)
    end.
    exists (rev page_rows), (pagination (Num p) (Num l) page_rows).
    split; [reflexivity |]. rewrite length_rev. apply hasMore_num.
  - intros db user_id q r d Hr Hd.
    rewrite (list_handler_pagination _ _ _ _ _ _ _ Hr Hd). apply hasMore_spec.
  - intros db user_id q r d Hr Hd.
    rewrite (list_handler_pagination _ _ _ _ _ _ _ Hr Hd). apply hasMore_spec.
  - intros db page limit r d. unfold Admin.products_pending.
    destruct (Product.findPending _ _ _) as [rows |]; [| discriminate].
    intros [= <-] [= <-]. apply hasMore_spec.
  - intros db user_id roomId page limit r d. unfold Chat.get_messages.
    destruct roomId as [| roomId]; [intros [= <-]; discriminate |].
    destruct (Chat.rooms_of _ _ _); [intros [= <-]; discriminate |].
    destruct (Sql.limit_offset _ _ _) as [rows |]; [| discriminate].
    intros [= <-] [= <-]. cbn [Chat.md_pagination Chat.md_messages].
    rewrite length_rev. apply hasMore_spec.
  - intros db filters page limit. unfold ProductRoutes.list_all.
    apply paginates_reply.
  - intros db user filters page limit products Hfound.
    unfold ProductRoutes.list_all. rewrite Hfound.
    destruct (ProductRoutes.favorite_status db "isFavorited" products);
      [reflexivity |].
    exact (paginates_reply page limit (Returned products)).
  - intros db req_user query req_query page limit products Hquery Hlength Hfound.
    unfold ProductRoutes.search.
    apply String.eqb_neq in Hquery. rewrite Hquery.
    assert (Hlong : (ProductRoutes.length (Chat.trim query) <? 2) = false)
      by (apply Z.ltb_ge; exact Hlength).
    rewrite Hlong. cbn [orb]. rewrite Hfound.
    destruct (match req_user with
              | Some _ => ProductRoutes.favorite_status db "productObj" products
              | None => None
              end); [reflexivity |].
    eexists. split; [reflexivity | apply hasMore_spec].
  - intros db page limit status search. unfold AdminLists.products.
    destruct (AdminLists.products_statement _ _ _ _) as [query queryParams].
    apply paginates_reply.
  - intros db page limit search is_active is_verified. unfold AdminLists.users.
    destruct (AdminLists.users_statement _ _ _ _ _) as [query queryParams].
    apply paginates_reply.
  - intros db page limit status report_type. unfold AdminLists.reports.
    destruct (AdminLists.reports_statement _ _ _ _) as [query queryParams].
    apply paginates_reply.
  - intros db req_user page limit. apply paginates_reply.
  - intros db req_user page limit. apply paginates_reply.
  - intros db req_user page limit. apply paginates_reply.
  - intros db req_user page limit. apply paginates_reply.
  - intros db userId page limit user Huser.
    unfold UserRoutes.public_products. rewrite Huser. apply paginates_reply.
  - intros userId categoryId page limit. split; reflexivity.
  - intros req_user page limit. repeat split.
Qed.

(** Bob's one purchase fills a page of one; the one pending product does
    not fill a page of five; the room's one message fills a page of one;
    the two users of the sample store fill the admin's page of two and not
    a page of twenty; an anonymous product list of two fills a page of two,
    and for a signed-in caller the favorite-status loop ends the same
    request with its error. *)
Lemma hasMore_iff_full_page_witness :
  (exists d,
     Purchases.my_purchases (market_with_order "pending") 2
       (Purchases.mkListQuery (Num 1) (Num 1) None)
     = Sent (mkReply 200 true None [] (Some d))
     /\ List.length (Purchases.ld_rows d) = 1%nat
     /\ hasMore (Purchases.ld_pagination d) = true)
  /\ (exists rows pag,
        Admin.products_pending market_with_pending (Num 1) (Num 5)
        = Sent (mkReply 200 true None [] (Some (Admin.mkPendingData rows pag)))
        /\ (hasMore pag = true <-> 5 = Z.of_nat (List.length rows)))
  /\ (exists rows pag,
        snd (Chat.get_messages market_with_chat 1 (Num 1) (Num 1) (Num 1))
        = Sent (mkReply 200 true None [] (Some (Chat.mkMessagesData rows pag)))
        /\ (hasMore pag = true <-> 1 = Z.of_nat (List.length rows)))
  /\ paginates (Num 2) (Returned two_rows)
       (AdminLists.users two_row_store (Num 1) (Num 2) None None None)
  /\ paginates (Num 20) (Returned two_rows)
       (AdminLists.users two_row_store (Num 1) (Num 20) (Some "al") None (Some "true"))
  /\ paginates (Num 2) (Returned two_rows)
       (ProductRoutes.list_all finding_store None [("sort_by", JString "newest")]
          (Num 1) (Num 2))
  /\ ProductRoutes.list_all finding_store (Some bob) [("sort_by", JString "newest")]
       (Num 1) (Num 2)
     = Next "isFavorited.isFavoritedBy is not a function".
Proof.
  pose proof hasMore_iff_full_page
    as (Hpurchases & _ & Hpending & Hmessages & Hany & _ & _ & _ & Hlist & Hsigned
        & _ & _ & Husers & _).
  split; [| split; [| split; [| split; [| split; [| split]]]]].
  - eexists. split; [reflexivity |]. split; [reflexivity |].
    exact (proj2 (Hany (market_with_order "pending") 2
                    (Purchases.mkListQuery (Num 1) (Num 1) None) _ _ eq_refl eq_refl)
             eq_refl).
  - apply Hpending; lia.
  - apply Hmessages; [discriminate | lia | lia].
  - exact (Husers two_row_store (Num 1) (Num 2) None None None).
  - exact (Husers two_row_store (Num 1) (Num 20) (Some "al") None (Some "true")).
  - exact (Hlist finding_store [("sort_by", JString "newest")] (Num 1) (Num 2)).
  - exact (Hsigned finding_store bob [("sort_by", JString "newest")] (Num 1) (Num 2)
             two_rows eq_refl).
Defined.

(** The sample replies in full: the admin's page of two users reports
    [hasMore], the page of twenty does not. *)
Example admin_users_pages :
  AdminLists.users two_row_store (Num 1) (Num 2) None None None
  = Sent (mkReply 200 true None []
            (Some (mkPage two_rows (mkPagination (Num 1) (Num 2) 2 true))))
  /\ AdminLists.users two_row_store (Num 1) (Num 20) None None None
     = Sent (mkReply 200 true None []
               (Some (mkPage two_rows (mkPagination (Num 1) (Num 20) 2 false))))
  /\ Admin.products_pending market_with_pending (Num 1) (Num 5)
     = Sent (mkReply 200 true None []
               (Some (Admin.mkPendingData [mkProduct 8 "Desk lamp" 4000 3 2 "pending" 130]
                        (mkPagination (Num 1) (Num 5) 1 false)))).
Proof. repeat split. Qed.

(** [hasMore] only approximates 'more rows exist': Bob has one purchase,
    page 1 with limit 1 reports [hasMore] although page 2 is empty. *)
Example hasMore_is_approximate :
  exists first second,
    Purchases.my_purchases (market_with_order "pending") 2
      (Purchases.mkListQuery (Num 1) (Num 1) None)
    = Sent (mkReply 200 true None [] (Some first))
    /\ hasMore (Purchases.ld_pagination first) = true
    /\ Purchases.my_purchases (market_with_order "pending") 2
         (Purchases.mkListQuery (Num 2) (Num 1) None)
       = Sent (mkReply 200 true None [] (Some second))
    /\ Purchases.ld_rows second = [].
Proof. do 2 eexists. repeat split. Qed.

(** ** The credential in profile replies *)

(** C10.  [toJSON] of a user holds no [password] property: it is the list
    of the fourteen other properties in constructor order.  Two user
    records that differ only in the stored password hash have the same
    [toJSON] and get the same reply from the profile route. *)
Theorem toJSON_hides_password (db : Db) (u : UserRow) :
  get_prop "password" (User.toJSON u) = None
  /\ (forall k v, In (k, v) (User.toJSON u) -> k <> "password")
  /\ User.toJSON u
     = [("id", JNumber (u_id u));
        ("name", JString (u_name u));
        ("email", JString (u_email u));
        ("phone", of_option_string (u_phone u));
        ("avatar", of_option_string (u_avatar u));
        ("is_verified", JBool (u_is_verified u));
        ("is_active", JBool (u_is_active u));
        ("is_admin", JBool (u_is_admin u));
        ("followers_count", JNumber (u_followers_count u));
        ("following_count", JNumber (u_following_count u));
        ("listings_count", JNumber (u_listings_count u));
        ("sales_count", JNumber (u_sales_count u));
        ("created_at", JNumber (u_created_at u));
        ("updated_at", JNumber (u_updated_at u))]
  /\ (forall hash hash',
        User.toJSON (User.with_password u hash)
        = User.toJSON (User.with_password u hash')
        /\ User.profile db (User.with_password u hash)
           = User.profile db (User.with_password u hash')).
Proof.
  split; [reflexivity |].
  split.
  { intros k v Hin. unfold User.toJSON, User.rest_without in Hin.
    apply filter_In in Hin as [_ Hk]. cbn [fst] in Hk.
    apply negb_true_iff, String.eqb_neq in Hk. exact Hk. }
  split; [reflexivity |].
  intros hash hash'. split; reflexivity.
Qed.

(** * Further properties of the routes and models *)

(** ** The cart router *)

Lemma set_cart_same (db : Db) : set_cart db (cart db) = db.
Proof. now destruct db. Qed.

Lemma select_update_disjoint {A : Type} (cond touched : A -> bool) (set : A -> A)
    (t : list A) :
  (forall r, touched r = true -> cond r = false /\ cond (set r) = false) ->
  Sql.select_where cond (Sql.update_where touched set t) = Sql.select_where cond t.
Proof.
  intros H. induction t as [| r t IH]; simpl; [reflexivity |].
  destruct (touched r) eqn:E.
  - destruct (H r E) as [-> ->]. exact IH.
  - destruct (cond r); [f_equal |]; exact IH.
Qed.

Lemma select_delete_disjoint {A : Type} (cond gone : A -> bool) (t : list A) :
  (forall r, gone r = true -> cond r = false) ->
  Sql.select_where cond (Sql.delete_where gone t) = Sql.select_where cond t.
Proof.
  intros H. induction t as [| r t IH]; simpl; [reflexivity |].
  destruct (gone r) eqn:E; simpl.
  - rewrite (H r E). exact IH.
  - destruct (cond r); [f_equal |]; exact IH.
Qed.

Lemma mine_user (user_id product_id : Z) (c : CartRow) :
  Cart.mine user_id product_id c = true -> c_user_id c = user_id.
Proof.
  unfold Cart.mine. intros H. apply andb_true_iff in H as [H _].
  now apply Z.eqb_eq.
Qed.

Lemma add_handler_change (db : Db) (user_id product_id quantity : Z) :
  exists rows,
    fst (Cart.add_handler db user_id product_id quantity) = set_cart db rows
    /\ cart_change user_id (cart db) rows.
Proof.
  unfold Cart.add_handler.
  destruct (Product.findById db product_id) as [product |];
    [| exists (cart db); split; [symmetry; apply set_cart_same | constructor]].
  destruct (p_seller_id product =? user_id);
    [exists (cart db); split; [symmetry; apply set_cart_same | constructor] |].
  destruct (Sql.select_where _ _) as [| existing rest] eqn:Hsel.
  - eexists. split; [reflexivity |]. now apply cart_new.
  - eexists. split; [reflexivity |]. now apply cart_set.
Qed.

Lemma cart_serve_change (co : Coercions) (db : Db) (user_id : Z)
    (request : CartViews.Request) :
  exists rows,
    CartViews.serve co db user_id request = set_cart db rows
    /\ cart_change user_id (cart db) rows.
Proof.
  assert (Hsame : exists rows, db = set_cart db rows
                               /\ cart_change user_id (cart db) rows).
  { exists (cart db). split; [symmetry; apply set_cart_same | constructor]. }
  destruct request as [body | productId quantity | productId |]; cbn [CartViews.serve].
  - unfold Cart.add.
    match goal with
    | |- context [Validation.validate ?s ?b ?h ?d] =>
        destruct (validate_cases s b h d) as [-> | (errs & ->)]
    end; [| exact Hsame].
    cbn [Cart.ar_body Cart.ar_user_id].
    destruct (Validation.cb_product_id body); [apply add_handler_change | exact Hsame].
  - unfold Cart.update. cbn [Cart.ur_productId Cart.ur_quantity Cart.ur_user_id].
    destruct productId as [| productId]; [exact Hsame |].
    destruct (Cart.bad_quantity co quantity); [exact Hsame |].
    destruct (Sql.select_where _ _); [exact Hsame |].
    destruct (column_int co quantity); [| exact Hsame].
    eexists. split; [reflexivity |]. now apply cart_set.
  - unfold Cart.remove.
    destruct productId as [| productId]; [exact Hsame |].
    destruct (Sql.select_where _ _); [exact Hsame |].
    eexists. split; [reflexivity |]. apply cart_gone. apply mine_user.
  - unfold Cart.clear. eexists. split; [reflexivity |].
    apply cart_gone. intros c Hc. now apply Z.eqb_eq.
Qed.

(** X1.  Whatever cart request a user sends (add, update, remove, clear,
    accepted or not), the cart rows of every other user are the same
    afterwards, and no table other than the cart changes. *)
Theorem cart_requests_touch_own_rows_only (co : Coercions) (db : Db) (user_id : Z)
    (request : CartViews.Request) (other : Z) :
  other <> user_id ->
  Sql.select_where (fun c => c_user_id c =? other)
    (cart (CartViews.serve co db user_id request))
  = Sql.select_where (fun c => c_user_id c =? other) (cart db)
  /\ set_cart (CartViews.serve co db user_id request) (cart db) = db.
Proof.
  intros Hother.
  destruct (cart_serve_change co db user_id request) as (rows & -> & Hchange).
  split; [| now destruct db].
  cbn [cart set_cart].
  destruct Hchange as [| product_id set Hset | product_id quantity Hnone | gone Hgone].
  - reflexivity.
  - apply select_update_disjoint. intros c Hc.
    pose proof (Hset c) as Hpair. unfold CartViews.pair_of in Hpair.
    injection Hpair as Hu _. rewrite Hu.
    apply mine_user in Hc. rewrite Hc.
    split; apply Z.eqb_neq; congruence.
  - rewrite select_app. cbn [Sql.select_where filter c_user_id].
    apply Z.eqb_neq in Hother. rewrite Z.eqb_sym, Hother. apply app_nil_r.
  - apply select_delete_disjoint. intros c Hc.
    apply Hgone in Hc. apply Z.eqb_neq. congruence.
Qed.

Lemma cart_requests_touch_own_rows_only_witness :
  Sql.select_where (fun c => c_user_id c =? 2)
    (cart (CartViews.serve sample_coercions (market_with_cart 10) 1 CartViews.Clear))
  = [mkCart 2 7 10].
Proof.
  assert (H : 2 <> 1) by discriminate.
  exact (proj1 (cart_requests_touch_own_rows_only sample_coercions (market_with_cart 10)
                  1 CartViews.Clear 2 H)).
Defined.

Lemma map_update_where {A B : Type} (f : A -> B) (cond : A -> bool) (set : A -> A)
    (t : list A) :
  (forall r, f (set r) = f r) ->
  map f (Sql.update_where cond set t) = map f t.
Proof.
  intros H. unfold Sql.update_where. rewrite map_map.
  apply map_ext. intros r. now destruct (cond r).
Qed.

Lemma NoDup_map_filter {A B : Type} (f : A -> B) (cond : A -> bool) (t : list A) :
  NoDup (map f t) -> NoDup (map f (filter cond t)).
Proof.
  induction t as [| r t IH]; simpl; [auto |].
  intros Hnd. inversion Hnd as [| ? ? Hnotin Hrest]; subst.
  destruct (cond r); simpl; [| now apply IH].
  constructor; [| now apply IH].
  intros Hin. apply Hnotin.
  apply in_map_iff in Hin as (x & Hx & Hin).
  apply filter_In in Hin as [Hin _].
  apply in_map_iff. eauto.
Qed.

(** X2.  The cart router keeps the table's uniqueness of (user, product)
    pairs: if no pair occurs twice before a request, none does after it. *)
Theorem cart_pairs_stay_unique (co : Coercions) (db : Db) (user_id : Z)
    (request : CartViews.Request) :
  NoDup (map CartViews.pair_of (cart db)) ->
  NoDup (map CartViews.pair_of (cart (CartViews.serve co db user_id request))).
Proof.
  intros Hnd.
  destruct (cart_serve_change co db user_id request) as (rows & -> & Hchange).
  cbn [cart set_cart].
  destruct Hchange as [| product_id set Hset | product_id quantity Hnone | gone Hgone].
  - exact Hnd.
  - now rewrite (map_update_where CartViews.pair_of _ set _ Hset).
  - rewrite map_app. cbn [map CartViews.pair_of c_user_id c_product_id].
    apply NoDup_app; [exact Hnd | repeat constructor; intros [] |].
    intros pair Hin [<- | []].
    apply in_map_iff in Hin as (c & Hpair & Hin).
    assert (Hmine : In c (Sql.select_where (Cart.mine user_id product_id) (cart db))).
    { apply filter_In. split; [exact Hin |].
      unfold CartViews.pair_of in Hpair. injection Hpair as Hu Hp.
      unfold Cart.mine. now rewrite Hu, Hp, !Z.eqb_refl. }
    rewrite Hnone in Hmine. exact Hmine.
  - now apply NoDup_map_filter.
Qed.

Lemma cart_pairs_stay_unique_witness :
  NoDup
    (map CartViews.pair_of
       (cart (CartViews.serve sample_coercions (market_with_cart 3) 2
                (CartViews.Add (Validation.mkCartBody (Some 7) (Some 4)))))).
Proof.
  apply (cart_pairs_stay_unique sample_coercions (market_with_cart 3) 2).
  repeat constructor. intros [].
Defined.

Lemma delete_none {A : Type} (cond : A -> bool) (t : list A) :
  Sql.select_where cond t = [] -> Sql.delete_where cond t = t.
Proof.
  induction t as [| r t IH]; simpl; [reflexivity |].
  destruct (cond r); simpl; [discriminate |].
  intros H. now rewrite IH.
Qed.

(** X3.  Add, check, remove.  After an accepted add of a product that was
    not in the caller's cart, the check route reports it with the added
    quantity and the count route reports one more row; removing it again
    gives back exactly the store before the add. *)
Theorem cart_add_check_remove_round_trip (db : Db) (user_id product_id : Z)
    (quantity : option Z) (product : ProductRow) :
  Product.findById db product_id = Some product ->
  p_seller_id product <> user_id ->
  Validation.check_product_id (Some product_id) = [] ->
  Validation.check_quantity quantity = [] ->
  Cart.quantities db user_id product_id = [] ->
  let added :=
    fst (Cart.add db
           (Cart.mkAddRequest user_id
              (Validation.mkCartBody (Some product_id) quantity))) in
  CartViews.check added user_id (Num product_id)
  = Sent (mkReply 200 true None []
            (Some (CartViews.mkCheckData true (Validation.default_quantity quantity))))
  /\ (forall n m,
        CartViews.count db user_id = Sent (mkReply 200 true None [] (Some n)) ->
        CartViews.count added user_id = Sent (mkReply 200 true None [] (Some m)) ->
        m = n + 1)
  /\ Cart.remove added user_id (Num product_id)
     = (db, Sent (mkReply 200 true (Some "Item removed from cart") [] None)).
Proof.
  intros Hp Hother Hpos Hq Hnone added.
  apply quantities_nil in Hnone.
  assert (Hadded : added
                   = set_cart db
                       (cart db ++ [mkCart user_id product_id
                                      (Validation.default_quantity quantity)])).
  { subst added.
    rewrite (cart_add_accepted db user_id product_id quantity product Hp Hother Hpos Hq).
    unfold Cart.add_handler. apply Z.eqb_neq in Hother.
    now rewrite Hp, Hother, Hnone. }
  assert (Hsel : Sql.select_where (Cart.mine user_id product_id) (cart added)
                 = [mkCart user_id product_id (Validation.default_quantity quantity)]).
  { rewrite Hadded. cbn [cart set_cart]. rewrite select_app, Hnone.
    cbn [app Sql.select_where filter]. unfold Cart.mine at 1.
    cbn [c_user_id c_product_id]. now rewrite !Z.eqb_refl. }
  split; [| split].
  - unfold CartViews.check. now rewrite Hsel.
  - unfold CartViews.count. intros n m [= <-] [= <-].
    rewrite Hadded. cbn [cart set_cart]. rewrite select_app, length_app.
    cbn [Sql.select_where filter c_user_id]. rewrite Z.eqb_refl.
    cbn [List.length]. lia.
  - unfold Cart.remove. rewrite Hsel.
    f_equal. rewrite Hadded. cbn [cart set_cart].
    unfold Sql.delete_where. rewrite filter_app.
    fold (Sql.delete_where (Cart.mine user_id product_id) (cart db)).
    rewrite (delete_none _ _ Hnone).
    cbn [filter]. unfold Cart.mine at 1. cbn [c_user_id c_product_id].
    rewrite !Z.eqb_refl. cbn [andb negb]. rewrite app_nil_r.
    now destruct db.
Qed.

Lemma cart_add_check_remove_round_trip_witness :
  Cart.remove
    (fst (Cart.add market
            (Cart.mkAddRequest 2 (Validation.mkCartBody (Some 7) (Some 3)))))
    2 (Num 7)
  = (market, Sent (mkReply 200 true (Some "Item removed from cart") [] None)).
Proof.
  assert (Hother : p_seller_id lamp <> 2) by discriminate.
  exact (proj2 (proj2 (cart_add_check_remove_round_trip market 2 7 (Some 3) lamp
                         eq_refl Hother eq_refl eq_refl eq_refl))).
Defined.

Lemma join_items_sound (db : Db) (user_id : Z) (item : CartViews.Item) :
  In item (CartViews.join_items db user_id) ->
  exists c p,
    In c (cart db) /\ c_user_id c = user_id
    /\ In p (products db) /\ p_id p = c_product_id c /\ p_status p = "approved"
    /\ CartViews.it_product_id item = c_product_id c
    /\ CartViews.it_quantity item = c_quantity c
    /\ CartViews.it_price item = p_price p.
Proof.
  unfold CartViews.join_items. intros Hin.
  apply in_flat_map in Hin as (c & Hc & Hin).
  apply in_flat_map in Hin as (p & Hp & Hin).
  apply in_map_iff in Hin as (u & <- & _).
  apply filter_In in Hc as [Hc Hu].
  apply filter_In in Hp as [Hp Hcond].
  apply andb_true_iff in Hcond as [Hid Hst].
  apply Z.eqb_eq in Hu, Hid. apply String.eqb_eq in Hst.
  exists c, p. repeat split; assumption.
Qed.

(** X4.  The cart listing shows only rows of the caller whose product is
    approved, with the product's current price; the total is the subtotal
    plus the fixed fee of 50.00 and the item count is the number of rows
    shown.  A cart whose products are all unapproved (sold, pending, ...)
    is listed as empty, with total 50.00, although its rows are stored. *)
Theorem cart_listing_shows_approved_only (db : Db) (user_id : Z) :
  exists listing,
    CartViews.get db user_id = Sent (mkReply 200 true None [] (Some listing))
    /\ CartViews.total (CartViews.summary listing)
       = CartViews.subtotal (CartViews.summary listing) + 5000
    /\ CartViews.itemCount (CartViews.summary listing)
       = Z.of_nat (List.length (CartViews.items listing))
    /\ (forall item,
          In item (CartViews.items listing) ->
          exists c p,
            In c (cart db) /\ c_user_id c = user_id
            /\ In p (products db) /\ p_id p = c_product_id c
            /\ p_status p = "approved"
            /\ CartViews.it_product_id item = c_product_id c
            /\ CartViews.it_quantity item = c_quantity c
            /\ CartViews.it_price item = p_price p)
    /\ ((forall c p,
            In c (cart db) -> c_user_id c = user_id ->
            In p (products db) -> p_id p = c_product_id c ->
            p_status p <> "approved") ->
        CartViews.items listing = []
        /\ CartViews.subtotal (CartViews.summary listing) = 0
        /\ CartViews.total (CartViews.summary listing) = 5000).
Proof.
  eexists. split; [reflexivity |].
  cbn [CartViews.summary CartViews.items CartViews.total CartViews.subtotal
       CartViews.itemCount].
  split; [reflexivity |]. split; [reflexivity |]. split.
  - intros item Hin. apply in_rev in Hin. now apply join_items_sound.
  - intros Hnone.
    assert (Hempty : CartViews.join_items db user_id = []).
    { destruct (CartViews.join_items db user_id) as [| item rest] eqn:E; [reflexivity |].
      destruct (join_items_sound db user_id item) as (c & p & Hc & Hu & Hp & Hid & Hst & _).
      - rewrite E. now left.
      - exfalso. exact (Hnone c p Hc Hu Hp Hid Hst). }
    rewrite Hempty. repeat split.
Qed.

Example cart_hides_sold_product :
  let db := set_products (market_with_cart 1)
              [mkProduct 7 "Lamp" 10000 3 1 "sold" 110] in
  Cart.quantities db 2 7 = [1]
  /\ CartViews.get db 2
     = Sent (mkReply 200 true None []
               (Some (CartViews.mkListing [] (CartViews.mkSummary 0 5000 5000 0)))).
Proof. split; reflexivity. Qed.

(** ** Purchases: who may see and change what *)

(** X5.  The purchase detail route answers with a purchase only when the
    caller is its buyer or its seller and the id is the one asked for; a
    caller who is neither the buyer nor the seller of the purchase with that
    id (or asks for an id no purchase has) gets 404 'Purchase not found'. *)
Theorem purchase_details_for_parties_only (db : Db) (user_id : Z) (purchaseId : JsNum) :
  (forall (r : Reply PurchaseViews.Details) (row : PurchaseViews.Details),
     PurchaseViews.details db user_id purchaseId = Sent r ->
     data r = Some row ->
     purchaseId = Num (PurchaseViews.de_id row)
     /\ (PurchaseViews.de_buyer_id row = user_id
         \/ PurchaseViews.de_seller_id row = user_id)
     /\ exists pur,
          In pur (purchases db)
          /\ pu_id pur = PurchaseViews.de_id row
          /\ pu_buyer_id pur = PurchaseViews.de_buyer_id row
          /\ pu_seller_id pur = PurchaseViews.de_seller_id row
          /\ pu_status pur = PurchaseViews.de_status row)
  /\ (forall id,
        purchaseId = Num id ->
        (forall pur,
           In pur (purchases db) -> pu_id pur = id ->
           pu_buyer_id pur <> user_id /\ pu_seller_id pur <> user_id) ->
        PurchaseViews.details db user_id purchaseId = fail 404 "Purchase not found").
Proof.
  split.
  - intros r row. unfold PurchaseViews.details.
    destruct purchaseId as [| id]; [intros [= <-]; discriminate |].
    destruct (flat_map _ _) as [| first rest] eqn:Hrows; [intros [= <-]; discriminate |].
    intros [= <-] [= <-].
    assert (Hin : In first (first :: rest)) by now left.
    rewrite <- Hrows in Hin.
    apply in_flat_map in Hin as (pur & Hpur & Hin).
    apply in_flat_map in Hin as (p & _ & Hin).
    apply in_flat_map in Hin as (seller & _ & Hin).
    apply in_map_iff in Hin as (buyer & <- & _).
    apply filter_In in Hpur as [Hpur Hcond].
    apply andb_true_iff in Hcond as [Hid Hparty].
    apply Z.eqb_eq in Hid.
    apply orb_true_iff in Hparty.
    cbn [PurchaseViews.de_id PurchaseViews.de_buyer_id PurchaseViews.de_seller_id
         PurchaseViews.de_status].
    split; [now rewrite Hid |].
    split; [destruct Hparty as [H | H]; apply Z.eqb_eq in H; auto |].
    exists pur. repeat split; assumption.
  - intros id -> Hstranger. unfold PurchaseViews.details.
    assert (Hnone : Sql.select_where
                      (fun pur => (pu_id pur =? id)
                                  && ((pu_buyer_id pur =? user_id)
                                      || (pu_seller_id pur =? user_id)))
                      (purchases db) = []).
    { unfold Sql.select_where.
      induction (purchases db) as [| pur rest IH]; [reflexivity |].
      cbn [filter].
      destruct (pu_id pur =? id) eqn:Eid.
      - apply Z.eqb_eq in Eid.
        destruct (Hstranger pur (or_introl eq_refl) Eid) as [Hb Hs].
        apply Z.eqb_neq in Hb, Hs. rewrite Hb, Hs. cbn [andb orb].
        apply IH. intros x Hx. apply Hstranger. now right.
      - cbn [andb]. apply IH. intros x Hx. apply Hstranger. now right. }
    now rewrite Hnone.
Qed.

(** The buyer of purchase 1 sees it; user 3, neither its buyer nor its
    seller, gets 404, and so does anyone asking for purchase 9. *)
Lemma purchase_details_for_parties_only_witness :
  let row := PurchaseViews.mkDetails 1 2 1 7 2 "pending" "Lamp" 10000 "Alice" "Bob" in
  PurchaseViews.details (market_with_order "pending") 2 (Num 1)
  = Sent (mkReply 200 true None [] (Some row))
  /\ (PurchaseViews.de_buyer_id row = 2 \/ PurchaseViews.de_seller_id row = 2)
  /\ PurchaseViews.details (market_with_order "pending") 3 (Num 1)
     = fail 404 "Purchase not found"
  /\ PurchaseViews.details (market_with_order "pending") 2 (Num 9)
     = fail 404 "Purchase not found".
Proof.
  split; [reflexivity |].
  split.
  - exact (proj1 (proj2 (proj1 (purchase_details_for_parties_only
                                  (market_with_order "pending") 2 (Num 1))
                           _ _ eq_refl eq_refl))).
  - split.
    + apply (proj2 (purchase_details_for_parties_only (market_with_order "pending")
                      3 (Num 1)) 1 eq_refl).
      intros pur Hin Hid. cbn in Hin. destruct Hin as [<- | []].
      split; discriminate.
    + apply (proj2 (purchase_details_for_parties_only (market_with_order "pending")
                      2 (Num 9)) 9 eq_refl).
      intros pur Hin Hid. cbn in Hin. destruct Hin as [<- | []].
      discriminate Hid.
Defined.

Lemma insert_by_In {A : Type} (before : A -> A -> bool) (x y : A) (l : list A) :
  In x (Sql.insert_by before y l) -> x = y \/ In x l.
Proof.
  induction l as [| z l IH]; simpl.
  - intros [<- | []]. now left.
  - destruct (before z y); simpl.
    + intros [<- | H]; [right; now left |].
      destruct (IH H) as [-> | H']; [now left | right; now right].
    + intros [<- | H]; [now left | now right].
Qed.

Lemma order_by_In {A : Type} (before : A -> A -> bool) (x : A) (l : list A) :
  In x (Sql.order_by before l) -> In x l.
Proof.
  unfold Sql.order_by.
  induction l as [| y l IH]; simpl; [auto |].
  intros H. apply insert_by_In in H as [-> | H]; [now left | right; now apply IH].
Qed.

Lemma limit_offset_In {A : Type} (limit offset : JsNum) (rows page_rows : list A)
    (x : A) :
  Sql.limit_offset limit offset rows = Some page_rows ->
  In x page_rows -> In x rows.
Proof.
  unfold Sql.limit_offset.
  destruct limit as [| l]; [discriminate |].
  destruct offset as [| o]; [discriminate |].
  destruct (_ && _); [| discriminate].
  intros [= <-] Hin.
  rewrite <- (firstn_skipn (Z.to_nat o) rows). apply in_or_app. right.
  rewrite <- (firstn_skipn (Z.to_nat l) (skipn (Z.to_nat o) rows)).
  apply in_or_app. now left.
Qed.

Lemma join_details_sound (db : Db) (who : PurchaseRow -> Z)
    (cond : PurchaseRow -> bool) (v : Purchases.PurchaseView) :
  In v (Purchases.join_details db who cond) ->
  exists pur,
    In pur (purchases db) /\ cond pur = true
    /\ Purchases.pv_id v = pu_id pur
    /\ Purchases.pv_buyer_id v = pu_buyer_id pur
    /\ Purchases.pv_seller_id v = pu_seller_id pur
    /\ Purchases.pv_status v = pu_status pur.
Proof.
  unfold Purchases.join_details. intros Hin.
  apply in_flat_map in Hin as (pur & Hpur & Hin).
  apply in_flat_map in Hin as (p & _ & Hin).
  apply in_map_iff in Hin as (u & <- & _).
  apply filter_In in Hpur as [Hpur Hcond].
  exists pur. repeat split; assumption.
Qed.

Lemma list_handler_rows (db : Db) (mine other : PurchaseRow -> Z) (user_id : Z)
    (q : Purchases.ListQuery) (r : Reply Purchases.ListData) (d : Purchases.ListData)
    (v : Purchases.PurchaseView) :
  Purchases.list_handler db mine other user_id q = Sent r ->
  data r = Some d ->
  In v (Purchases.ld_rows d) ->
  exists pur,
    In pur (purchases db) /\ mine pur = user_id
    /\ (forall s, Purchases.lq_status q = Some s -> s <> "" -> pu_status pur = s)
    /\ Purchases.pv_id v = pu_id pur
    /\ Purchases.pv_buyer_id v = pu_buyer_id pur
    /\ Purchases.pv_seller_id v = pu_seller_id pur
    /\ Purchases.pv_status v = pu_status pur.
Proof.
  unfold Purchases.list_handler.
  destruct (Sql.limit_offset _ _ _) as [rows |] eqn:Hpage; [| discriminate].
  intros [= <-] [= <-] Hin. cbn [Purchases.ld_rows] in Hin.
  apply (limit_offset_In _ _ _ _ _ Hpage) in Hin.
  apply order_by_In in Hin.
  apply join_details_sound in Hin as (pur & Hpur & Hcond & Hv).
  apply andb_true_iff in Hcond as [Hmine Hstatus].
  apply Z.eqb_eq in Hmine.
  exists pur. split; [exact Hpur |]. split; [exact Hmine |]. split; [| exact Hv].
  intros s Hs Hne. rewrite Hs in Hstatus. cbn [truthy_string] in Hstatus.
  apply String.eqb_neq in Hne. rewrite Hne in Hstatus. cbn [negb] in Hstatus.
  now apply String.eqb_eq.
Qed.

(** X6.  The purchase lists never show another user's rows: every row of
    the my-purchases reply is a stored purchase whose buyer is the caller,
    every row of the my-sales reply one whose seller is the caller, and with
    a status filter every row has that status. *)
Theorem purchase_lists_show_own_rows_only (db : Db) (user_id : Z)
    (q : Purchases.ListQuery) (r : Reply Purchases.ListData) (d : Purchases.ListData)
    (v : Purchases.PurchaseView) :
  data r = Some d ->
  In v (Purchases.ld_rows d) ->
  (Purchases.my_purchases db user_id q = Sent r ->
   Purchases.pv_buyer_id v = user_id
   /\ (forall s, Purchases.lq_status q = Some s -> s <> "" -> Purchases.pv_status v = s)
   /\ exists pur, In pur (purchases db) /\ pu_id pur = Purchases.pv_id v)
  /\ (Purchases.my_sales db user_id q = Sent r ->
      Purchases.pv_seller_id v = user_id
      /\ (forall s, Purchases.lq_status q = Some s -> s <> "" -> Purchases.pv_status v = s)
      /\ exists pur, In pur (purchases db) /\ pu_id pur = Purchases.pv_id v).
Proof.
  intros Hd Hin. split; intros Hr;
    destruct (list_handler_rows _ _ _ _ _ _ _ _ Hr Hd Hin)
      as (pur & Hpur & Hmine & Hstatus & Hid & Hb & Hs & Hst).
  - split; [congruence |]. split; [| eauto].
    intros s Hq Hne. rewrite Hst. now apply Hstatus.
  - split; [congruence |]. split; [| eauto].
    intros s Hq Hne. rewrite Hst. now apply Hstatus.
Qed.

Lemma purchase_lists_show_own_rows_only_witness :
  let v := Purchases.mkPurchaseView 1 2 1 7 2 "pending" "cash" 120 "Lamp" 10000 "Alice" in
  Purchases.my_purchases (market_with_order "pending") 2
    (Purchases.mkListQuery (Num 1) (Num 20) (Some "pending"))
  = Sent (mkReply 200 true None []
            (Some (Purchases.mkListData [v] (pagination (Num 1) (Num 20) [v]))))
  /\ Purchases.pv_buyer_id v = 2.
Proof.
  intros v. split; [reflexivity |].
  pose (d := Purchases.mkListData [v] (pagination (Num 1) (Num 20) [v])).
  exact (proj1 (proj1 (purchase_lists_show_own_rows_only (market_with_order "pending") 2
                         (Purchases.mkListQuery (Num 1) (Num 20) (Some "pending"))
                         (mkReply 200 true None [] (Some d)) d v
                         eq_refl (or_introl eq_refl))
                  eq_refl)).
Defined.

Ltac refused := left; split; [reflexivity | do 2 eexists; reflexivity].

(** Every outcome of a status update: a refusal, or, for the seller's
    legal update of an open purchase, the store's error passed to [next]. *)
Lemma update_status_outcomes (now : Z) (db : Db) (req : Purchases.StatusRequest) :
  let out := Purchases.update_status now db req in
  (exists code msg, snd out = fail code msg)
  \/ exists id status purchase error,
       Purchases.sr_purchaseId req = Num id
       /\ Purchases.sr_status req = Some status
       /\ includes ["confirmed"; "cancelled"; "completed"] status = true
       /\ purchase_of db id = Some purchase
       /\ pu_seller_id purchase = Purchases.sr_user_id req
       /\ terminal (pu_status purchase) = false
       /\ snd out = Next error.
Proof.
  intros out. subst out.
  unfold Purchases.update_status.
  destruct (Purchases.sr_purchaseId req) as [| id] eqn:Hid;
    [left; do 2 eexists; reflexivity |].
  destruct (Purchases.sr_status req) as [status |] eqn:Hstatus;
    [| left; do 2 eexists; reflexivity].
  destruct (includes _ status) eqn:Hvalid; cbn [negb];
    [| left; do 2 eexists; reflexivity].
  destruct (Sql.first_row _) as [purchase |] eqn:Hrow;
    [| left; do 2 eexists; reflexivity].
  destruct (pu_seller_id purchase =? Purchases.sr_user_id req) eqn:Hseller;
    cbn [negb]; [| left; do 2 eexists; reflexivity].
  destruct (_ || _) eqn:Hterm; [left; do 2 eexists; reflexivity |].
  apply Z.eqb_eq in Hseller.
  rewrite exec_update_purchase_refused.
  right. exists id, status, purchase. eexists.
  repeat split; first [reflexivity | assumption].
Qed.

Lemma cancel_outcomes (db : Db) (req : Purchases.CancelRequest) :
  let out := Purchases.cancel db req in
  (fst out = db /\ exists code msg, snd out = fail code msg)
  \/ exists id purchase set n,
       Purchases.ca_purchaseId req = Num id
       /\ purchase_of db id = Some purchase
       /\ pu_buyer_id purchase = Purchases.ca_user_id req
       /\ pu_status purchase = "pending"
       /\ purchases (fst out)
          = Sql.update_where (fun pur => pu_id pur =? id) set (purchases db)
       /\ (forall x, pu_id (set x) = pu_id x /\ pu_status (set x) = "cancelled")
       /\ notifications (fst out) = notifications db ++ [n]
       /\ n_user_id n = pu_seller_id purchase
       /\ n_type n = "purchase"
       /\ products (fst out) = products db
       /\ users (fst out) = users db
       /\ exists r, snd out = Sent r /\ statusCode r = 200 /\ success r = true.
Proof.
  intros out. subst out.
  unfold Purchases.cancel.
  destruct (Purchases.ca_purchaseId req) as [| id] eqn:Hid; [refused |].
  destruct (Sql.first_row _) as [purchase |] eqn:Hrow; [| refused].
  destruct (pu_buyer_id purchase =? Purchases.ca_user_id req) eqn:Hbuyer;
    cbn [negb]; [| refused].
  destruct (String.eqb (pu_status purchase) "pending") eqn:Hpending;
    cbn [negb]; [| refused].
  apply Z.eqb_eq in Hbuyer. apply String.eqb_eq in Hpending.
  right. exists id, purchase. do 2 eexists.
  do 4 (split; [first [reflexivity | assumption] |]).
  split; [reflexivity |].
  split; [intros x; split; reflexivity |].
  do 5 (split; [reflexivity |]).
  eexists. repeat split.
Qed.




(** X9.  Every cancel is answered by a reply: a refused one leaves the
    store as it is, an accepted one adds exactly one notification, addressed
    to the seller.  A status update stores nothing, no notification for the
    buyer included: it is answered by a refusal or, when it is the seller's
    legal update of an open purchase, by no reply at all, the store's error
    going to [next]. *)
Theorem cancel_notifies_seller_status_update_never_writes (now : Z) (db : Db) :
  (forall req,
      fst (Purchases.update_status now db req) = db
      /\ ((exists r, snd (Purchases.update_status now db req) = Sent r
                     /\ success r = false)
          \/ (exists error id purchase,
                snd (Purchases.update_status now db req) = Next error
                /\ Purchases.sr_purchaseId req = Num id
                /\ purchase_of db id = Some purchase
                /\ pu_seller_id purchase = Purchases.sr_user_id req
                /\ terminal (pu_status purchase) = false)))
  /\ (forall req,
        exists r,
          snd (Purchases.cancel db req) = Sent r
          /\ ((success r = false /\ fst (Purchases.cancel db req) = db)
              \/ (success r = true
                  /\ exists id purchase n,
                       Purchases.ca_purchaseId req = Num id
                       /\ purchase_of db id = Some purchase
                       /\ notifications (fst (Purchases.cancel db req))
                          = notifications db ++ [n]
                       /\ n_user_id n = pu_seller_id purchase
                       /\ n_type n = "purchase"))).
Proof.
  split; intros req.
  - split; [apply update_status_store |].
    destruct (update_status_outcomes now db req)
      as [(code & msg & Hreply)
         | (id & status & purchase & error & Hid & _ & _ & Hrow & Hseller & Hopen
            & Hreply)].
    + left. eexists. split; [exact Hreply | reflexivity].
    + right. exists error, id, purchase. repeat split; assumption.
  - destruct (cancel_outcomes db req)
      as [[Hsame (code & msg & Hreply)]
         | (id & purchase & set & n & Hid & Hrow & _ & _ & _ & _
            & Hn & Hto & Hty & _ & _ & r & Hreply & _ & Hok)].
    + eexists. split; [exact Hreply |]. left. split; [reflexivity | exact Hsame].
    + exists r. split; [exact Hreply |]. right. split; [exact Hok |].
      exists id, purchase, n. repeat split; assumption.
Qed.

(** ** Purchases and the product's availability *)

(** What an accepted purchase creation writes, whatever becomes of the
    notification statement. *)
Lemma create_stores (spliced : string -> Db -> option (list NotificationRow))
    (now : Z) (db : Db) (buyer product_id quantity : Z)
    (payment_method : string) (product : ProductRow) :
  Product.findById db product_id = Some product ->
  p_seller_id product <> buyer ->
  p_status product = "approved" ->
  let out :=
    Purchases.create_handler spliced now db buyer product_id quantity payment_method in
  purchases (fst out)
  = purchases db
    ++ [mkPurchase (Sql.next_id (map pu_id (purchases db))) buyer (p_seller_id product)
          product_id (p_price product) quantity "pending" payment_method None now None]
  /\ products (fst out) = products db
  /\ users (fst out) = users db
  /\ (Sql.plain (p_title product) = true ->
      exists r, snd out = Sent r /\ statusCode r = 201).
Proof.
  intros Hp Hother Happroved out. subst out.
  unfold Purchases.create_handler. rewrite Hp.
  apply Z.eqb_neq in Hother. rewrite Hother, Happroved.
  change (String.eqb "approved" "approved") with true. cbn [negb].
  destruct (Sql.plain (p_title product)).
  - repeat split. eexists. split; reflexivity.
  - destruct (spliced (p_title product) _); repeat split; discriminate.
Qed.

(** X10.  Creating a purchase does not reserve the product: it stays
    approved, so a second buyer's request for the same product is accepted
    too (answered 201 when the title is plain) and the store then holds two
    pending purchases of it. *)
Theorem purchase_does_not_reserve_product
    (spliced : string -> Db -> option (list NotificationRow)) (now now' : Z) (db : Db)
    (first second product_id q q' : Z) (pay pay' : string) (product : ProductRow) :
  Product.findById db product_id = Some product ->
  p_status product = "approved" ->
  p_seller_id product <> first ->
  p_seller_id product <> second ->
  let db1 := fst (Purchases.create_handler spliced now db first product_id q pay) in
  let out := Purchases.create_handler spliced now' db1 second product_id q' pay' in
  Product.findById db1 product_id = Some product
  /\ (Sql.plain (p_title product) = true ->
      exists r, snd out = Sent r /\ statusCode r = 201)
  /\ exists row row',
       purchases (fst out) = purchases db ++ [row; row']
       /\ pu_buyer_id row = first /\ pu_buyer_id row' = second
       /\ pu_product_id row = product_id /\ pu_product_id row' = product_id
       /\ pu_status row = "pending" /\ pu_status row' = "pending"
       /\ pu_id row <> pu_id row'.
Proof.
  intros Hp Happroved Hfirst Hsecond db1 out.
  destruct (create_stores spliced now db first product_id q pay product Hp Hfirst
              Happroved) as (Hrows & Hproducts & _ & _).
  fold db1 in Hrows, Hproducts.
  assert (Hp1 : Product.findById db1 product_id = Some product).
  { unfold Product.findById. rewrite Hproducts. exact Hp. }
  destruct (create_stores spliced now' db1 second product_id q' pay' product Hp1 Hsecond
              Happroved) as (Hrows' & _ & _ & Hreply).
  fold out in Hrows', Hreply.
  split; [exact Hp1 |]. split; [exact Hreply |].
  do 2 eexists. split.
  { rewrite Hrows', Hrows, <- app_assoc. reflexivity. }
  cbn [pu_buyer_id pu_product_id pu_status pu_id].
  repeat split.
  assert (Hin : In (Sql.next_id (map pu_id (purchases db)))
                  (map pu_id (purchases db1))).
  { rewrite Hrows, map_app. apply in_or_app. right. now left. }
  apply next_id_fresh in Hin. rewrite Hrows in Hin. lia.
Qed.

Lemma purchase_does_not_reserve_product_witness :
  List.length
    (purchases
       (fst (Purchases.create_handler refuse_spliced 131
               (fst (Purchases.create_handler refuse_spliced 130 market 2 7 1 "cash"))
               3 7 1 "upi")))
  = 2%nat.
Proof.
  assert (H2 : p_seller_id lamp <> 2) by discriminate.
  assert (H3 : p_seller_id lamp <> 3) by discriminate.
  destruct (purchase_does_not_reserve_product refuse_spliced 130 131 market 2 3 7 1 1
              "cash" "upi" lamp eq_refl eq_refl H2 H3)
    as (_ & _ & row & row' & Hrows & _).
  rewrite Hrows. reflexivity.
Defined.

(** ** Counters and statistics *)

Lemma counts_add_up (rows : list PurchaseRow) :
  (forall pur, In pur rows -> PurchaseViews.valid_status (pu_status pur) = true) ->
  PurchaseViews.total_count (PurchaseViews.counts rows)
  = PurchaseViews.pending_count (PurchaseViews.counts rows)
    + PurchaseViews.confirmed_count (PurchaseViews.counts rows)
    + PurchaseViews.completed_count (PurchaseViews.counts rows)
    + PurchaseViews.cancelled_count (PurchaseViews.counts rows).
Proof.
  unfold PurchaseViews.counts, PurchaseViews.count_status.
  cbn [PurchaseViews.total_count PurchaseViews.pending_count
       PurchaseViews.confirmed_count PurchaseViews.completed_count
       PurchaseViews.cancelled_count].
  induction rows as [| pur rows IH]; [reflexivity |].
  intros Hvalid.
  specialize (IH (fun x Hx => Hvalid x (or_intror Hx))).
  pose proof (Hvalid pur (or_introl eq_refl)) as Hpur.
  unfold PurchaseViews.valid_status, includes in Hpur. cbn [existsb] in Hpur.
  cbn [filter].
  repeat rewrite orb_true_iff in Hpur.
  destruct Hpur as [H | [H | [H | [H | H]]]]; try discriminate;
    apply String.eqb_eq in H; rewrite H;
    cbn [String.eqb Ascii.eqb Bool.eqb andb]; cbn [List.length]; lia.
Qed.

(** X13.  The statistics route always replies, and when every stored
    status is one of the four of the schema, each total is the sum of its
    pending, confirmed, completed and cancelled counts; the amount is absent
    exactly when the user has no row on that side. *)
Theorem purchase_statistics_add_up (db : Db) (user_id : Z) :
  (forall pur, In pur (purchases db) ->
               PurchaseViews.valid_status (pu_status pur) = true) ->
  exists o,
    PurchaseViews.stats_overview db user_id
    = Sent (mkReply 200 true None [] (Some o))
    /\ (forall c,
          c = PurchaseViews.ov_purchases o \/ c = PurchaseViews.ov_sales o ->
          PurchaseViews.total_count c
          = PurchaseViews.pending_count c + PurchaseViews.confirmed_count c
            + PurchaseViews.completed_count c + PurchaseViews.cancelled_count c
          /\ (PurchaseViews.amount c = None <-> PurchaseViews.total_count c = 0)).
Proof.
  intros Hvalid. eexists. split; [reflexivity |].
  assert (Hside : forall cond,
             let rows := Sql.select_where cond (purchases db) in
             PurchaseViews.total_count (PurchaseViews.counts rows)
             = PurchaseViews.pending_count (PurchaseViews.counts rows)
               + PurchaseViews.confirmed_count (PurchaseViews.counts rows)
               + PurchaseViews.completed_count (PurchaseViews.counts rows)
               + PurchaseViews.cancelled_count (PurchaseViews.counts rows)
             /\ (PurchaseViews.amount (PurchaseViews.counts rows) = None
                 <-> PurchaseViews.total_count (PurchaseViews.counts rows) = 0)).
  { intros cond rows. split.
    - apply counts_add_up. intros pur Hin. apply Hvalid.
      subst rows. now apply filter_In in Hin.
    - unfold PurchaseViews.counts. cbn [PurchaseViews.amount PurchaseViews.total_count].
      destruct rows; cbn; split; try discriminate; try reflexivity; lia. }
  intros c [-> | ->]; apply Hside.
Qed.

Lemma purchase_statistics_add_up_witness :
  exists o,
    PurchaseViews.stats_overview (market_with_order "completed") 2
    = Sent (mkReply 200 true None [] (Some o))
    /\ PurchaseViews.total_count (PurchaseViews.ov_purchases o) = 1
    /\ PurchaseViews.amount (PurchaseViews.ov_purchases o) = Some 20000.
Proof.
  assert (Hvalid : forall pur, In pur (purchases (market_with_order "completed")) ->
                               PurchaseViews.valid_status (pu_status pur) = true).
  { intros pur [<- | []]. reflexivity. }
  destruct (purchase_statistics_add_up (market_with_order "completed") 2 Hvalid)
    as (o & Ho & _).
  exists o. split; [exact Ho |].
  injection Ho as <-. split; reflexivity.
Defined.

(** ** Request validation *)







(** An id beyond the safe integers and an empty payment method: three
    violations, two of them on the payment method. *)
Example purchase_form_unsafe_id_empty_method :
  Validation.purchaseValidation_create
    (Validation.mkPurchaseBody (Some 9007199254740992) None (Some ""))
  = [("product_id", Validation.labelled "product_id" " must be a safe number");
     ("payment_method", "Please select a valid payment method");
     ("payment_method", Validation.labelled "payment_method" " is not allowed to be empty")].
Proof. reflexivity. Qed.

(** ** Chat rooms: access, reading, sending *)



Lemma unread_after_marking (db : Db) (roomId user_id : Z) (extra : MessageRow -> bool) :
  ChatRooms.unread_in_room
    (set_messages db
       (Sql.update_where
          (fun m => (m_room_id m =? roomId) && negb (m_sender_id m =? user_id)
                    && extra m)
          Chat.set_read (messages db)))
    roomId user_id
  = Z.of_nat
      (List.length
         (Sql.select_where
            (fun m => (m_room_id m =? roomId) && negb (m_sender_id m =? user_id)
                      && negb (m_is_read m) && negb (extra m))
            (messages db))).
Proof.
  unfold ChatRooms.unread_in_room. cbn [messages set_messages]. f_equal.
  induction (messages db) as [| m t IH]; [reflexivity |].
  cbn [Sql.update_where map Sql.select_where filter].
  fold (Sql.update_where
          (fun m => (m_room_id m =? roomId) && negb (m_sender_id m =? user_id) && extra m)
          Chat.set_read t).
  unfold Sql.select_where in IH.
  destruct (m_room_id m =? roomId) eqn:Hroom;
    destruct (m_sender_id m =? user_id) eqn:Hsender;
    destruct (extra m) eqn:Hextra;
    destruct (m_is_read m) eqn:Hread;
    cbn [andb negb Chat.set_read m_room_id m_sender_id m_is_read];
    rewrite ?Hroom, ?Hsender, ?Hread; cbn [andb negb List.length];
    now rewrite IH.
Qed.

Lemma update_where_keeps {A : Type} (cond : A -> bool) (set : A -> A) (t : list A)
    (r : A) :
  In r t -> cond r = false -> In r (Sql.update_where cond set t).
Proof.
  intros Hin Hcond. unfold Sql.update_where.
  apply in_map_iff. exists r. now rewrite Hcond.
Qed.

(** X16.  After a participant marks a room read, or reads a page of its
    messages, the room has no unread message from the other party and the
    room list shows an unread count of 0 for it; messages of other rooms and
    the caller's own messages are exactly as before. *)
Theorem reading_a_room_clears_unread (db : Db) (user_id roomId p l : Z) :
  Chat.rooms_of db roomId user_id <> [] ->
  1 <= p -> 0 <= l ->
  forall db',
    db' = fst (Chat.mark_read db user_id (Num roomId))
    \/ db' = fst (Chat.get_messages db user_id (Num roomId) (Num p) (Num l)) ->
    ChatRooms.unread_in_room db' roomId user_id = 0
    /\ (forall v, In v (ChatRooms.rooms db' user_id) ->
                  ChatRooms.rv_id v = roomId -> ChatRooms.rv_unread_count v = 0)
    /\ (forall m, In m (messages db) ->
                  m_room_id m <> roomId \/ m_sender_id m = user_id ->
                  In m (messages db')).
Proof.
  intros Hroom Hp Hl db' Hdb'.
  assert (Hshape : exists extra,
             db' = set_messages db
                     (Sql.update_where
                        (fun m => (m_room_id m =? roomId)
                                  && negb (m_sender_id m =? user_id) && extra m)
                        Chat.set_read (messages db))
             /\ forall m, negb (m_is_read m) && negb (extra m) = false).
  { destruct Hdb' as [-> | ->].
    - exists (fun _ => true). unfold Chat.mark_read.
      destruct (Chat.rooms_of db roomId user_id); [contradiction |].
      cbn [fst]. split; [| intros m; apply andb_false_r].
      f_equal. unfold Sql.update_where. apply map_ext. intros m.
      now rewrite andb_true_r.
    - exists (fun m => negb (m_is_read m)). unfold Chat.get_messages.
      destruct (Chat.rooms_of db roomId user_id); [contradiction |].
      match goal with
      | |- context [Sql.limit_offset _ _ ?rows] =>
          destruct (limit_offset_accepts p l rows Hp Hl) as (page_rows & -> & _)
      end.
      cbn [fst]. split; [reflexivity |].
      intros m. now destruct (m_is_read m). }
  destruct Hshape as (extra & -> & Hextra).
  assert (Hzero : ChatRooms.unread_in_room
                    (set_messages db
                       (Sql.update_where
                          (fun m => (m_room_id m =? roomId)
                                    && negb (m_sender_id m =? user_id) && extra m)
                          Chat.set_read (messages db)))
                    roomId user_id = 0).
  { rewrite unread_after_marking, select_none; [reflexivity |].
    intros m _. rewrite <- andb_assoc, Hextra. apply andb_false_r. }
  split; [exact Hzero |]. split.
  - intros v Hin Hid. apply order_by_In in Hin.
    apply in_flat_map in Hin as (cr & _ & Hin).
    apply in_flat_map in Hin as (pr & _ & Hin).
    apply in_flat_map in Hin as (buyer & _ & Hin).
    apply in_map_iff in Hin as (seller & <- & _).
    cbn [ChatRooms.rv_id ChatRooms.rv_unread_count] in *.
    rewrite Hid. exact Hzero.
  - intros m Hin Hother. cbn [messages set_messages].
    apply update_where_keeps; [exact Hin |].
    destruct Hother as [Hne | Heq].
    + apply Z.eqb_neq in Hne. now rewrite Hne.
    + rewrite Heq, Z.eqb_refl. cbn [negb]. now rewrite andb_false_r.
Qed.

Lemma reading_a_room_clears_unread_witness :
  ChatRooms.unread_in_room market_with_chat 1 1 = 1
  /\ ChatRooms.unread_in_room (fst (Chat.mark_read market_with_chat 1 (Num 1))) 1 1 = 0.
Proof.
  split; [reflexivity |].
  assert (Hroom : Chat.rooms_of market_with_chat 1 1 <> []) by discriminate.
  assert (Hp : 1 <= 1) by discriminate.
  assert (Hl : 0 <= 20) by discriminate.
  exact (proj1 (reading_a_room_clears_unread market_with_chat 1 1 1 20 Hroom Hp Hl _
                  (or_introl eq_refl))).
Defined.

Lemma strip_white_space (cp : N) (rest : list Ascii.ascii) :
  In cp (Chat.WhiteSpace ++ Chat.LineTerminator) ->
  Chat.trim_start (Chat.utf8 cp ++ rest) = Chat.trim_start rest.
Proof.
  intros Hcp. cbn [Chat.WhiteSpace Chat.LineTerminator app In] in Hcp.
  repeat (destruct Hcp as [<- | Hcp]; [reflexivity |]). contradiction.
Qed.

Lemma trim_white_space (cps : list N) :
  (forall cp, In cp cps -> In cp (Chat.WhiteSpace ++ Chat.LineTerminator)) ->
  Chat.trim (Chat.encode cps) = "".
Proof.
  intros Hwhite. unfold Chat.trim, Chat.encode.
  rewrite list_ascii_of_string_of_list_ascii.
  assert (Hstart : Chat.trim_start (flat_map Chat.utf8 cps) = []).
  { induction cps as [| cp cps IH]; [reflexivity |].
    cbn [flat_map]. rewrite strip_white_space by (apply Hwhite; now left).
    apply IH. intros x Hx. apply Hwhite. now right. }
  now rewrite Hstart.
Qed.

(** X17.  A message made only of white space characters (the language's
    WhiteSpace and LineTerminator code points, among them the no-break
    space, the byte order mark and the line and paragraph separators), or
    absent, or empty, is refused with 400 and nothing is stored, whatever the
    room.  A message with other text, sent by a participant, is stored once
    at the end of the table: trimmed, unread, with the caller as sender, type
    'text' unless another is given. *)
Theorem send_message_trims_and_rejects_blank (now : Z) (db : Db) (user_id roomId : Z)
    (text : string) (message_type attachment : option string) :
  (forall cps,
     (forall cp, In cp cps -> In cp (Chat.WhiteSpace ++ Chat.LineTerminator)) ->
     Chat.send_message now db user_id (Num roomId)
       (Chat.mkSendBody (Some (Chat.encode cps)) message_type attachment)
     = (db, fail 400 "Message cannot be empty"))
  /\ Chat.send_message now db user_id (Num roomId)
       (Chat.mkSendBody None message_type attachment)
     = (db, fail 400 "Message cannot be empty")
  /\ (Chat.rooms_of db roomId user_id <> [] ->
      Chat.trim text <> "" ->
      exists m,
        messages (fst (Chat.send_message now db user_id (Num roomId)
                         (Chat.mkSendBody (Some text) message_type attachment)))
        = messages db ++ [m]
        /\ m_message m = Chat.trim text
        /\ m_is_read m = false
        /\ m_sender_id m = user_id
        /\ m_room_id m = roomId
        /\ m_created_at m = now
        /\ (message_type = None -> m_message_type m = "text")
        /\ (forall x, In x (messages db) -> m_id x < m_id m)).
Proof.
  split; [| split].
  - intros cps Hwhite. unfold Chat.send_message. cbn [Chat.sb_message].
    rewrite (trim_white_space cps Hwhite). cbn [String.eqb].
    now rewrite orb_true_r.
  - reflexivity.
  - intros Hroom Htrim. unfold Chat.send_message. cbn [Chat.sb_message].
    assert (Htext : truthy_string (Some text) = true).
    { cbn [truthy_string]. destruct (String.eqb text "") eqn:E; [| reflexivity].
      apply String.eqb_eq in E. subst text. now contradiction Htrim. }
    apply String.eqb_neq in Htrim. rewrite Htext, Htrim. cbn [negb orb].
    destruct (Chat.rooms_of db roomId user_id); [contradiction |].
    eexists. cbn [fst messages set_messages set_chat_rooms].
    split; [reflexivity |].
    cbn [m_message m_is_read m_sender_id m_room_id m_created_at m_message_type m_id
         Chat.sb_message_type].
    repeat split.
    + now intros ->.
    + intros x Hx. apply next_id_fresh. now apply in_map.
Qed.

(** Space, no-break space, line separator, tab and the byte order mark make
    a blank message; a text between a no-break space and an ideographic
    space is stored without them. *)
Lemma send_message_trims_and_rejects_blank_witness :
  Chat.send_message 150 market_with_chat 2 (Num 1)
    (Chat.mkSendBody (Some (Chat.encode [32; 160; 8232; 9; 65279]%N)) None None)
  = (market_with_chat, fail 400 "Message cannot be empty")
  /\ exists m,
       messages (fst (Chat.send_message 150 market_with_chat 1 (Num 1)
                        (Chat.mkSendBody
                           (Some (String.append (Chat.encode [160; 32]%N)
                                    (String.append "Yes, it is."
                                       (Chat.encode [12288; 10]%N))))
                           None None)))
       = [hello; m]
       /\ m_message m = "Yes, it is.".
Proof.
  pose proof (send_message_trims_and_rejects_blank 150 market_with_chat 2 1 ""
                None None) as (Hblank & _).
  split.
  - apply Hblank. intros cp Hcp. cbn [In] in Hcp.
    repeat (destruct Hcp as [<- | Hcp]; [cbn; tauto |]). contradiction.
  - pose proof (send_message_trims_and_rejects_blank 150 market_with_chat 1 1
                  (String.append (Chat.encode [160; 32]%N)
                     (String.append "Yes, it is." (Chat.encode [12288; 10]%N)))
                  None None) as (_ & _ & Hsend).
    assert (Hroom : Chat.rooms_of market_with_chat 1 1 <> []) by discriminate.
    assert (Htrim : Chat.trim (String.append (Chat.encode [160; 32]%N)
                                 (String.append "Yes, it is."
                                    (Chat.encode [12288; 10]%N))) <> "")
      by (vm_compute; discriminate).
    destruct (Hsend Hroom Htrim) as (m & Hrows & Htext & _).
    exists m. split; [exact Hrows | exact Htext].
Defined.


(** X19.  A message report is filed against the message's sender, or,
    when the caller reports a message of their own, against the other
    participant of the room (the seller when the caller is the room's
    buyer, the buyer when the caller is its seller); with distinct buyer
    and seller it is never filed against the caller.  The report is stored as pending, of type
    'message', with the caller as reporter. *)
Theorem message_report_targets_other_party (db : Db) (user_id : Z) (messageId : JsNum)
    (body : Chat.ReportBody) :
  let db' := fst (Chat.report_message db user_id messageId body) in
  reports db' = reports db
  \/ exists rp m room target,
       reports db' = reports db ++ [rp]
       /\ In m (messages db) /\ messageId = Num (m_id m)
       /\ In room (chat_rooms db) /\ r_id room = m_room_id m
       /\ (r_buyer_id room = user_id \/ r_seller_id room = user_id)
       /\ rp_reporter_id rp = user_id
       /\ rp_report_type rp = "message"
       /\ rp_status rp = "pending"
       /\ rp_reported_user_id rp = Some target
       /\ (m_sender_id m <> user_id -> target = m_sender_id m)
       /\ (m_sender_id m = user_id -> r_buyer_id room = user_id ->
           target = r_seller_id room)
       /\ (m_sender_id m = user_id -> r_buyer_id room <> user_id ->
           r_seller_id room = user_id /\ target = r_buyer_id room)
       /\ (r_buyer_id room <> r_seller_id room -> target <> user_id).
Proof.
  intros db'. subst db'. unfold Chat.report_message.
  destruct messageId as [| messageId]; [now left |].
  destruct (Chat.rb_reason body) as [reason |]; [| now left].
  destruct (String.eqb reason ""); [now left |].
  destruct (flat_map _ _) as [| [m room] rest] eqn:Hrows; [now left |].
  right.
  assert (Hin : In (m, room) ((m, room) :: rest)) by now left.
  rewrite <- Hrows in Hin.
  apply in_flat_map in Hin as (m' & Hm & Hin).
  apply in_map_iff in Hin as (room' & [= -> ->] & Hroom).
  apply filter_In in Hm as [Hm Hid]. apply Z.eqb_eq in Hid.
  apply filter_In in Hroom as [Hroom Hcond].
  apply andb_true_iff in Hcond as [Hrid Hpart].
  apply Z.eqb_eq in Hrid.
  unfold Chat.participant in Hpart. apply orb_true_iff in Hpart.
  assert (Hparty : r_buyer_id room = user_id \/ r_seller_id room = user_id).
  { destruct Hpart as [H | H]; apply Z.eqb_eq in H; auto. }
  eexists. exists m, room. eexists.
  cbn [fst reports set_reports]. split; [reflexivity |].
  cbn [rp_reporter_id rp_report_type rp_status rp_reported_user_id].
  split; [exact Hm |]. split; [now rewrite Hid |].
  split; [exact Hroom |]. split; [exact Hrid |]. split; [exact Hparty |].
  do 4 (split; [reflexivity |]).
  split; [| split; [| split]].
  - intros Hne. apply Z.eqb_neq in Hne. now rewrite Hne.
  - intros Hsender Hbuyer. apply Z.eqb_eq in Hsender, Hbuyer.
    now rewrite Hsender, Hbuyer.
  - intros Hsender Hbuyer. split; [destruct Hparty; [contradiction | assumption] |].
    apply Z.eqb_eq in Hsender. apply Z.eqb_neq in Hbuyer.
    now rewrite Hsender, Hbuyer.
  - intros Hdistinct.
    destruct (m_sender_id m =? user_id) eqn:Hsender.
    + destruct (r_buyer_id room =? user_id) eqn:Hbuyer.
      * apply Z.eqb_eq in Hbuyer. congruence.
      * apply Z.eqb_neq in Hbuyer. exact Hbuyer.
    + now apply Z.eqb_neq.
Qed.

Example message_report_on_own_message :
  reports (fst (Chat.report_message market_with_chat 2 (Num 1)
                  (Chat.mkReportBody (Some "spam") None)))
  = [mkReport 1 2 (Some 1) "message" "spam" None "pending" None None].
Proof. reflexivity. Qed.

(** ** Product images and the listing life cycle *)

Lemma primary_after_plain_image (db : Db) (this : ProductRow) (imageUrl : string)
    (product_id : Z) :
  primary_images (fst (Product.addImage db this imageUrl false)) product_id
  = primary_images db product_id.
Proof.
  unfold primary_images, Product.addImage.
  cbn [fst product_images set_product_images].
  unfold Sql.insert. rewrite select_app.
  cbn [Sql.select_where filter i_is_primary]. rewrite andb_false_r.
  apply app_nil_r.
Qed.

Lemma images_after_add (db : Db) (this : ProductRow) (imageUrl : string)
    (isPrimary : bool) :
  List.length (images_of (fst (Product.addImage db this imageUrl isPrimary)) (p_id this))
  = S (List.length (images_of db (p_id this))).
Proof.
  unfold images_of, Product.addImage.
  destruct isPrimary; cbn [fst product_images set_product_images];
    unfold Sql.insert; rewrite select_app, length_app;
    cbn [Sql.select_where filter i_product_id]; rewrite Z.eqb_refl;
    cbn [List.length].
  - match goal with
    | |- context [Sql.update_where ?c ?f ?t] =>
        rewrite (select_update_same c f (fun _ => eq_refl))
    end.
    rewrite length_map. lia.
  - lia.
Qed.

Lemma add_primary_image_created (db : Db) (this : ProductRow) (imageUrl : string) :
  primary_images (fst (Product.addImage db this imageUrl true)) (p_id this)
  = [mkImage (snd (Product.addImage db this imageUrl true)) (p_id this) imageUrl true].
Proof.
  unfold primary_images, Product.addImage.
  cbn [fst snd product_images set_product_images].
  unfold Sql.insert. rewrite select_app, select_none.
  - cbn [app Sql.select_where filter i_product_id i_is_primary].
    now rewrite Z.eqb_refl.
  - intros r Hin. unfold Sql.update_where in Hin.
    apply in_map_iff in Hin as (i & <- & _).
    destruct (i_product_id i =? p_id this) eqn:E; cbn [i_product_id i_is_primary].
    + apply andb_false_r.
    + now rewrite E.
Qed.

Lemma add_files_later (db : Db) (product : ProductRow) (i : nat) (files : list string)
    (product_id : Z) :
  primary_images (Listing.add_files db product (S i) files) product_id
  = primary_images db product_id
  /\ List.length (images_of (Listing.add_files db product (S i) files) (p_id product))
     = (List.length (images_of db (p_id product)) + List.length files)%nat.
Proof.
  revert db i. induction files as [| f files IH]; intros db i.
  - cbn [Listing.add_files List.length]. split; [reflexivity | lia].
  - cbn [Listing.add_files Nat.eqb List.length].
    destruct (IH (fst (Product.addImage db product
                         (String.append "/uploads/products/" f) false)) (S i))
      as [Hprim Hlen].
    rewrite Hprim, Hlen, primary_after_plain_image, images_after_add.
    split; [reflexivity | lia].
Qed.

(** X20.  After the image step of product creation or update with at
    least one uploaded file, the product has exactly one primary image, the
    first file of the upload, and as many more images as files were sent.
    Creation without files stores the placeholder as the primary image;
    an update without files changes nothing. *)
Theorem upload_makes_first_file_primary (db : Db) (product : ProductRow)
    (first : string) (rest : list string) :
  (forall db',
      db' = Listing.images_on_create db product (first :: rest)
      \/ db' = Listing.images_on_update db product (first :: rest) ->
      (exists id,
          primary_images db' (p_id product)
          = [mkImage id (p_id product) (String.append "/uploads/products/" first) true])
      /\ List.length (images_of db' (p_id product))
         = (List.length (images_of db (p_id product)) + S (List.length rest))%nat)
  /\ (exists id,
         primary_images (Listing.images_on_create db product []) (p_id product)
         = [mkImage id (p_id product) "/uploads/placeholder-product.jpg" true])
  /\ Listing.images_on_update db product [] = db.
Proof.
  split; [| split].
  - intros db' Hdb'.
    assert (Heq : db' = Listing.add_files db product 0 (first :: rest))
      by (destruct Hdb' as [-> | ->]; reflexivity).
    rewrite Heq. cbn [Listing.add_files Nat.eqb].
    destruct (add_files_later
                (fst (Product.addImage db product
                        (String.append "/uploads/products/" first) true))
                product 0 rest (p_id product)) as [Hprim Hlen].
    rewrite Hprim, Hlen, images_after_add.
    split; [| lia].
    eexists. apply (add_primary_image_created db product).
  - eexists. apply (add_primary_image_created db product).
  - reflexivity.
Qed.

(** X21.  'At most one primary image per product' is kept by the image
    methods of the Product model: if it holds for every product before
    [addImage] (with either flag) or [removeImage], it holds after. *)
Theorem at_most_one_primary_image_kept (db : Db) (this : ProductRow)
    (imageUrl : string) (isPrimary : bool) (imageId : Z) :
  (forall product_id, (List.length (primary_images db product_id) <= 1)%nat) ->
  forall product_id,
    (List.length
       (primary_images (fst (Product.addImage db this imageUrl isPrimary)) product_id)
     <= 1)%nat
    /\ (List.length (primary_images (Product.removeImage db this imageId) product_id)
        <= List.length (primary_images db product_id))%nat.
Proof.
  intros Hinv product_id. split.
  - destruct isPrimary.
    + destruct (Z.eq_dec product_id (p_id this)) as [-> | Hne].
      * now rewrite add_primary_image_created.
      * unfold primary_images, Product.addImage.
        cbn [fst product_images set_product_images].
        unfold Sql.insert. rewrite select_app.
        cbn [Sql.select_where filter i_product_id i_is_primary].
        apply Z.eqb_neq in Hne. rewrite Z.eqb_sym, Hne. cbn [andb].
        rewrite app_nil_r, select_update_disjoint; [apply (Hinv product_id) |].
        intros i Hi. apply Z.eqb_eq in Hi. cbn [i_product_id i_is_primary].
        rewrite Hi, Z.eqb_sym, Hne. now split.
    + rewrite primary_after_plain_image. apply Hinv.
  - unfold primary_images, Product.removeImage.
    cbn [product_images set_product_images].
    induction (product_images db) as [| i t IH]; [apply Nat.le_refl |].
    cbn [Sql.delete_where Sql.select_where filter].
    fold (Sql.delete_where
            (fun i => (i_id i =? imageId) && (i_product_id i =? p_id this)) t).
    fold (Sql.select_where
            (fun i => (i_product_id i =? product_id) && i_is_primary i) t).
    unfold Sql.select_where in IH.
    destruct ((i_id i =? imageId) && (i_product_id i =? p_id this));
      cbn [negb]; cbn [filter];
      destruct ((i_product_id i =? product_id) && i_is_primary i);
      cbn [List.length]; unfold Sql.select_where; lia.
Qed.

Lemma at_most_one_primary_image_kept_witness :
  (List.length
     (primary_images (fst (Product.addImage market lamp "/uploads/products/a.jpg" true))
        7)
   <= 1)%nat.
Proof.
  assert (Hinv : forall product_id,
             (List.length (primary_images market product_id) <= 1)%nat).
  { intros product_id. exact (Nat.le_0_l 1). }
  exact (proj1 (at_most_one_primary_image_kept market lamp "/uploads/products/a.jpg"
                  true 0 Hinv 7)).
Defined.

Lemma first_row_inserted {A : Type} (key : A -> Z) (t : list A) (row : A) :
  key row = Sql.next_id (map key t) ->
  Sql.first_row (Sql.select_where (fun r => key r =? key row) (Sql.insert row t))
  = Some row.
Proof.
  intros Hid. unfold Sql.insert. rewrite select_app, Hid, select_fresh.
  cbn [app Sql.select_where filter]. rewrite <- Hid, Z.eqb_refl. reflexivity.
Qed.

Lemma first_row_insert_keeps {A : Type} (cond : A -> bool) (t : list A) (row old : A) :
  Sql.first_row (Sql.select_where cond t) = Some old ->
  Sql.first_row (Sql.select_where cond (Sql.insert row t)) = Some old.
Proof.
  unfold Sql.insert. rewrite select_app.
  destruct (Sql.select_where cond t); [discriminate | trivial].
Qed.

Lemma findById_inserted (db : Db) (row : ProductRow) :
  p_id row = Sql.next_id (map p_id (products db)) ->
  Product.findById (set_products db (Sql.insert row (products db))) (p_id row)
  = Some row.
Proof.
  intros Hid. unfold Product.findById. cbn [products set_products].
  now apply first_row_inserted.
Qed.

(** X22.  A product created without a status is stored as pending under a
    fresh id and can be found by it; a purchase request for it is refused
    with 400 until the product's status is set to approved, after which the
    request stores a pending purchase at the product's price. *)
Theorem new_listing_needs_approval
    (spliced : string -> Db -> option (list NotificationRow)) (now now' : Z) (db : Db)
    (data : Listing.ProductData) (buyer quantity : Z) (payment_method : string) :
  Listing.pd_status data = None ->
  buyer <> Listing.pd_seller_id data ->
  let db1 := fst (Listing.create now db data) in
  exists product,
    snd (Listing.create now db data) = Some product
    /\ p_status product = "pending"
    /\ p_seller_id product = Listing.pd_seller_id data
    /\ (forall p, In p (products db) -> p_id p < p_id product)
    /\ Product.findById db1 (p_id product) = Some product
    /\ Purchases.create_handler spliced now' db1 buyer (p_id product) quantity
         payment_method
       = (db1, fail 400 "Product is not available for purchase")
    /\ let db2 := fst (Listing.updateStatus db1 product "approved") in
       exists row,
         purchases (fst (Purchases.create_handler spliced now' db2 buyer (p_id product)
                           quantity payment_method))
         = purchases db2 ++ [row]
         /\ pu_status row = "pending"
         /\ pu_price row = Listing.pd_price data
         /\ pu_seller_id row = Listing.pd_seller_id data.
Proof.
  intros Hstatus Hbuyer db1. subst db1.
  unfold Listing.create. rewrite Hstatus. cbn [fst snd].
  set (product := mkProduct (Sql.next_id (map p_id (products db)))
                    (Listing.pd_title data) (Listing.pd_price data)
                    (Listing.pd_category_id data) (Listing.pd_seller_id data)
                    "pending" now).
  set (db1 := set_products db (Sql.insert product (products db))).
  assert (Hfound : Product.findById db1 (p_id product) = Some product)
    by (apply findById_inserted; reflexivity).
  exists product. split; [exact Hfound |].
  split; [reflexivity |]. split; [reflexivity |].
  split; [intros p Hp; apply next_id_fresh; now apply in_map |].
  split; [exact Hfound |].
  assert (Hne : (p_seller_id product =? buyer) = false)
    by (apply Z.eqb_neq; cbn; congruence).
  split.
  - unfold Purchases.create_handler. rewrite Hfound, Hne. reflexivity.
  - set (db2 := fst (Listing.updateStatus db1 product "approved")).
    assert (Hfound2 : Product.findById db2 (p_id product)
                      = Some (mkProduct (p_id product) (p_title product)
                                (p_price product) (p_category_id product)
                                (p_seller_id product) "approved"
                                (p_created_at product))).
    { subst db2. unfold Listing.updateStatus, Product.findById.
      cbn [fst products set_products].
      rewrite (first_row_update_same p_id
                 (fun p => mkProduct (p_id p) (p_title p) (p_price p) (p_category_id p)
                             (p_seller_id p) "approved" (p_created_at p))
                 (fun _ => eq_refl)).
      unfold Product.findById in Hfound. now rewrite Hfound. }
    assert (Hother : p_seller_id product <> buyer) by (cbn; congruence).
    destruct (create_stores spliced now' db2 buyer (p_id product) quantity
                payment_method _ Hfound2 Hother eq_refl) as (Hrows & _).
    eexists. split; [exact Hrows |]. repeat split.
Qed.

Lemma new_listing_needs_approval_witness :
  exists product,
    snd (Listing.create 200 market (Listing.mkProductData "Chair" 5000 3 1 None))
    = Some product
    /\ p_status product = "pending"
    /\ Purchases.create_handler refuse_spliced 201
         (fst (Listing.create 200 market (Listing.mkProductData "Chair" 5000 3 1 None)))
         2 (p_id product) 1 "cash"
       = (fst (Listing.create 200 market (Listing.mkProductData "Chair" 5000 3 1 None)),
          fail 400 "Product is not available for purchase").
Proof.
  assert (Hbuyer : 2 <> 1) by discriminate.
  destruct (new_listing_needs_approval refuse_spliced 200 201 market
              (Listing.mkProductData "Chair" 5000 3 1 None) 2 1 "cash" eq_refl Hbuyer)
    as (product & Hcreated & Hpending & _ & _ & _ & Hrefused & _).
  exists product. repeat split; assumption.
Defined.

(** X23.  The admin's delete route removes a category only when no product
    refers to it: with the category's statistics showing a product, the
    error 'Cannot delete category with existing products' is passed on and
    the catalog is unchanged; with none, the category is gone afterwards,
    the other categories and the products are as before, and every product
    whose category existed still has it. *)
Theorem category_delete_needs_no_products (c : Catalog) (id : Z) (this : CategoryRow) :
  Category.findById c id = Some this ->
  let total := fst (fst (fst (Category.getStats c this))) in
  (0 < total ->
   AdminCategories.delete c (Num id)
   = (c, Next "Error deleting category: Cannot delete category with existing products"))
  /\ (total = 0 ->
      let c' := fst (AdminCategories.delete c (Num id)) in
      snd (AdminCategories.delete c (Num id))
      = Sent (mkReply 200 true (Some "Category deleted successfully") [] None)
      /\ base c' = base c
      /\ Category.findById c' id = None
      /\ (forall other, other <> id ->
            Category.findById c' other = Category.findById c other)
      /\ (forall p, In p (products (base c)) ->
            Category.findById c (p_category_id p) <> None ->
            Category.findById c' (p_category_id p) <> None)).
Proof.
  intros Hfound total.
  destruct (first_row_select_sound _ _ _ Hfound) as [_ Hid].
  apply Z.eqb_eq in Hid.
  subst total. unfold AdminCategories.delete. rewrite Hfound.
  unfold Category.delete, Category.getStats. cbn [fst].
  set (mine := Sql.select_where (fun p => p_category_id p =? cat_id this)
                 (products (base c))).
  split; intros Htotal.
  - apply Z.ltb_lt in Htotal. rewrite Htotal. reflexivity.
  - rewrite Htotal. cbn [Z.ltb Z.compare fst snd base].
    assert (Hother : forall other, other <> id ->
              Category.findById
                (mkCatalog (base c)
                   (Sql.delete_where (fun cat => cat_id cat =? cat_id this)
                      (categories c))) other
              = Category.findById c other).
    { intros other Hne. unfold Category.findById. cbn [categories].
      rewrite select_delete_disjoint; [reflexivity |].
      intros r Hr. apply Z.eqb_eq in Hr. apply Z.eqb_neq. congruence. }
    split; [reflexivity |]. split; [reflexivity |].
    split; [| split; [exact Hother |]].
    + unfold Category.findById. cbn [categories].
      rewrite <- Hid, select_deleted. reflexivity.
    + intros p Hp Hsome. rewrite Hother; [exact Hsome |].
      intros Heq.
      assert (Hin : In p mine).
      { apply filter_In. split; [exact Hp |]. apply Z.eqb_eq. congruence. }
      destruct mine; [contradiction | discriminate Htotal].
Qed.

Lemma category_delete_needs_no_products_witness :
  AdminCategories.delete catalog (Num 3)
  = (catalog, Next "Error deleting category: Cannot delete category with existing products")
  /\ Category.findById (fst (AdminCategories.delete catalog (Num 4))) 4 = None.
Proof.
  split.
  - exact (proj1 (category_delete_needs_no_products catalog 3
                    (mkCategory 3 "Home" "fas fa-home" None 90 90) eq_refl) eq_refl).
  - exact (proj1 (proj2 (proj2
             (proj2 (category_delete_needs_no_products catalog 4
                       (mkCategory 4 "Books" "fas fa-book" (Some "Novels") 91 91)
                       eq_refl) eq_refl)))).
Defined.

(** X24.  The admin's create route refuses a body whose name or icon is
    missing or empty with 400 and leaves the catalog alone; otherwise it
    answers 201 with the stored category, which has a fresh id, is appended to
    the table, can be found by its id, and hides no category that could be
    found before. *)
Theorem category_create_round_trip (now : Z) (c : Catalog)
    (body : AdminCategories.CreateBody) :
  (truthy_string (AdminCategories.cb_name body)
   && truthy_string (AdminCategories.cb_icon body) = false ->
   AdminCategories.create now c body = (c, fail 400 "Name and icon are required"))
  /\ (forall name icon,
        AdminCategories.cb_name body = Some name ->
        AdminCategories.cb_icon body = Some icon ->
        name <> "" -> icon <> "" ->
        let c' := fst (AdminCategories.create now c body) in
        exists row,
          snd (AdminCategories.create now c body)
          = Sent (mkReply 201 true (Some "Category created successfully") []
                    (Some (Some row)))
          /\ cat_name row = name /\ cat_icon row = icon
          /\ (forall old, In old (categories c) -> cat_id old < cat_id row)
          /\ categories c' = categories c ++ [row]
          /\ base c' = base c
          /\ Category.findById c' (cat_id row) = Some row
          /\ (forall id old, Category.findById c id = Some old ->
                Category.findById c' id = Some old)).
Proof.
  unfold AdminCategories.create. split.
  - intros H.
    destruct (AdminCategories.cb_name body) as [name |];
      destruct (AdminCategories.cb_icon body) as [icon |]; try reflexivity.
    rewrite <- negb_andb, H. reflexivity.
  - intros name icon -> -> Hname Hicon.
    assert (Hn : truthy_string (Some name) = true)
      by (cbn; apply negb_true_iff, String.eqb_neq, Hname).
    assert (Hi : truthy_string (Some icon) = true)
      by (cbn; apply negb_true_iff, String.eqb_neq, Hicon).
    rewrite Hn, Hi. cbn [negb orb].
    unfold Category.create.
    cbn [Category.cd_name Category.cd_icon Category.cd_description].
    set (row := mkCategory (Sql.next_id (map cat_id (categories c))) name icon
                  (if truthy_string (AdminCategories.cb_description body)
                   then AdminCategories.cb_description body else None) now now).
    assert (Hfound : Category.findById
                       (mkCatalog (base c) (Sql.insert row (categories c)))
                       (Sql.next_id (map cat_id (categories c)))
                     = Some row).
    { unfold Category.findById. cbn [categories].
      apply (first_row_inserted cat_id (categories c) row). reflexivity. }
    rewrite Hfound. cbn [fst snd]. exists row.
    split; [reflexivity |]. split; [reflexivity |]. split; [reflexivity |].
    split; [intros old Hold; apply next_id_fresh; now apply in_map |].
    split; [reflexivity |]. split; [reflexivity |].
    split; [exact Hfound |].
    intros id old Hold. unfold Category.findById. cbn [categories].
    now apply first_row_insert_keeps.
Qed.

Example category_create_without_icon :
  AdminCategories.create 300 catalog (AdminCategories.mkCreateBody (Some "Toys") None None)
  = (catalog, fail 400 "Name and icon are required").
Proof. reflexivity. Qed.

Lemma set_users_back (db : Db) (rows : list UserRow) :
  set_users (set_users db rows) (users db) = db.
Proof. now destruct db. Qed.

Lemma set_column_profile (column : string) (v : JsVal) (set : UserRow -> UserRow) :
  In column ["name"; "phone"; "avatar"] ->
  Account.set_column column v = Some set ->
  forall u, Account.guarded (set u) = Account.guarded u.
Proof.
  intros [<- | [<- | [<- | []]]] Hset u;
    destruct v; cbn in Hset; try discriminate Hset;
    injection Hset as <-; reflexivity.
Qed.

Lemma assignments_profile (fields : JsObject) (set : UserRow -> UserRow) :
  (forall kv, In kv fields -> In (fst kv) ["name"; "phone"; "avatar"]) ->
  Account.assignments fields = Some set ->
  forall u, Account.guarded (set u) = Account.guarded u.
Proof.
  revert set. induction fields as [| [column v] rest IH]; intros set Hkeys Hset u.
  - injection Hset as <-. reflexivity.
  - cbn [Account.assignments] in Hset.
    destruct (Account.set_column column v) as [set1 |] eqn:E1; [| discriminate].
    destruct (Account.assignments rest) as [set_rest |] eqn:E2; [| discriminate].
    injection Hset as <-.
    rewrite (IH set_rest (fun kv H => Hkeys kv (or_intror H)) eq_refl).
    apply (set_column_profile column v set1 (Hkeys (column, v) (or_introl eq_refl)) E1).
Qed.

(** X25.  [updateProfile] reaches the name, phone, avatar and update time of
    one user only: whatever the profile data hold, every user's id, email,
    password hash, flags, counters and creation time are as before, the rows
    of the other users and the other tables are untouched; and profile data
    that define none of the three fields are refused with 'No fields to
    update' under both methods' prefixes, without a write. *)
Theorem profile_update_reaches_three_columns (refusal : string) (now : Z) (db : Db)
    (this : UserRow) (profileData : JsObject) :
  let out := Account.updateProfile refusal now db this profileData in
  map Account.guarded (users (fst out)) = map Account.guarded (users db)
  /\ set_users (fst out) (users db) = db
  /\ (forall u, In u (users db) -> u_id u <> u_id this -> In u (users (fst out)))
  /\ ((forall field v, In field ["name"; "phone"; "avatar"] ->
         get_prop field profileData = Some v -> v = JUndefined) ->
      out = (db, Thrown "Error updating profile: Error updating user: No fields to update")).
Proof.
  intros out. subst out. unfold Account.updateProfile.
  set (updateData := flat_map _ _).
  assert (Hkeys : forall kv, In kv (filter (fun kv => Account.defined (snd kv)) updateData)
                    -> In (fst kv) ["name"; "phone"; "avatar"]).
  { intros kv Hkv. apply filter_In in Hkv as [Hkv _].
    subst updateData. apply in_flat_map in Hkv as (field & Hfield & Hkv).
    destruct (get_prop field profileData) as [v |]; [| contradiction].
    destruct (Account.defined v); [| contradiction].
    destruct Hkv as [<- | []]. exact Hfield. }
  assert (Hempty : (forall field v, In field ["name"; "phone"; "avatar"] ->
                      get_prop field profileData = Some v -> v = JUndefined) ->
                   updateData = []).
  { intros Hnone. subst updateData. cbn [flat_map app].
    destruct (get_prop "name" profileData) as [v1 |] eqn:E1;
      [rewrite (Hnone "name" v1); [| cbn; tauto | exact E1] |];
      (destruct (get_prop "phone" profileData) as [v2 |] eqn:E2;
       [rewrite (Hnone "phone" v2); [| cbn; tauto | exact E2] |]);
      (destruct (get_prop "avatar" profileData) as [v3 |] eqn:E3;
       [rewrite (Hnone "avatar" v3); [| cbn; tauto | exact E3] |]);
      reflexivity. }
  unfold Account.update.
  destruct (filter (fun kv => Account.defined (snd kv)) updateData) as [| kv fields] eqn:Efields.
  - cbn [fst]. split; [reflexivity |]. split; [now destruct db |].
    split; [trivial |]. intros _. reflexivity.
  - destruct (Account.assignments (kv :: fields)) as [set |] eqn:Eset.
    + cbn [fst users set_users].
      split; [| split; [apply set_users_back | split]].
      * apply map_update_where. intros r.
        apply (assignments_profile (kv :: fields) set Hkeys Eset).
      * intros u Hin Hne. apply update_where_keeps; [exact Hin |].
        now apply Z.eqb_neq.
      * intros Hnone. rewrite (Hempty Hnone) in Efields. discriminate Efields.
    + cbn [fst]. split; [reflexivity |]. split; [now destruct db |].
      split; [trivial |].
      intros Hnone. rewrite (Hempty Hnone) in Efields. discriminate Efields.
Qed.

Example profile_update_ignores_other_keys :
  let profileData := [("name", JString "Alicia"); ("is_admin", JBool true);
                      ("password", JString "plain")] in
  snd (Account.updateProfile "no such column" 130 market alice profileData)
  = Returned
      (Some (mkUser 1 "Alicia" "alice@example.com" None "$2a$10$hashA" None true true
               false 0 0 1 0 100 130)).
Proof. reflexivity. Qed.

Lemma update_flags (refusal : string) (now : Z) (db : Db) (user : UserRow)
    (req : AdminUsers.StatusRequest) :
  let updateData :=
    AdminUsers.flag_entry "is_active" (AdminUsers.us_is_active req)
    ++ AdminUsers.flag_entry "is_verified" (AdminUsers.us_is_verified req) in
  updateData <> [] ->
  exists set,
    Account.update refusal now db user updateData
    = (let db' := set_users db
                    (Sql.update_where (fun u => u_id u =? u_id user)
                       (fun u => Account.touch now (set u)) (users db)) in
       (db', Returned (Account.findById db' (u_id user))))
    /\ forall u,
         credentials (set u) = credentials u
         /\ u_is_active (set u)
            = match AdminUsers.us_is_active req with
              | Some b => b
              | None => u_is_active u
              end.
Proof.
  destruct (AdminUsers.us_is_active req) as [a |],
           (AdminUsers.us_is_verified req) as [v |];
    cbn [AdminUsers.flag_entry app]; intros Hdata;
    try (contradiction Hdata; reflexivity);
    eexists; (split; [reflexivity |]); intros u; split; reflexivity.
Qed.

(** X26.  The admin's user status route changes the two flags of the named
    user and nothing else in the users table: names, emails, password hashes
    and admin flags are as before in every case and the other users' rows are
    untouched; a request naming the admin's own account is refused with 400
    without a write; and deactivating another, existing user answers 200,
    stores the flag as false and notifies that user. *)
Theorem admin_status_route_changes_flags_only (refusal : string) (now : Z) (db : Db)
    (req : AdminUsers.StatusRequest) :
  let out := AdminUsers.update_status refusal now db req in
  map credentials (users (fst out)) = map credentials (users db)
  /\ (forall u, In u (users db) -> AdminUsers.us_userId req <> Num (u_id u) ->
        In u (users (fst out)))
  /\ (AdminUsers.us_userId req = Num (AdminUsers.us_admin_id req) ->
      out = (db, fail 400 "You cannot modify your own account"))
  /\ (forall userId user,
        AdminUsers.us_userId req = Num userId ->
        userId <> AdminUsers.us_admin_id req ->
        Account.findById db userId = Some user ->
        AdminUsers.us_is_active req = Some false ->
        (exists reply, snd out = Sent reply /\ statusCode reply = 200)
        /\ option_map u_is_active (Account.findById (fst out) userId) = Some false
        /\ exists n,
             notifications (fst out) = notifications db ++ [n]
             /\ n_user_id n = userId
             /\ String.prefix "Your account has been deactivated" (n_message n) = true).
Proof.
  intros out. subst out. unfold AdminUsers.update_status.
  destruct (AdminUsers.us_userId req) as [| userId] eqn:Eid.
  { cbn [fst]. repeat split; trivial; discriminate. }
  destruct (userId =? AdminUsers.us_admin_id req) eqn:Eself.
  { cbn [fst]. split; [reflexivity |]. split; [trivial |].
    split; [reflexivity |].
    intros userId' user [= <-] Hne. apply Z.eqb_eq in Eself. contradiction. }
  assert (Hself : Num userId = Num (AdminUsers.us_admin_id req) -> False).
  { intros [= Heq]. apply Z.eqb_neq in Eself. contradiction. }
  destruct (Account.findById db userId) as [user |] eqn:Euser.
  2: { cbn [fst]. split; [reflexivity |]. split; [trivial |].
       split; [intros H; destruct (Hself H) |].
       intros userId' user' [= <-] _ Huser'. congruence. }
  destruct (first_row_select_sound _ _ _ Euser) as [_ Hkey].
  apply Z.eqb_eq in Hkey.
  pose proof (update_flags refusal now db user req) as Hupdate.
  cbn zeta in Hupdate.
  remember (AdminUsers.flag_entry "is_active" (AdminUsers.us_is_active req)
            ++ AdminUsers.flag_entry "is_verified" (AdminUsers.us_is_verified req))
    as updateData eqn:Edata.
  destruct updateData as [| kv rest].
  { cbn [fst]. split; [reflexivity |]. split; [trivial |].
    split; [intros H; destruct (Hself H) |].
    intros userId' user' _ _ _ Hactive.
    rewrite Hactive in Edata. discriminate Edata. }
  destruct Hupdate as (set & -> & Hset); [discriminate |].
  set (users1 := Sql.update_where (fun u => u_id u =? u_id user)
                   (fun u => Account.touch now (set u)) (users db)).
  assert (Husers : forall db2 : Db, users db2 = users1 ->
            map credentials (users db2) = map credentials (users db)
            /\ (forall u, In u (users db) -> Num userId <> Num (u_id u) ->
                  In u (users db2))).
  { intros db2 ->. split.
    - apply map_update_where. intros r. apply (Hset r).
    - intros u Hin Hne. apply update_where_keeps; [exact Hin |].
      apply Z.eqb_neq. congruence. }
  assert (Hfound : forall db2 : Db, users db2 = users1 ->
            option_map u_is_active (Account.findById db2 userId)
            = Some match AdminUsers.us_is_active req with
                   | Some b => b
                   | None => u_is_active user
                   end).
  { intros db2 Hdb2. unfold Account.findById. rewrite Hdb2. subst users1.
    rewrite Hkey.
    rewrite (first_row_update_same u_id (fun u => Account.touch now (set u))
               (fun r => f_equal (fun c => fst (fst (fst (fst c)))) (proj1 (Hset r)))).
    unfold Account.findById in Euser. rewrite Euser.
    cbn [option_map Account.touch u_is_active]. f_equal. apply (Hset user). }
  destruct (AdminUsers.us_is_active req) as [[|] |] eqn:Eactive;
    destruct (AdminUsers.us_is_verified req) as [[|] |] eqn:Everified;
    cbn [app fst snd];
    (split; [apply Husers; reflexivity |]);
    (split; [apply Husers; reflexivity |]);
    (split; [intros H; destruct (Hself H) |]);
    intros userId' user' [= <-] _ _ Hfalse; try discriminate Hfalse;
    (split; [eexists; split; reflexivity |]);
    (split; [apply Hfound; reflexivity |]);
    eexists; (split; [reflexivity |]); split; reflexivity.
Qed.

Lemma admin_status_route_changes_flags_only_witness :
  option_map u_is_active
    (Account.findById
       (fst (AdminUsers.update_status "no such column" 140 market
               (AdminUsers.mkStatusRequest 1 (Num 2) (Some false) None)))
       2)
  = Some false.
Proof.
  assert (Hother : 2 <> 1) by discriminate.
  exact (proj1 (proj2
           (proj2 (proj2 (proj2
              (admin_status_route_changes_flags_only "no such column" 140 market
                 (AdminUsers.mkStatusRequest 1 (Num 2) (Some false) None))))
              2 bob eq_refl Hother eq_refl eq_refl))).
Defined.

Lemma count_pairs {A B : Type} (r : A -> B -> bool) (xs : list A) (ys : list B) :
  List.length (flat_map (fun x => filter (r x) ys) xs)
  = list_sum (map (fun y => List.length (filter (fun x => r x y) xs)) ys).
Proof.
  induction xs as [| x xs IH].
  - cbn [flat_map filter List.length].
    induction ys as [| y ys IHy]; [reflexivity | exact IHy].
  - cbn [flat_map]. rewrite length_app, IH. clear IH.
    induction ys as [| y ys IHy]; [reflexivity |].
    unfold list_sum in *.
    cbn [filter map fold_right] in *.
    destruct (r x y); cbn [List.length]; lia.
Qed.

Lemma length_filter_filter {A : Type} (f g h : A -> bool) (l : list A) :
  (forall x, h x = g x && f x) ->
  List.length (filter f (filter g l)) = List.length (filter h l).
Proof.
  intros Hh. induction l as [| x l IH]; [reflexivity |].
  cbn [filter]. rewrite Hh.
  destruct (g x); cbn [andb filter]; [destruct (f x); cbn [List.length] |]; lia.
Qed.

Lemma filter_never {A : Type} (f : A -> bool) (l : list A) :
  (forall x, f x = false) -> filter f l = [].
Proof.
  intros H. induction l as [| x l IH]; [reflexivity |].
  cbn [filter]. now rewrite H.
Qed.

(** X27.  The number the unread-count route reports is the sum, over the
    rooms the user takes part in, of the per-room unread counts of the room
    list: both count the unread messages of others in the user's rooms. *)
Theorem unread_total_is_sum_over_rooms (db : Db) (user_id : Z) :
  ChatRooms.unread_count db user_id
  = fold_right Z.add 0
      (map (fun cr => ChatRooms.unread_in_room db (r_id cr) user_id)
         (Sql.select_where (Chat.participant user_id) (chat_rooms db))).
Proof.
  unfold ChatRooms.unread_count, ChatRooms.unread_in_room, Sql.select_where.
  rewrite (count_pairs
             (fun m cr => (r_id cr =? m_room_id m) && Chat.participant user_id cr)).
  induction (chat_rooms db) as [| cr t IH]; [reflexivity |].
  cbn [map list_sum fold_right filter]. unfold list_sum in IH.
  rewrite Nat2Z.inj_add, IH. clear IH.
  destruct (Chat.participant user_id cr).
  - cbn [map fold_right]. f_equal. f_equal.
    apply length_filter_filter. intros m.
    rewrite andb_true_r, (Z.eqb_sym (r_id cr)), <- andb_assoc. apply andb_comm.
  - rewrite filter_never; [reflexivity |]. intros m. apply andb_false_r.
Qed.
